(** * dbTable: a query-composition layer over SQLite, embedded in Rocq

    A shallow embedding of [dbTable.py]: the typed column expressions
    ([Column], with [Column.operate] and [Column.apply]), the view objects
    ([dbTable]) with their option dictionaries, the SQL generator
    ([dbTable.formulate]), the combinators ([select], [where], [sort],
    [group]) and the memoised row count ([__len__]).

    Python objects live in a store: a view holds references to its option
    dictionary and to its column dictionary, a column holds a reference to
    the view it belongs to, and the combinators allocate copies.  Exceptions
    are values of an error monad. *)

From Stdlib Require Import ZArith Lia Ascii String.
From stdpp Require Import base strings list pretty.

Local Open Scope string_scope.
Local Open Scope list_scope.

(** ** Exceptions and the error monad *)

Inductive exn :=
  | ValueError (msg : string)
  | TypeError (msg : string)
  | KeyError (msg : string)
  | AttributeError (msg : string)
  | StoreError (msg : string).

Inductive result (A : Type) :=
  | Ok (a : A)
  | Raise (e : exn).

Arguments Ok {A} a.
Arguments Raise {A} e.

Definition bind {A B} (r : result A) (k : A -> result B) : result B :=
  match r with
  | Ok a => k a
  | Raise e => Raise e
  end.

Notation "x <- r ;; k" := (bind r (fun x => k))
  (at level 100, r at next level, right associativity).

(** [try: ... except: raise ValueError(msg)] with a bare [except]: every
    exception of the body is replaced. *)
Definition try_except {A} (body : result A) (msg : string) : result A :=
  match body with
  | Ok a => Ok a
  | Raise _ => Raise (ValueError msg)
  end.

(** ** Python strings

    A [str] is modelled by a [string] whose characters are the code points
    below 256. *)

Definition squote : ascii := "039".
Definition dquote : ascii := "034".
Definition backslash : ascii := "092".

Fixpoint has_char (c : ascii) (s : string) : bool :=
  match s with
  | EmptyString => false
  | String d s' => Ascii.eqb c d || has_char c s'
  end.

Definition hex_digit (n : N) : ascii :=
  match n with
  | 0 => "0" | 1 => "1" | 2 => "2" | 3 => "3" | 4 => "4" | 5 => "5"
  | 6 => "6" | 7 => "7" | 8 => "8" | 9 => "9" | 10 => "a" | 11 => "b"
  | 12 => "c" | 13 => "d" | 14 => "e" | _ => "f"
  end%N%char.

Definition hex_escape (c : ascii) : string :=
  let n := N_of_ascii c in
  String backslash (String "x" (String (hex_digit (n / 16)) (String (hex_digit (n mod 16)) ""))).

(** [str.isprintable] on one code point below 256: the ASCII range from the
    space to the tilde, and the Latin-1 range without the C1 controls, the
    no-break space and the soft hyphen. *)
Definition py_printable (c : ascii) : bool :=
  let n := N_of_ascii c in
  ((32 <=? n) && (n <? 127) || (161 <=? n) && negb (n =? 173))%N.

(** One character of [repr(s)], with [q] the quote chosen for the whole. *)
Definition repr_char (q c : ascii) : string :=
  if Ascii.eqb c q || Ascii.eqb c backslash then String backslash (String c "")
  else if Ascii.eqb c "009" then String backslash "t"
  else if Ascii.eqb c "010" then String backslash "n"
  else if Ascii.eqb c "013" then String backslash "r"
  else if py_printable c then String c ""
  else hex_escape c.

Fixpoint repr_body (q : ascii) (s : string) : string :=
  match s with
  | EmptyString => EmptyString
  | String c s' => repr_char q c +:+ repr_body q s'
  end.

(** [repr(s)] for a [str]: single quotes, unless the text has a single
    quote and no double quote. *)
Definition repr_quote (s : string) : ascii :=
  if has_char squote s && negb (has_char dquote s) then dquote else squote.

Definition repr_str (s : string) : string :=
  let q := repr_quote s in
  String q (repr_body q s +:+ String q "").

(** [repr(n)] and [str(n)] for an [int]. *)
Definition repr_int (z : Z) : string := pretty z.

(** [template % args] on a tuple of strings, for the conversions that the
    templates of this program use: [%s] takes the next argument and copies
    it, [%%] is a percent sign.  No template of the program has another
    conversion. *)
Fixpoint fmt (template : string) (args : list string) : result string :=
  match template with
  | EmptyString =>
      match args with
      | [] => Ok ""
      | _ :: _ => Raise (TypeError "not all arguments converted during string formatting")
      end
  | String "%" (String "s" rest) =>
      match args with
      | a :: args' => r <- fmt rest args' ;; Ok (a +:+ r)
      | [] => Raise (TypeError "not enough arguments for format string")
      end
  | String "%" (String "%" rest) => r <- fmt rest args ;; Ok (String "%" r)
  | String "%" _ => Raise (ValueError "unsupported format character")
  | String c rest => r <- fmt rest args ;; Ok (String c r)
  end.

(** ** SQL string literals

    The literal syntax of SQL (and of SQLite): a single quote, the text with
    every single quote doubled, a single quote.  Nothing else is an escape.
    [sql_text t] is the text that the literal [t] denotes, when [t] is one. *)

Fixpoint sql_text_body (t : string) : option string :=
  match t with
  | EmptyString => None
  | String c t' =>
      if Ascii.eqb c squote then
        match t' with
        | EmptyString => Some EmptyString
        | String d t'' =>
            if Ascii.eqb d squote
            then option_map (String squote) (sql_text_body t'')
            else None
        end
      else option_map (String c) (sql_text_body t')
  end.

Definition sql_text (t : string) : option string :=
  match t with
  | String c t' => if Ascii.eqb c squote then sql_text_body t' else None
  | EmptyString => None
  end.

(** The literal that standard SQL writes for the text [s]. *)
Fixpoint sql_double_quotes (s : string) : string :=
  match s with
  | EmptyString => EmptyString
  | String c s' =>
      if Ascii.eqb c squote then String squote (String squote (sql_double_quotes s'))
      else String c (sql_double_quotes s')
  end.

Definition sql_quote (s : string) : string :=
  String squote (sql_double_quotes s +:+ String squote "").

(** ** Type tags and operands

    A column's [type] is one of the Python types that [sqltypes] maps the
    SQLite column types to. *)

Inductive pytype := Int | Float | Str.

Definition pytype_eqb (a b : pytype) : bool :=
  match a, b with
  | Int, Int | Float, Float | Str, Str => true
  | _, _ => false
  end.

(** A reference to an object of the store. *)
Definition loc := nat.

Record Column := mkColumn {
  colexpr : string;
  table : loc;
  type : pytype
}.

(** An operand that is not a [Column].  [operate] reaches such a value only
    through [c.type(x)] with [c.type] one of [int], [float], [str], and then
    through [repr] of the result, so the value is given by what these calls
    return: [as_int x] is [int(x)], [as_float x] is [repr(float(x))] (both
    [None] when the call raises), [as_str x] is [str(x)].  It has no
    attribute [colexpr]. *)
Record literal := mkLiteral {
  as_int : option Z;
  as_float : option string;
  as_str : string
}.

Inductive operand :=
  | OCol (c : Column)
  | OLit (x : literal).

(** [repr(t(x))]: the call of the type [t] on the operand [x], printed.
    A [Column] has neither [__int__] nor [__float__], so [int] and [float]
    raise [TypeError] on it; [str] falls back on its [__repr__], which is
    its [colexpr]. *)
Definition repr_call (t : pytype) (x : operand) : result string :=
  match t, x with
  | Int, OLit l =>
      match as_int l with
      | Some z => Ok (repr_int z)
      | None => Raise (ValueError "invalid literal for int()")
      end
  | Float, OLit l =>
      match as_float l with
      | Some r => Ok r
      | None => Raise (ValueError "could not convert to float")
      end
  | Str, OLit l => Ok (repr_str (as_str l))
  | Int, OCol _ => Raise (TypeError "int() argument must be a string or a number")
  | Float, OCol _ => Raise (TypeError "float() argument must be a string or a number")
  | Str, OCol c => Ok (repr_str (colexpr c))
  end.

(** ** The store

    [dbTable] objects, option dictionaries, column dictionaries and the
    one-element lists that hold a base table's column names.  A reference is
    an index; allocation appends. *)

(** The value under the key ['columns'] of an option dictionary: the
    constructor stores the list [[names]] there, [formulate] is given a
    string or a list of columns. *)
Inductive colsval :=
  | ColsNames (cell : loc)
  | ColsText (s : string)
  | ColsList (cs : list Column).

(** An option dictionary: a Python [dict] with the keys ['limit'],
    ['where'], ['columns'], ['group'], ['having'], ['sort']; a key is in the
    dictionary when its field is [Some]. *)
Record optdict := mkOptdict {
  opt_limit : option Z;
  opt_where : option Column;
  opt_columns : option colsval;
  opt_group : option Column;
  opt_having : option Column;
  opt_sort : option (Column * string)
}.

Definition empty_options : optdict := mkOptdict None None None None None None.

(** The truth value of a dictionary: it is not empty. *)
Definition optdict_truthy (o : optdict) : bool :=
  match o with
  | mkOptdict None None None None None None => false
  | _ => true
  end.

(** A column dictionary: insertion-ordered, keys unique. *)
Definition coldict := list (string * Column).

Fixpoint dict_get (k : string) (d : coldict) : option Column :=
  match d with
  | [] => None
  | (k', c) :: d' => if String.eqb k k' then Some c else dict_get k d'
  end.

Definition dict_mem (k : string) (d : coldict) : bool :=
  match dict_get k d with Some _ => true | None => false end.

(** [d[k] = c]: a present key keeps its place, a new key goes last. *)
Fixpoint dict_set (k : string) (c : Column) (d : coldict) : coldict :=
  match d with
  | [] => [(k, c)]
  | (k', c') :: d' =>
      if String.eqb k k' then (k', c) :: d' else (k', c') :: dict_set k c d'
  end.

Definition dict_keys (d : coldict) : list string := map fst d.
Definition dict_values (d : coldict) : list Column := map snd d.

Record dbTable := mkTable {
  db : nat;
  name : string;
  columns : loc;
  options : loc;
  length : option Z
}.

Record heap := mkHeap {
  tables : list dbTable;
  optdicts : list optdict;
  coldicts : list coldict;
  namecells : list (list string)
}.

Definition empty_heap : heap := mkHeap [] [] [] [].

Definition dangling {A} : result A := Raise (AttributeError "dangling reference").

Definition get_table (h : heap) (l : loc) : result dbTable :=
  match tables h !! l with Some t => Ok t | None => dangling end.

Definition get_options (h : heap) (l : loc) : result optdict :=
  match optdicts h !! l with Some o => Ok o | None => dangling end.

Definition get_columns (h : heap) (l : loc) : result coldict :=
  match coldicts h !! l with Some d => Ok d | None => dangling end.

Definition alloc_table (h : heap) (t : dbTable) : loc * heap :=
  (List.length (tables h),
   mkHeap (tables h ++ [t]) (optdicts h) (coldicts h) (namecells h)).

Definition alloc_options (h : heap) (o : optdict) : loc * heap :=
  (List.length (optdicts h),
   mkHeap (tables h) (optdicts h ++ [o]) (coldicts h) (namecells h)).

Definition alloc_columns (h : heap) (d : coldict) : loc * heap :=
  (List.length (coldicts h),
   mkHeap (tables h) (optdicts h) (coldicts h ++ [d]) (namecells h)).

Definition alloc_names (h : heap) (ns : list string) : loc * heap :=
  (List.length (namecells h),
   mkHeap (tables h) (optdicts h) (coldicts h) (namecells h ++ [ns])).

Definition set_options (h : heap) (l : loc) (o : optdict) : heap :=
  mkHeap (tables h) (<[l := o]> (optdicts h)) (coldicts h) (namecells h).

Definition set_columns (h : heap) (l : loc) (d : coldict) : heap :=
  mkHeap (tables h) (optdicts h) (<[l := d]> (coldicts h)) (namecells h).

Definition set_table (h : heap) (l : loc) (t : dbTable) : heap :=
  mkHeap (<[l := t]> (tables h)) (optdicts h) (coldicts h) (namecells h).

(** [dbTable.__eq__]: two views are equal when they have the same name. *)
Definition table_eq (h : heap) (self other : loc) : bool :=
  match tables h !! self, tables h !! other with
  | Some s, Some o => String.eqb (name o) (name s)
  | _, _ => false
  end.

(** ** Column *)

(** [Column.apply]. *)
Definition apply (self : Column) (function : string) : Column :=
  let expr := function +:+ "(" +:+ colexpr self +:+ ")" in
  mkColumn expr (table self) (type self).

(** [Column.operate] when its first operand is a column: the first two
    [if]s of the function.  Two columns of one type and one table are put
    into the template; every other second operand goes through
    [c1.type(c2)], inside the [try]. *)
Definition operate_column (h : heap) (c1 : Column) (c2 : operand)
    (expr : string) (strcheck : bool) : result Column :=
  let by_value :=
    try_except
      (r <- repr_call (type c1) c2 ;;
       if pytype_eqb (type c1) Str && strcheck then
         Ok (mkColumn ("(" +:+ colexpr c1 +:+ " || " +:+ r +:+ ")") (table c1) (type c1))
       else
         expr' <- fmt expr [colexpr c1; r] ;;
         Ok (mkColumn expr' (table c1) (type c1)))
      "Can't operate" in
  match c2 with
  | OCol c =>
      if pytype_eqb (type c1) (type c) && table_eq h (table c1) (table c) then
        expr' <- fmt expr [colexpr c1; colexpr c] ;;
        Ok (mkColumn expr' (table c1) (type c1))
      else by_value
  | OLit _ => by_value
  end.

(** [Column.operate] when only its second operand is a column: the third
    [if].  With [strcheck] on a [str] column the code reads [c1.colexpr] of
    a value that has none. *)
Definition operate_reflected (c1 : literal) (c2 : Column)
    (expr : string) (strcheck : bool) : result Column :=
  try_except
    (r <- repr_call (type c2) (OLit c1) ;;
     if pytype_eqb (type c2) Str && strcheck then
       Raise (AttributeError "colexpr")
     else
       expr' <- fmt expr [r; colexpr c2] ;;
       Ok (mkColumn expr' (table c2) (type c2)))
    "Can't operate".

(** [Column.operate].  The result is [None] when neither operand is a
    column: the function then falls off its end. *)
Definition operate (h : heap) (c1 c2 : operand) (expr : string) (strcheck : bool)
  : result (option Column) :=
  match c1, c2 with
  | OCol a, _ => c <- operate_column h a c2 expr strcheck ;; Ok (Some c)
  | OLit x, OCol b => c <- operate_reflected x b expr strcheck ;; Ok (Some c)
  | OLit _, OLit _ => Ok None
  end.

(** The operator methods of [Column]. *)
Inductive method :=
  | OpAdd | OpRAdd | OpSub | OpRSub | OpMul | OpRMul | OpDiv | OpRDiv | OpTrueDiv
  | OpLt | OpLe | OpEq | OpNe | OpGe | OpGt
  | OpAnd | OpOr.

Definition template (m : method) : string :=
  match m with
  | OpAdd | OpRAdd => "(%s + %s)"
  | OpSub | OpRSub => "(%s - %s)"
  | OpMul | OpRMul => "(%s*%s)"
  | OpDiv | OpRDiv | OpTrueDiv => "(%s / %s)"
  | OpLt => "(%s < %s)"
  | OpLe => "(%s <= %s)"
  | OpEq => "(%s = %s)"
  | OpNe => "(%s != %s)"
  | OpGe => "(%s >= %s)"
  | OpGt => "(%s > %s)"
  | OpAnd => "(%s AND %s)"
  | OpOr => "(%s OR %s)"
  end.

Definition strcheck_of (m : method) : bool :=
  match m with
  | OpAdd | OpRAdd | OpSub | OpRSub | OpMul | OpRMul | OpDiv | OpRDiv | OpTrueDiv => true
  | _ => false
  end.

(** [__rsub__] and [__rdiv__] pass [x] first and [self] second. *)
Definition reflected (m : method) : bool :=
  match m with
  | OpRSub | OpRDiv => true
  | _ => false
  end.

(** [self.m(x)]: the lambda of the method [m], that is
    [Column.operate(self, x, template, strcheck)], or
    [Column.operate(x, self, ...)] for a reflected method.  One operand is
    [self], so the result is a column or an exception. *)
Definition call (h : heap) (m : method) (self : Column) (x : operand) : result Column :=
  if reflected m then
    match x with
    | OCol c => operate_column h c (OCol self) (template m) (strcheck_of m)
    | OLit l => operate_reflected l self (template m) (strcheck_of m)
    end
  else operate_column h self x (template m) (strcheck_of m).

(** ** dbTable *)

Definition with_where (o : optdict) (c : Column) : optdict :=
  mkOptdict (opt_limit o) (Some c) (opt_columns o) (opt_group o) (opt_having o) (opt_sort o).

Definition with_columns (o : optdict) (v : colsval) : optdict :=
  mkOptdict (opt_limit o) (opt_where o) (Some v) (opt_group o) (opt_having o) (opt_sort o).

Definition with_group (o : optdict) (c : Column) : optdict :=
  mkOptdict (opt_limit o) (opt_where o) (opt_columns o) (Some c) (opt_having o) (opt_sort o).

Definition with_having (o : optdict) (c : Column) : optdict :=
  mkOptdict (opt_limit o) (opt_where o) (opt_columns o) (opt_group o) (Some c) (opt_sort o).

Definition with_sort (o : optdict) (k : Column * string) : optdict :=
  mkOptdict (opt_limit o) (opt_where o) (opt_columns o) (opt_group o) (opt_having o) (Some k).

(** The [columns] argument of the constructor: a dictionary, or the list of
    (name, type) pairs of a base table. *)
Inductive colsarg :=
  | FromDict (d : loc)
  | FromSchema (cols : list (string * pytype)).

(** [dbTable.__init__].  The new object is [self]; a dictionary given as
    [options] is kept by reference when it is not empty. *)
Definition new_dbTable (h : heap) (db : nat) (name : string)
    (columns : colsarg) (options : option loc) : result (loc * heap) :=
  let self := List.length (tables h) in
  r <- match options with
       | Some l =>
           o <- get_options h l ;;
           if optdict_truthy o then Ok (l, h) else Ok (alloc_options h empty_options)
       | None => Ok (alloc_options h empty_options)
       end ;;
  let '(opts, h) := r in
  match columns with
  | FromDict d => Ok (alloc_table h (mkTable db name d opts None))
  | FromSchema cols =>
      o <- get_options h opts ;;
      let '(cell, h) := alloc_names h (map fst cols) in
      let h := set_options h opts (with_columns o (ColsNames cell)) in
      let '(d, h) :=
        alloc_columns h
          (foldl (fun d c => dict_set (fst c) (mkColumn (fst c) self (snd c)) d) [] cols) in
      Ok (alloc_table h (mkTable db name d opts None))
  end.

(** *** The SQL generator *)

Definition join (sep : string) (l : list string) : string := String.concat sep l.

(** The [LIMIT] part of [formulate].  With a limit on both sides the code
    assigns the smaller one and then assigns again. *)
Definition formulate_limit (self_options options : optdict) : string :=
  match opt_limit self_options with
  | Some l =>
      let limit :=
        match opt_limit options with
        | Some l' => "LIMIT " +:+ repr_int (Z.min l' l)
        | None => ""
        end in
      let limit := "LIMIT " +:+ repr_int l in
      limit
  | None =>
      match opt_limit options with
      | Some l' => "LIMIT " +:+ repr_int l'
      | None => ""
      end
  end.

(** The [WHERE] part.  With a predicate on both sides the code evaluates
    their conjunction, which may raise, and then assigns again. *)
Definition formulate_where (h : heap) (self_options options : optdict) : result string :=
  match opt_where self_options with
  | Some w =>
      where_ <- match opt_where options with
                | Some w' => c <- call h OpAnd w (OCol w') ;; Ok ("WHERE " +:+ colexpr c)
                | None => Ok ""
                end ;;
      let where_ := "WHERE " +:+ colexpr w in
      Ok where_
  | None =>
      match opt_where options with
      | Some w' => Ok ("WHERE " +:+ colexpr w')
      | None => Ok ""
      end
  end.

(** The column list. *)
Definition formulate_columns (self_columns : coldict) (options : optdict) : result string :=
  match opt_columns options with
  | Some (ColsText s) => Ok s
  | Some (ColsList cs) => Ok (join "," (map colexpr cs))
  | Some (ColsNames _) => Raise (AttributeError "colexpr")
  | None => Ok (join "," (map colexpr (dict_values self_columns)))
  end.

(** The [GROUP BY] part, with [HAVING]. *)
Definition formulate_group (self_options options : optdict) : string :=
  match opt_group options with
  | Some g =>
      let group := "GROUP BY " +:+ colexpr g +:+ " " in
      match opt_having options with
      | Some hv => group +:+ " HAVING " +:+ colexpr hv
      | None => group
      end
  | None =>
      match opt_group self_options with
      | Some g =>
          let group := "GROUP BY " +:+ colexpr g in
          match opt_having self_options with
          | Some hv => group +:+ " HAVING " +:+ colexpr hv
          | None => group
          end
      | None => ""
      end
  end.

(** The [ORDER BY] part. *)
Definition formulate_sort (self_options options : optdict) : string :=
  match opt_sort options with
  | Some (c, d) => "ORDER BY " +:+ colexpr c +:+ " " +:+ d
  | None =>
      match opt_sort self_options with
      | Some (c, d) => "ORDER BY " +:+ colexpr c +:+ " " +:+ d
      | None => ""
      end
  end.

(** [dbTable.formulate]. *)
Definition formulate (h : heap) (self : loc) (opts : optdict) : result string :=
  t <- get_table h self ;;
  o <- get_options h (options t) ;;
  d <- get_columns h (columns t) ;;
  let limit := formulate_limit o opts in
  where_ <- formulate_where h o opts ;;
  cols <- formulate_columns d opts ;;
  let group := formulate_group o opts in
  let sort := formulate_sort o opts in
  Ok ("SELECT " +:+ cols +:+ " FROM " +:+ name t +:+ " " +:+ where_ +:+ " " +:+ group
      +:+ " " +:+ sort +:+ " " +:+ limit).

(** *** The combinators *)

(** [self.columns[col]]. *)
Definition dict_item (col : string) (d : coldict) : result Column :=
  match dict_get col d with
  | Some c => Ok c
  | None => Raise (KeyError col)
  end.

(** The loop of [select] that looks for a name that is not a column. *)
Fixpoint check_names (d : coldict) (names : list string) : result unit :=
  match names with
  | [] => Ok tt
  | col :: rest =>
      if dict_mem col d then check_names d rest
      else Raise (KeyError (col +:+ " not in table"))
  end.

(** [{col: self.columns[col] for col in columns}], from the dictionary
    [acc] built so far. *)
Fixpoint select_dict (d : coldict) (names : list string) (acc : coldict) : result coldict :=
  match names with
  | [] => Ok acc
  | col :: rest => c <- dict_item col d ;; select_dict d rest (dict_set col c acc)
  end.

(** [dbTable.select], on a list of names. *)
Definition select (h : heap) (self : loc) (names : list string) : result (loc * heap) :=
  t <- get_table h self ;;
  d <- get_columns h (columns t) ;;
  _ <- check_names d names ;;
  newcols <- select_dict d names [] ;;
  let '(newcols, h) := alloc_columns h newcols in
  o <- get_options h (options t) ;;
  let '(opts, h) := alloc_options h o in
  new_dbTable h (db t) (name t) (FromDict newcols) (Some opts).

(** [dbTable.where]. *)
Definition where_ (h : heap) (self : loc) (column : Column) : result (loc * heap) :=
  if negb (table_eq h (table column) self) then Raise (ValueError "Incorrect Column")
  else
    t <- get_table h self ;;
    o <- get_options h (options t) ;;
    let '(opts, h) := alloc_options h o in
    h <- match opt_where o with
         | Some w =>
             c <- call h OpAnd w (OCol column) ;;
             Ok (set_options h opts (with_where o c))
         | None => Ok (set_options h opts (with_where o column))
         end ;;
    d <- get_columns h (columns t) ;;
    let '(cols, h) := alloc_columns h d in
    new_dbTable h (db t) (name t) (FromDict cols) (Some opts).

(** The [column] argument of [sort] and [group]: a name or a column. *)
Inductive keyarg :=
  | KName (s : string)
  | KCol (c : Column).

(** [if isinstance(column,str) and column in self.columns:
       column = self.columns[column]]. *)
Definition resolve (d : coldict) (column : keyarg) : keyarg :=
  match column with
  | KName s =>
      match dict_get s d with
      | Some c => KCol c
      | None => KName s
      end
  | KCol c => KCol c
  end.

(** [dbTable.sort]. *)
Definition sort (h : heap) (self : loc) (column : keyarg) (descending : bool)
  : result (loc * heap) :=
  t <- get_table h self ;;
  o <- get_options h (options t) ;;
  let '(opts, h) := alloc_options h o in
  let desc := if descending then "DESC" else "ASC" in
  d <- get_columns h (columns t) ;;
  match resolve d column with
  | KCol c =>
      if table_eq h (table c) self then
        let h := set_options h opts (with_sort o (c, desc)) in
        let '(cols, h) := alloc_columns h d in
        new_dbTable h (db t) (name t) (FromDict cols) (Some opts)
      else Raise (ValueError "Incorrect Column")
  | KName _ => Raise (ValueError "Incorrect Column")
  end.

(** The loop [for i in columns: columns[i] = columns[i].apply(collect)]. *)
Definition apply_all (function : string) (d : coldict) : coldict :=
  foldl
    (fun acc i =>
       match dict_get i acc with
       | Some c => dict_set i (apply c function) acc
       | None => acc
       end)
    d (dict_keys d).

(** The truth value of [collect]: a string that is not empty. *)
Definition truthy_str (s : option string) : option string :=
  match s with
  | Some EmptyString => None
  | _ => s
  end.

(** [dbTable.group]. *)
Definition group (h : heap) (self : loc) (column : keyarg)
    (having : option Column) (collect : option string) : result (loc * heap) :=
  t <- get_table h self ;;
  d <- get_columns h (columns t) ;;
  match resolve d column with
  | KCol c =>
      if table_eq h (table c) self then
        o <- get_options h (options t) ;;
        let '(opts, h) := alloc_options h o in
        let o := with_group o c in
        let h := set_options h opts o in
        let h :=
          match having with
          | Some hv =>
              if table_eq h (table hv) self then set_options h opts (with_having o hv)
              else h
          | None => h
          end in
        let '(cols, h) := alloc_columns h d in
        let h :=
          match truthy_str collect with
          | Some f => set_columns h cols (apply_all f d)
          | None => h
          end in
        new_dbTable h (db t) (name t) (FromDict cols) (Some opts)
      else Raise (ValueError "Incorrect Column")
  | KName _ => Raise (ValueError "Incorrect Column")
  end.

(** *** The row count *)

(** The statement that [__len__] executes. *)
Definition count_statement (h : heap) (self : loc) : result string :=
  t <- get_table h self ;;
  o <- get_options h (options t) ;;
  match opt_group o with
  | Some _ =>
      q <- formulate h self empty_options ;;
      Ok ("WITH temp as (" +:+ q +:+ ") SELECT COUNT(*) from temp")
  | None =>
      formulate h self (with_columns empty_options (ColsText "COUNT(*)"))
  end.

(** [not self.length]: the count is unset, or zero. *)
Definition falsy (n : option Z) : bool :=
  match n with
  | None => true
  | Some z => Z.eqb z 0
  end.

(** [dbTable.__len__].  [execute expr] stands for
    [int(self.db.c.execute(expr).fetchall()[0][0])]. *)
Definition len (execute : string -> result Z) (h : heap) (self : loc) : result (Z * heap) :=
  t <- get_table h self ;;
  let count :=
    expr <- count_statement h self ;;
    n <- execute expr ;;
    Ok (n, set_table h self (mkTable (db t) (name t) (columns t) (options t) (Some n))) in
  match length t with
  | Some n => if falsy (Some n) then count else Ok (n, h)
  | None => count
  end.

(** A call of a combinator. *)
Inductive combinator :=
  | Select (names : list string)
  | Where (column : Column)
  | Sort (column : keyarg) (descending : bool)
  | Group (column : keyarg) (having : option Column) (collect : option string).

Definition run (h : heap) (self : loc) (c : combinator) : result (loc * heap) :=
  match c with
  | Select names => select h self names
  | Where column => where_ h self column
  | Sort column descending => sort h self column descending
  | Group column having collect => group h self column having collect
  end.

(** ** Notions used in the statements *)

(** What a template puts between its two arguments. *)
Definition infix_of (m : method) : string :=
  match m with
  | OpAdd | OpRAdd => " + "
  | OpSub | OpRSub => " - "
  | OpMul | OpRMul => "*"
  | OpDiv | OpRDiv | OpTrueDiv => " / "
  | OpLt => " < "
  | OpLe => " <= "
  | OpEq => " = "
  | OpNe => " != "
  | OpGe => " >= "
  | OpGt => " > "
  | OpAnd => " AND "
  | OpOr => " OR "
  end.

(** A text that [repr] leaves as it is between single quotes: printable
    characters, none of them a single quote or a backslash. *)
Definition plain_char (c : ascii) : bool :=
  py_printable c && negb (Ascii.eqb c squote) && negb (Ascii.eqb c backslash).

Fixpoint plain (s : string) : bool :=
  match s with
  | EmptyString => true
  | String c s' => plain_char c && plain s'
  end.







(** [view.formulate()]. *)
Definition statement (view : result (loc * heap)) : result string :=
  r <- view ;;
  let '(v, h) := r in
  formulate h v empty_options.



(** The names of a list in the order of their first occurrence. *)
Fixpoint add_new (seen names : list string) : list string :=
  match names with
  | [] => seen
  | n :: rest =>
      if existsb (String.eqb n) seen then add_new seen rest
      else add_new (seen ++ [n]) rest
  end.

Definition first_occurrences (names : list string) : list string := add_new [] names.

(** Every object of [h] is in [h'], unchanged. *)
Definition extends (h h' : heap) : Prop :=
  tables h `prefix_of` tables h' /\
  optdicts h `prefix_of` optdicts h' /\
  coldicts h `prefix_of` coldicts h' /\
  namecells h `prefix_of` namecells h'.

(** [t] with its count set. *)
Definition with_length (t : dbTable) (n : Z) : dbTable :=
  mkTable (db t) (name t) (columns t) (options t) (Some n).

(** ** Objects of the examples *)

(** The [int] [z], whose [float] prints as [f]. *)
Definition int_literal (z : Z) (f : string) : literal :=
  mkLiteral (Some z) (Some f) (repr_int z).

(** A [str] that [int] and [float] reject. *)
Definition str_literal (s : string) : literal := mkLiteral None None s.

(** The store after [R = dbTable(db, "R", [("a", int), ("b", str)])] and
    [S = dbTable(db, "S", [("x", int), ("y", str)])]: [R] is object 0, [S]
    object 1. *)
Definition two_tables : heap :=
  mkHeap
    [mkTable 0 "R" 0 0 None; mkTable 0 "S" 1 1 None]
    [with_columns empty_options (ColsNames 0); with_columns empty_options (ColsNames 1)]
    [[("a", mkColumn "a" 0 Int); ("b", mkColumn "b" 0 Str)];
     [("x", mkColumn "x" 1 Int); ("y", mkColumn "y" 1 Str)]]
    [["a"; "b"]; ["x"; "y"]].

(** The columns [R["a"]], [R["b"]], [S["x"]] and [S["y"]]. *)
Definition R_a : Column := mkColumn "a" 0 Int.
Definition R_b : Column := mkColumn "b" 0 Str.
Definition S_x : Column := mkColumn "x" 1 Int.
Definition S_y : Column := mkColumn "y" 1 Str.

(** The entry of a column dictionary under the key [k], for the values [f]. *)
Definition entry (f : string -> Column) (k : string) : string * Column := (k, f k).

(** [d[k]] for a key of [d]. *)
Definition value_in (d : coldict) (k : string) : Column :=
  match dict_get k d with
  | Some c => c
  | None => mkColumn k 0 Int
  end.

(** The option dictionary that [group] has built when it returns. *)
Definition grouped (h : heap) (v : loc) (o : optdict) (c : Column)
    (having : option Column) : optdict :=
  match having with
  | Some hv => if table_eq h (table hv) v then with_having (with_group o c) hv else with_group o c
  | None => with_group o c
  end.

(** The value that [r] returns. *)
Definition the {A} (r : result A) (default : A) : A :=
  match r with Ok a => a | Raise _ => default end.

(** [{'limit': n}] and [{'where': c}]. *)
Definition limit_options (n : Z) : optdict := mkOptdict (Some n) None None None None None.
Definition where_options (c : Column) : optdict := with_where empty_options c.

(** [dbTable(db, "R", [("a", int), ("b", str)], {'limit': 10})]. *)
Definition limited_R : result (loc * heap) :=
  let '(o, h) := alloc_options empty_heap (limit_options 10) in
  new_dbTable h 0 "R" (FromSchema [("a", Int); ("b", Str)]) (Some o).

(** [R.a > 0], [R.a > 1] and [R.a < 5]. *)
Definition a_gt_0 : Column := mkColumn "(a > 0)" 0 Int.
Definition a_gt_1 : Column := mkColumn "(a > 1)" 0 Int.
Definition a_lt_5 : Column := mkColumn "(a < 5)" 0 Int.

(** [R.where(R.a > 0)], in the store of [two_tables]. *)
Definition filtered_R : loc * heap :=
  Eval vm_compute in the (where_ two_tables 0 a_gt_0) (0, empty_heap).

(** A store where [R] has counted its rows: [len(R)] was 3. *)
Definition counted_R : heap :=
  mkHeap
    [mkTable 0 "R" 0 0 (Some 3%Z)]
    [with_columns empty_options (ColsNames 0)]
    [[("a", mkColumn "a" 0 Int); ("b", mkColumn "b" 0 Str)]]
    [["a"; "b"]].

(** [R.group("b", collect="COUNT")], in the store of [counted_R]. *)
Definition grouped_R : loc * heap :=
  Eval vm_compute in
    the (run counted_R 0 (Group (KName "b") None (Some "COUNT"))) (0, empty_heap).

(** ** Statements of a view *)

(** The [WHERE] segment of [formulate()] for the option dictionary [o]. *)
Definition where_segment (o : optdict) : string :=
  match opt_where o with
  | Some w => "WHERE " +:+ colexpr w
  | None => ""
  end.

(** [formulate()] of a view named [nm] with the columns [d] and the options
    [o]: the six segments, each after one space. *)
Definition statement_of (nm : string) (d : coldict) (o : optdict) : string :=
  "SELECT " +:+ join "," (map colexpr (dict_values d)) +:+ " FROM " +:+ nm
    +:+ " " +:+ where_segment o +:+ " " +:+ formulate_group o empty_options
    +:+ " " +:+ formulate_sort o empty_options +:+ " " +:+ formulate_limit o empty_options.

(** An entry of a column dictionary with [function] applied to its column. *)
Definition wrapped (function : string) (e : string * Column) : string * Column :=
  (fst e, apply (snd e) function).

(** ** Item access *)

(** [dbTable.__getitem__]: [self.columns[column]]. *)
Definition getitem (h : heap) (self : loc) (column : string) : result Column :=
  t <- get_table h self ;;
  d <- get_columns h (columns t) ;;
  dict_item column d.

(** [del d[k]] on a dictionary that has the key [k]. *)
Fixpoint dict_del (k : string) (d : coldict) : coldict :=
  match d with
  | [] => []
  | (k', c) :: d' => if String.eqb k k' then d' else (k', c) :: dict_del k d'
  end.

(** [dbTable.__delitem__]: [self.columns.__delitem__(b)], which writes to
    the dictionary that [self.columns] refers to. *)
Definition delitem (h : heap) (self : loc) (b : string) : result heap :=
  t <- get_table h self ;;
  d <- get_columns h (columns t) ;;
  if dict_mem b d then Ok (set_columns h (columns t) (dict_del b d))
  else Raise (KeyError b).

(** ** Outcomes

    Some functions fail with exceptions that are not in [exn], write to the
    state before they fail, or print: an action returns its outcome together
    with the state it leaves. *)

Inductive failure :=
  | Exception (e : exn)
  | ZeroDivisionError
  | OverflowError
  | IndexError
  | NameError (name : string).

Inductive outcome (A : Type) :=
  | Returned (a : A)
  | Failed (f : failure).
Arguments Returned {A} a.
Arguments Failed {A} f.

(** An action on a state [S]: its outcome and the state it leaves. *)
Definition action (S A : Type) : Type := S -> outcome A * S.

Definition ret {S A} (a : A) : action S A := fun s => (Returned a, s).
Definition fail {S A} (f : failure) : action S A := fun s => (Failed f, s).

Definition then_ {S A B} (m : action S A) (k : A -> action S B) : action S B :=
  fun s =>
    match m s with
    | (Returned a, s') => k a s'
    | (Failed f, s') => (Failed f, s')
    end.

Notation "x <~ m ;; k" := (then_ m (fun x => k))
  (at level 100, m at next level, right associativity).

(** A call that reads the state and does not write to it. *)
Definition reading {S A} (f : S -> result A) : action S A :=
  fun s =>
    match f s with
    | Ok a => (Returned a, s)
    | Raise e => (Failed (Exception e), s)
    end.

(** [print(line)], for an action on the lines printed. *)
Definition say (line : string) : action (list string) unit :=
  fun out => (Returned tt, out ++ [line]).

(** What the module has bound when it is loaded.  The two [try] statements
    at its top pass over an [ImportError]: [Table] is bound when
    [datascience] is installed and [pd] when [pandas] is; [np] is bound in
    every case, its [import] is not in a [try]. *)
Record imports := mkImports {
  has_Table : bool;
  has_pd : bool
}.

(** The read of a global name that the module may not have bound. *)
Definition global_name {S} (bound : bool) (name : string) : action S unit :=
  if bound then ret tt else fail (NameError name).

(** ** Exports

    The rows come from the database: [fetch expr] is
    [self.db.c.execute(expr).fetchall()], a list of rows or the exception of
    the engine.  What [Table.from_rows], [pd.DataFrame] and [np.array] build
    is kept as the constructor, the labels and the rows it was given. *)

Inductive format := AsTable | AsDataFrame | AsArray.

Record dataset (row : Type) := mkDataset {
  shape : format;
  labels : list string;
  rows : list row
}.
Arguments mkDataset {row} shape labels rows.
Arguments shape {row} d.
Arguments labels {row} d.
Arguments rows {row} d.

(** [if not data: data = self.db.c.execute(self.formulate()).fetchall()]:
    [None] and the empty list are both replaced. *)
Definition fetch_unless_given {row} (fetch : string -> result (list row)) (h : heap)
    (self : loc) (data : option (list row)) : result (list row) :=
  match data with
  | Some (r :: rs) => Ok (r :: rs)
  | _ => expr <- formulate h self empty_options ;; fetch expr
  end.

(** [list(self.columns.keys())]. *)
Definition column_names (h : heap) (self : loc) : result (list string) :=
  t <- get_table h self ;;
  d <- get_columns h (columns t) ;;
  Ok (dict_keys d).

(** [dbTable.to_table]: the name [Table] is read last, after the rows and
    the column names. *)
Definition to_table {row} (env : imports) (fetch : string -> result (list row)) (self : loc)
    (data : option (list row)) : action heap (dataset row) :=
  data <~ reading (fun h => fetch_unless_given fetch h self data) ;;
  cols <~ reading (fun h => column_names h self) ;;
  _ <~ global_name (has_Table env) "Table" ;;
  ret (mkDataset AsTable cols data).

(** [dbTable.to_df]: the name [pd] is read last. *)
Definition to_df {row} (env : imports) (fetch : string -> result (list row)) (self : loc)
    (data : option (list row)) : action heap (dataset row) :=
  data <~ reading (fun h => fetch_unless_given fetch h self data) ;;
  cols <~ reading (fun h => column_names h self) ;;
  _ <~ global_name (has_pd env) "pd" ;;
  ret (mkDataset AsDataFrame cols data).

(** [dbTable.to_numpy_array]. *)
Definition to_numpy_array {row} (fetch : string -> result (list row)) (h : heap) (self : loc)
    (data : option (list row)) : result (dataset row) :=
  data <- fetch_unless_given fetch h self data ;;
  Ok (mkDataset AsArray [] data).

(** [dbTable.get_column], which prints the statement it executes: an
    action on the lines printed. *)
Definition get_column {row} (fetch : string -> result (list row)) (h : heap) (self : loc)
    (column : keyarg) : action (list string) (dataset row) :=
  t <~ reading (fun _ => get_table h self) ;;
  d <~ reading (fun _ => get_columns h (columns t)) ;;
  match resolve d column with
  | KCol c =>
      if table_eq h (table c) self then
        expr <~ reading (fun _ => formulate h self (with_columns empty_options (ColsList [c]))) ;;
        _ <~ say expr ;;
        data <~ reading (fun _ => fetch expr) ;;
        ret (mkDataset AsArray [] data)
      else fail (Exception (ValueError "Incorrect Arguments"))
  | KName _ => fail (Exception (ValueError "Incorrect Arguments"))
  end.

(** [Column.to_array]: [self.table.get_column(self)]. *)
Definition to_array {row} (fetch : string -> result (list row)) (h : heap) (self : Column)
  : action (list string) (dataset row) :=
  get_column fetch h (table self) (KCol self).

(** ** Sampling *)

(** [sys.maxsize] of a 64-bit build. *)
Definition maxsize : Z := 2 ^ 63 - 1.

(** The builtin [len(self)]: the result of [__len__] must be an index that
    is not negative. *)
Definition builtin_len (count : string -> result Z) (self : loc) : action heap Z :=
  fun h =>
    match len count h self with
    | Ok (n, h') =>
        if n <? 0 then (Failed (Exception (ValueError "__len__() should return >= 0")), h')
        else if maxsize <? n then (Failed OverflowError, h')
        else (Returned n, h')
    | Raise e => (Failed (Exception e), h)
    end%Z.

(** The statement of [sample] for the statement [q] of the view. *)
Definition sample_statement (q : string) (n num_rows : Z) : string :=
  "WITH temp as (" +:+ q +:+ ") SELECT * from temp WHERE RANDOM() % " +:+ repr_int n
    +:+ " = 0 LIMIT " +:+ repr_int num_rows.

(** [dbTable.sample], with [output] one of [Table], [pd.DataFrame] or
    anything else ([AsArray]).  The comparison [output == Table] reads the
    name [Table] whatever [output] is, and [output == pd.DataFrame] reads
    [pd] when the first comparison is false. *)
Definition sample {row} (env : imports) (count : string -> result Z)
    (fetch : string -> result (list row)) (self : loc) (num_rows : Z) (output : format)
  : action heap (dataset row) :=
  size <~ builtin_len count self ;;
  if (size <=? num_rows)%Z then to_table env fetch self None
  else
    size <~ builtin_len count self ;;
    if (num_rows =? 0)%Z then fail ZeroDivisionError
    else
      let n := (size / num_rows)%Z in
      q <~ reading (fun h => formulate h self empty_options) ;;
      let expr := sample_statement q n num_rows in
      _ <~ global_name (has_Table env) "Table" ;;
      match output with
      | AsTable =>
          data <~ reading (fun _ => fetch expr) ;;
          to_table env fetch self (Some data)
      | _ =>
          _ <~ global_name (has_pd env) "pd" ;;
          match output with
          | AsDataFrame =>
              data <~ reading (fun _ => fetch expr) ;;
              to_df env fetch self (Some data)
          | _ =>
              data <~ reading (fun _ => fetch expr) ;;
              ret (mkDataset AsArray [] data)
          end
      end.

(** ** Database

    The SQLite side is a parameter.  The journal holds the calls that the
    connections have carried out, in order; the engine decides from the
    journal whether it refuses a call, and what [fetchall()] returns after
    the last statement.  Of the rows of [sqlite_master] the code reads
    [i[0]] and [i[1]], the type and the name of an object; of the rows of
    [PRAGMA table_info] it reads [i[1]] and [i[2]], the name and the declared
    type of a column: a row is the pair of the two. *)

(** A value of a row given to [create_table], with what [numpytypes] asks
    of it: its Python type.  A float is given by its [repr]; [PyOther] is a
    value of any other type, a plain [int] or [float] included. *)
Inductive pyvalue :=
  | NpInt (z : Z)
  | NpFloat (r : string)
  | PyStr (s : string)
  | NpBool (b : bool)
  | PyOther (r : string).

(** [numpytypes[type(v)]], or [None] when [type(v)] is not a key. *)
Definition numpytypes (v : pyvalue) : option string :=
  match v with
  | NpInt _ => Some "INTEGER"
  | NpFloat _ => Some "REAL"
  | PyStr _ => Some "TEXT"
  | NpBool _ => Some "INTEGER"
  | PyOther _ => None
  end.

(** [sqltypes[declared]], or [None] when [declared] is not a key. *)
Definition sqltypes (declared : string) : option pytype :=
  if String.eqb declared "REAL" then Some Float
  else if String.eqb declared "INTEGER" then Some Int
  else if String.eqb declared "TEXT" then Some Str
  else if String.eqb declared "INT" then Some Int
  else if String.eqb declared "" then Some Int
  else None.

(** A [Database] object: [self.name] and [self.tables], a dictionary from
    names to [dbTable] objects.  Its connection and its cursor are on the
    side of the engine: the calls of the journal carry the reference of the
    object that makes them. *)
Record Database := mkDatabase {
  db_name : string;
  db_tables : list (string * loc)
}.

Fixpoint reg_get (k : string) (d : list (string * loc)) : option loc :=
  match d with
  | [] => None
  | (k', t) :: d' => if String.eqb k k' then Some t else reg_get k d'
  end.

Definition reg_mem (k : string) (d : list (string * loc)) : bool :=
  match reg_get k d with Some _ => true | None => false end.

Fixpoint reg_set (k : string) (t : loc) (d : list (string * loc)) : list (string * loc) :=
  match d with
  | [] => [(k, t)]
  | (k', t') :: d' =>
      if String.eqb k k' then (k', t) :: d' else (k', t') :: reg_set k t d'
  end.

Fixpoint reg_del (k : string) (d : list (string * loc)) : list (string * loc) :=
  match d with
  | [] => []
  | (k', t) :: d' => if String.eqb k k' then d' else (k', t) :: reg_del k d'
  end.

(** A call that reaches the engine, by the [Database] object that makes it. *)
Inductive event :=
  | Connect (db : nat) (db_name : string)
  | Execute (db : nat) (expr : string) (params : list pyvalue)
  | Commit (db : nat)
  | Close (db : nat).

Record engine := mkEngine {
  rejects : list event -> event -> option string;
  master_rows : list event -> list (string * string);
  info_rows : list event -> list (string * string)
}.

(** The views, the [Database] objects, the calls carried out and the lines
    printed. *)
Record world := mkWorld {
  mem : heap;
  databases : list Database;
  journal : list event;
  stdout : list string
}.

Definition with_mem (w : world) (h : heap) : world :=
  mkWorld h (databases w) (journal w) (stdout w).

Definition with_databases (w : world) (ds : list Database) : world :=
  mkWorld (mem w) ds (journal w) (stdout w).

(** A call on the store of the views. *)
Definition on_mem {A} (f : heap -> result (A * heap)) : action world A :=
  fun w =>
    match f (mem w) with
    | Ok (a, h) => (Returned a, with_mem w h)
    | Raise ex => (Failed (Exception ex), w)
    end.

(** [print(line)]. *)
Definition print (line : string) : action world unit :=
  fun w => (Returned tt, mkWorld (mem w) (databases w) (journal w) (stdout w ++ [line])).

(** A call of the engine: refused, or carried out and written to the
    journal. *)
Definition call_engine (e : engine) (ev : event) : action world unit :=
  fun w =>
    match rejects e (journal w) ev with
    | Some msg => (Failed (Exception (StoreError msg)), w)
    | None => (Returned tt, mkWorld (mem w) (databases w) (journal w ++ [ev]) (stdout w))
    end.

(** [self.c.execute(expr)] and [self.c.execute(expr, params)]. *)
Definition execute (e : engine) (self : nat) (expr : string) (params : list pyvalue)
  : action world unit :=
  call_engine e (Execute self expr params).

Definition get_database (self : nat) : action world Database :=
  reading (fun w => match databases w !! self with Some d => Ok d | None => dangling end).

(** [self.tables = tables]. *)
Definition set_db_tables (self : nat) (tables : list (string * loc)) : action world unit :=
  d <~ get_database self ;;
  fun w => (Returned tt, with_databases w (<[self := mkDatabase (db_name d) tables]> (databases w))).

(** The statements of [get_table_columns], [create_table] and [save_as]. *)
Definition pragma_statement (table_name : string) : string :=
  "PRAGMA table_info(" +:+ table_name +:+ ")".

Definition create_statement (name : string) (cols : list string) : string :=
  "CREATE TABLE " +:+ name +:+ "( " +:+ join ", " cols +:+ " )".

Definition insert_statement (name : string) (placeholders : nat) : string :=
  "INSERT INTO " +:+ name +:+ " VALUES( " +:+ join " ," (replicate placeholders "?") +:+ " ) ".

Definition create_as_statement (name q : string) : string :=
  "CREATE TABLE " +:+ name +:+ " as " +:+ q.

(** The names of the rows of [sqlite_master] that are tables. *)
Definition table_names (rows : list (string * string)) : list string :=
  map snd (List.filter (fun i => String.eqb (fst i) "table") rows).

(** The list comprehension of [get_table_columns]. *)
Fixpoint typed_columns (rows : list (string * string)) : result (list (string * pytype)) :=
  match rows with
  | [] => Ok []
  | (column, declared) :: rest =>
      match sqltypes declared with
      | Some t => cols <- typed_columns rest ;; Ok ((column, t) :: cols)
      | None => Raise (KeyError declared)
      end
  end.

(** [Database.get_table_columns]. *)
Definition get_table_columns (e : engine) (self : nat) (table_name : string)
  : action world (list (string * pytype)) :=
  let expr := pragma_statement table_name in
  _ <~ execute e self expr [] ;;
  reading (fun w => typed_columns (info_rows e (journal w))).

(** [dbTable(db, name, columns)] for a list of columns. *)
Definition construct (db : nat) (name : string) (columns : list (string * pytype))
  : action world loc :=
  on_mem (fun h => new_dbTable h db name (FromSchema columns) None).

(** The dictionary comprehension of [get_tables]. *)
Fixpoint build_tables (e : engine) (self : nat) (names : list string)
    (tables : list (string * loc)) : action world (list (string * loc)) :=
  match names with
  | [] => ret tables
  | name :: rest =>
      columns <~ get_table_columns e self name ;;
      t <~ construct self name columns ;;
      build_tables e self rest (reg_set name t tables)
  end.

(** [Database.get_tables]. *)
Definition get_tables (e : engine) (self : nat) : action world (list (string * loc)) :=
  let expr := "SELECT * from sqlite_master" in
  _ <~ execute e self expr [] ;;
  rows <~ reading (fun w => Ok (master_rows e (journal w))) ;;
  build_tables e self (table_names rows) [].

(** [Database(db_name)]: the new object is [self]; it has its attributes
    when [__init__] returns. *)
Definition connect (e : engine) (db_name : string) : action world nat :=
  fun w =>
    let self := List.length (databases w) in
    (_ <~ call_engine e (Connect self db_name) ;;
     tables <~ get_tables e self ;;
     _ <~ (fun w => (Returned tt, with_databases w (databases w ++ [mkDatabase db_name tables]))) ;;
     ret self) w.

(** [Database.get_table_names]. *)
Definition get_table_names (self : nat) : action world (list string) :=
  d <~ get_database self ;;
  ret (map fst (db_tables d)).

(** [Database.__repr__]. *)
Definition db_repr (self : nat) : action world string :=
  d <~ get_database self ;;
  ret ("Database: " +:+ db_name d +:+ " Tables: " +:+ join " ," (map fst (db_tables d))).

(** [Database.__getitem__]. *)
Definition db_getitem (self : nat) (table : string) : action world loc :=
  d <~ get_database self ;;
  match reg_get table (db_tables d) with
  | Some t => ret t
  | None => fail (Exception (KeyError table))
  end.

(** [Database.__setitem__]: [Database] has no [__eq__], so [value.db == self]
    holds for the same object only. *)
Definition db_setitem (self : nat) (tname : string) (value : loc) : action world unit :=
  t <~ reading (fun w => get_table (mem w) value) ;;
  if Nat.eqb (db t) self then
    d <~ get_database self ;;
    set_db_tables self (reg_set tname value (db_tables d))
  else ret tt.

(** The loop of [create_table] over [zip(table[0], columns)]. *)
Fixpoint declared_columns (first : list pyvalue) (columns : list string) : list string :=
  match first, columns with
  | v :: first', c :: columns' =>
      match numpytypes v with
      | Some t => (c +:+ " " +:+ t) :: declared_columns first' columns'
      | None => declared_columns first' columns'
      end
  | _, _ => []
  end.

(** The loop of [create_table] over the rows. *)
Fixpoint insert_rows (e : engine) (self : nat) (insert_expr : string)
    (table : list (list pyvalue)) : action world unit :=
  match table with
  | [] => ret tt
  | i :: rest =>
      _ <~ execute e self insert_expr i ;;
      insert_rows e self insert_expr rest
  end.

(** [Database.create_table]. *)
Definition create_table (e : engine) (self : nat) (name : string)
    (table : list (list pyvalue)) (columns : list string) : action world unit :=
  match table with
  | [] => fail IndexError
  | first :: _ =>
      if negb (Nat.eqb (List.length first) (List.length columns)) then print "Column Mismatch"
      else
        let cols := declared_columns first columns in
        let expr := create_statement name cols in
        _ <~ print expr ;;
        _ <~ execute e self expr [] ;;
        let insert_expr := insert_statement name (List.length cols) in
        _ <~ insert_rows e self insert_expr table ;;
        columns <~ get_table_columns e self name ;;
        t <~ construct self name columns ;;
        db_setitem self name t
  end.

(** [Database.drop_table].  [print] puts a space between its two
    arguments. *)
Definition drop_table (e : engine) (self : nat) (table : loc) : action world bool :=
  t <~ reading (fun w => get_table (mem w) table) ;;
  d <~ get_database self ;;
  if negb (reg_mem (name t) (db_tables d)) then ret false
  else
    _ <~ print ("DROPPING TABLE  " +:+ name t) ;;
    let expr := "DROP TABLE " +:+ name t in
    _ <~ execute e self expr [] ;;
    d <~ get_database self ;;
    _ <~ set_db_tables self (reg_del (name t) (db_tables d)) ;;
    ret true.

(** [Database.commit] and [Database.close]. *)
Definition commit (e : engine) (self : nat) : action world unit := call_engine e (Commit self).
Definition close (e : engine) (self : nat) : action world unit := call_engine e (Close self).

(** [dbTable.save_as]. *)
Definition save_as (e : engine) (self : loc) (name : string) : action world unit :=
  q <~ reading (fun w => formulate (mem w) self empty_options) ;;
  let expr := create_as_statement name q in
  _ <~ print expr ;;
  t <~ reading (fun w => get_table (mem w) self) ;;
  _ <~ execute e (db t) expr [] ;;
  _ <~ commit e (db t) ;;
  columns <~ get_table_columns e (db t) name ;;
  new <~ construct (db t) name columns ;;
  db_setitem (db t) name new.

(** The column dictionary that [__init__] builds for the [dbTable] object
    [self] from a list of columns. *)
Definition schema_dict (self : loc) (columns : list (string * pytype)) : coldict :=
  foldl (fun d c => dict_set (fst c) (mkColumn (fst c) self (snd c)) d) [] columns.

(** [type(v) in numpytypes]. *)
Definition recognised (v : pyvalue) : bool :=
  match numpytypes v with Some _ => true | None => false end.

(** ** Further objects of the examples *)

(** The object [R] of [two_tables]. *)
Definition base_R : dbTable := mkTable 0 "R" 0 0 None.

(** [R.sort("a", descending=True)] and [R.sort("b")]. *)
Definition sorted_by_a : loc * heap :=
  Eval vm_compute in the (sort two_tables 0 (KName "a") true) (0, empty_heap).
Definition sorted_by_b : loc * heap :=
  Eval vm_compute in the (sort two_tables 0 (KName "b") false) (0, empty_heap).

(** [G = R.group("b", having=R.a > 0)] and [G.group("a")]. *)
Definition grouped_having_R : loc * heap :=
  Eval vm_compute in the (group two_tables 0 (KName "b") (Some a_gt_0) None) (0, empty_heap).
Definition regrouped_R : loc * heap :=
  Eval vm_compute in
    the (group (snd grouped_having_R) (fst grouped_having_R) (KName "a") None None)
        (0, empty_heap).

(** [R.where(R.a > 0)], in the store of [counted_R]. *)
Definition filtered_counted_R : loc * heap :=
  Eval vm_compute in the (run counted_R 0 (Where a_gt_0)) (0, empty_heap).


(** A module loaded with both packages, and one loaded without
    [datascience]. *)
Definition all_imports : imports := mkImports true true.
Definition no_datascience : imports := mkImports false true.
Definition no_pandas : imports := mkImports true false.

(** A database that answers [n] to every counting statement. *)
Definition counted (n : Z) : string -> result Z := fun _ => Ok n.

(** A database that rejects every statement, with the statement as its
    message. *)
Definition rejecting {row} : string -> result (list row) :=
  fun expr => Raise (StoreError expr).

(** A database whose table [R] has three rows, and in which every other
    statement selects nothing. *)
Definition three_rows : list (Z * string) := [(1, "x"); (2, "y"); (3, "z")]%Z.
Definition only_R (expr : string) : result (list (Z * string)) :=
  if String.eqb expr "SELECT a,b FROM R    " then Ok three_rows else Ok [].

(** The statement that the journal [j] ends with. *)
Definition last_statement (j : list event) : string :=
  match last j with
  | Some (Execute _ expr _) => expr
  | _ => ""
  end.

(** An engine that carries out every call.  Its [sqlite_master] has the
    tables [R] and [S] and an index; [PRAGMA table_info] answers by the name
    in the statement. *)
Definition sample_engine : engine :=
  mkEngine
    (fun _ _ => None)
    (fun _ => [("table", "R"); ("index", "R_a"); ("table", "S")])
    (fun j =>
       let s := last_statement j in
       if String.eqb s "PRAGMA table_info(R)" then [("a", "INTEGER"); ("b", "TEXT")]
       else if String.eqb s "PRAGMA table_info(S)" then [("x", "INTEGER"); ("y", "TEXT")]
       else if String.eqb s "PRAGMA table_info(T)" then [("b", "TEXT")]
       else if String.eqb s "PRAGMA table_info(U)" then [("a", "INT"); ("n", "NUM")]
       else if String.eqb s "PRAGMA table_info(V)" then [("a", "INT"); ("b", "TEXT")]
       else []).

Definition empty_world : world := mkWorld empty_heap [] [] [].

(** The world after [db = Database("test.db")] on [sample_engine]: its views
    are those of [two_tables]. *)
Definition two_tables_world : world :=
  mkWorld two_tables
    [mkDatabase "test.db" [("R", 0); ("S", 1)]]
    [Connect 0 "test.db";
     Execute 0 "SELECT * from sqlite_master" [];
     Execute 0 "PRAGMA table_info(R)" [];
     Execute 0 "PRAGMA table_info(S)" []]
    [].

(** That world with the view [R.where(R.a > 0)]. *)
Definition filtered_world : world := with_mem two_tables_world (snd filtered_R).

(** [db.create_table("T", rows, ["a", "b"])] with rows of a plain [int] and
    a [str]. *)
Definition plain_rows : list (list pyvalue) :=
  [[PyOther "1"; PyStr "x"]; [PyOther "2"; PyStr "y"]].
Definition created_T : outcome unit * world :=
  Eval vm_compute in create_table sample_engine 0 "T" plain_rows ["a"; "b"] two_tables_world.

(** ** Lemmas on the error monad *)

Lemma bind_Ok {A B} (r : result A) (k : A -> result B) (b : B) :
  bind r k = Ok b -> exists a, r = Ok a /\ k a = Ok b.
Proof. destruct r as [a|e]; simpl; [eauto | discriminate]. Qed.

(** ** Templates *)

Lemma fmt_template (m : method) (a b : string) :
  fmt (template m) [a; b] = Ok ("(" +:+ a +:+ infix_of m +:+ b +:+ ")").
Proof. destruct m; reflexivity. Qed.

Lemma two_tables_built :
  (r <- new_dbTable empty_heap 0 "R" (FromSchema [("a", Int); ("b", Str)]) None ;;
   new_dbTable (snd r) 0 "S" (FromSchema [("x", Int); ("y", Str)]) None)
  = Ok (1, two_tables).
Proof. reflexivity. Qed.

(** ** Equality of views *)

Lemma table_eq_true (h : heap) (a b : loc) :
  table_eq h a b = true <->
  exists ta tb, tables h !! a = Some ta /\ tables h !! b = Some tb /\ name tb = name ta.
Proof.
  unfold table_eq. split.
  - destruct (tables h !! a) as [ta|] eqn:Ha; [|discriminate].
    destruct (tables h !! b) as [tb|] eqn:Hb; [|discriminate].
    intros E. apply String.eqb_eq in E. eauto.
  - intros (ta & tb & -> & -> & E). apply String.eqb_eq, E.
Qed.

Lemma pytype_eqb_refl (a : pytype) : pytype_eqb a a = true.
Proof. destruct a; reflexivity. Qed.

(** ** Column.operate *)

(** The method [m] of [self] returns what [Column.operate] returns on
    [self] and [x], taken in the order of the method. *)
Lemma call_is_operate (h : heap) (m : method) (self : Column) (x : operand) :
  (if reflected m
   then operate h x (OCol self) (template m) (strcheck_of m)
   else operate h (OCol self) x (template m) (strcheck_of m))
  = (c <- call h m self x ;; Ok (Some c)).
Proof. unfold call, operate. destruct (reflected m), x; reflexivity. Qed.

(** Two columns of one type and one table: the template is filled with the
    two fragments. *)
Lemma operate_column_same (h : heap) (c1 c2 : Column) (m : method) :
  type c1 = type c2 -> table_eq h (table c1) (table c2) = true ->
  operate_column h c1 (OCol c2) (template m) (strcheck_of m)
  = Ok (mkColumn ("(" +:+ colexpr c1 +:+ infix_of m +:+ colexpr c2 +:+ ")") (table c1) (type c1)).
Proof.
  intros Ht He. unfold operate_column.
  rewrite Ht, pytype_eqb_refl, <- Ht, He. simpl.
  rewrite fmt_template. reflexivity.
Qed.

(** Columns of two tables, the first one not of type [str]: an error. *)
Lemma operate_column_cross_numeric (h : heap) (c1 c2 : Column) (expr : string) (s : bool) :
  type c1 <> Str -> table_eq h (table c1) (table c2) = false ->
  operate_column h c1 (OCol c2) expr s = Raise (ValueError "Can't operate").
Proof.
  intros Ht He. unfold operate_column. rewrite He, andb_false_r.
  destruct (type c1); [reflexivity | reflexivity | congruence].
Qed.

(** Columns of two tables, the first one of type [str]: the second column
    is read as the text of its fragment. *)
Lemma operate_column_cross_text (h : heap) (c1 c2 : Column) (m : method) :
  type c1 = Str -> table_eq h (table c1) (table c2) = false ->
  operate_column h c1 (OCol c2) (template m) (strcheck_of m)
  = Ok (mkColumn
          ("(" +:+ colexpr c1 +:+ (if strcheck_of m then " || " else infix_of m)
               +:+ repr_str (colexpr c2) +:+ ")")
          (table c1) Str).
Proof.
  intros Ht He. unfold operate_column. rewrite He, andb_false_r, Ht. simpl.
  destruct (strcheck_of m); simpl; [reflexivity|].
  rewrite fmt_template. reflexivity.
Qed.

(** C3, at the failing input: [R] and [S] are two base tables, [R.b] and
    [S.y] are [str] columns and [S.x] is an [int] column.  [R.b == S.y],
    [R.b == S.x], [R.b + S.y] and [R.b & S.y] return a column of [R] that
    holds the name of the other column as a text, where the claim wants an
    error. *)
Theorem cross_table_text_column_combines :
  table_eq two_tables (table R_b) (table S_y) = false /\
  call two_tables OpEq R_b (OCol S_y) = Ok (mkColumn "(b = 'y')" 0 Str) /\
  call two_tables OpEq R_b (OCol S_x) = Ok (mkColumn "(b = 'x')" 0 Str) /\
  call two_tables OpAdd R_b (OCol S_y) = Ok (mkColumn "(b || 'y')" 0 Str) /\
  call two_tables OpAnd R_b (OCol S_y) = Ok (mkColumn "(b AND 'y')" 0 Str).
Proof. repeat split; reflexivity. Qed.

(** ** Column.apply *)

(** C4, as amended: [apply(e, f)] has the fragment [f(e's fragment)], the
    table of [e] and the type of [e], for every [f], [COUNT] included. *)
Theorem apply_wraps_and_keeps_type (e : Column) (f : string) :
  colexpr (apply e f) = f +:+ "(" +:+ colexpr e +:+ ")" /\
  type (apply e f) = type e /\
  table (apply e f) = table e.
Proof. unfold apply. simpl. auto. Qed.

(** C4 as stated fails: [COUNT] of a [str] column is a [str] column. *)
Lemma apply_COUNT_is_not_Int :
  apply R_b "COUNT" = mkColumn "COUNT(b)" 0 Str /\ type (apply R_b "COUNT") <> Int.
Proof. split; [reflexivity | discriminate]. Qed.

(** ** The logical operators *)

(** C5, as amended: [&] and [|] follow the rule of the comparisons.  Two
    columns of one table and one type tag, whatever the tag, give
    [(l AND r)] with the tag of [l]; a value that is not a column is
    accepted when the type of [l] accepts it, and its [repr] is put in the
    template; it is an error when the type of [l] rejects it. *)
Theorem logical_operators_follow_the_type_tag (h : heap) (c1 : Column) :
  (forall c2 : Column,
      type c1 = type c2 -> table_eq h (table c1) (table c2) = true ->
      call h OpAnd c1 (OCol c2)
      = Ok (mkColumn ("(" +:+ colexpr c1 +:+ " AND " +:+ colexpr c2 +:+ ")") (table c1) (type c1)) /\
      call h OpOr c1 (OCol c2)
      = Ok (mkColumn ("(" +:+ colexpr c1 +:+ " OR " +:+ colexpr c2 +:+ ")") (table c1) (type c1))) /\
  (forall (x : literal) (r : string),
      repr_call (type c1) (OLit x) = Ok r ->
      call h OpAnd c1 (OLit x)
      = Ok (mkColumn ("(" +:+ colexpr c1 +:+ " AND " +:+ r +:+ ")") (table c1) (type c1)) /\
      call h OpOr c1 (OLit x)
      = Ok (mkColumn ("(" +:+ colexpr c1 +:+ " OR " +:+ r +:+ ")") (table c1) (type c1))) /\
  (forall (x : literal) (e : exn),
      repr_call (type c1) (OLit x) = Raise e ->
      call h OpAnd c1 (OLit x) = Raise (ValueError "Can't operate") /\
      call h OpOr c1 (OLit x) = Raise (ValueError "Can't operate")).
Proof.
  split; [|split].
  - intros c2 Ht He. split.
    + apply (operate_column_same h c1 c2 OpAnd); assumption.
    + apply (operate_column_same h c1 c2 OpOr); assumption.
  - intros x r Hr. unfold call, operate_column. simpl. rewrite Hr. simpl.
    rewrite andb_false_r. split; reflexivity.
  - intros x e Hr. unfold call, operate_column. simpl. rewrite Hr.
    split; reflexivity.
Qed.

(** The three cases of C5 on [R.a]: [R.a & R.a], [R.a & 1] and [R.a & "x"]. *)
Lemma logical_operators_witness :
  (call two_tables OpAnd R_a (OCol R_a) = Ok (mkColumn "(a AND a)" 0 Int) /\
   call two_tables OpOr R_a (OCol R_a) = Ok (mkColumn "(a OR a)" 0 Int)) /\
  (call two_tables OpAnd R_a (OLit (int_literal 1 "1.0")) = Ok (mkColumn "(a AND 1)" 0 Int) /\
   call two_tables OpOr R_a (OLit (int_literal 1 "1.0")) = Ok (mkColumn "(a OR 1)" 0 Int)) /\
  (call two_tables OpAnd R_a (OLit (str_literal "x")) = Raise (ValueError "Can't operate") /\
   call two_tables OpOr R_a (OLit (str_literal "x")) = Raise (ValueError "Can't operate")).
Proof.
  pose proof (logical_operators_follow_the_type_tag two_tables R_a) as (H1 & H2 & H3).
  split; [|split].
  - exact (H1 R_a eq_refl eq_refl).
  - exact (H2 (int_literal 1 "1.0") "1" eq_refl).
  - exact (H3 (str_literal "x") (ValueError "invalid literal for int()") eq_refl).
Defined.

(** C5 as stated fails: the operands are [int]-typed, one is a plain
    number, and both calls return a column. *)
Lemma logical_operators_accept_int_operands :
  type R_a = Int /\
  call two_tables OpAnd R_a (OCol R_a) = Ok (mkColumn "(a AND a)" 0 Int) /\
  call two_tables OpOr R_a (OLit (int_literal 1 "1.0")) = Ok (mkColumn "(a OR 1)" 0 Int).
Proof. repeat split; reflexivity. Qed.

(** ** Text put into a fragment *)

(** A [str] column and any other value [x]: the fragment holds
    [repr(str(x))]; the arithmetic operators write a concatenation. *)
Lemma text_operand_embeds_repr (h : heap) (m : method) (c1 : Column) (x : literal) :
  type c1 = Str -> reflected m = false ->
  call h m c1 (OLit x)
  = Ok (mkColumn
          ("(" +:+ colexpr c1 +:+ (if strcheck_of m then " || " else infix_of m)
               +:+ repr_str (as_str x) +:+ ")")
          (table c1) Str).
Proof.
  intros Ht Hm. unfold call. rewrite Hm. unfold operate_column. rewrite Ht. simpl.
  destruct (strcheck_of m); simpl; [reflexivity|].
  rewrite fmt_template. reflexivity.
Qed.

Lemma repr_char_plain (c : ascii) :
  plain_char c = true -> repr_char squote c = String c "".
Proof.
  destruct c as [[] [] [] [] [] [] [] []]; vm_compute; intros H;
    first [reflexivity | discriminate H].
Qed.

Lemma plain_char_not_quote (c : ascii) :
  plain_char c = true -> Ascii.eqb c squote = false.
Proof.
  unfold plain_char. destruct (Ascii.eqb c squote); [|reflexivity].
  rewrite andb_false_r. discriminate.
Qed.

Lemma repr_body_plain (s : string) : plain s = true -> repr_body squote s = s.
Proof.
  induction s as [|c s IH]; simpl; [reflexivity|].
  intros H. apply andb_prop in H as [Hc Hs].
  rewrite (repr_char_plain c Hc), (IH Hs). reflexivity.
Qed.

Lemma has_quote_plain (s : string) : plain s = true -> has_char squote s = false.
Proof.
  induction s as [|c s IH]; cbn [has_char plain]; [reflexivity|].
  intros H. apply andb_prop in H as [Hc Hs].
  rewrite (IH Hs), orb_false_r.
  rewrite Ascii.eqb_sym. apply plain_char_not_quote, Hc.
Qed.

Lemma sql_double_quotes_plain (s : string) : plain s = true -> sql_double_quotes s = s.
Proof.
  induction s as [|c s IH]; simpl; [reflexivity|].
  intros H. apply andb_prop in H as [Hc Hs].
  rewrite (plain_char_not_quote c Hc), (IH Hs). reflexivity.
Qed.

(** On a plain text [repr] writes the SQL literal. *)
Lemma repr_str_plain (s : string) : plain s = true -> repr_str s = sql_quote s.
Proof.
  intros H. unfold repr_str, repr_quote, sql_quote.
  rewrite (has_quote_plain s H). simpl.
  rewrite (repr_body_plain s H), (sql_double_quotes_plain s H). reflexivity.
Qed.

(** Reading back the literal of [s] gives [s], for every [s]. *)
Lemma sql_text_body_quote (s : string) :
  sql_text_body (sql_double_quotes s +:+ String squote "") = Some s.
Proof.
  induction s as [|c s IH]; [reflexivity|].
  simpl. destruct (Ascii.eqb c squote) eqn:E.
  - apply Ascii.eqb_eq in E. subst c. simpl. rewrite IH. reflexivity.
  - simpl. rewrite E, IH. reflexivity.
Qed.

Lemma sql_text_quote (s : string) : sql_text (sql_quote s) = Some s.
Proof. unfold sql_quote. simpl. apply sql_text_body_quote. Qed.

(** Where the quoting of [repr] and that of SQL agree: a [str] column
    combined with a text [s] of printable characters, none of them a single
    quote or a backslash, holds [s] between single quotes, which is the SQL
    literal of [s]. *)
Theorem plain_text_is_embedded_as_sql_literal
    (h : heap) (m : method) (c1 : Column) (x : literal) :
  type c1 = Str -> reflected m = false -> plain (as_str x) = true ->
  call h m c1 (OLit x)
  = Ok (mkColumn
          ("(" +:+ colexpr c1 +:+ (if strcheck_of m then " || " else infix_of m)
               +:+ String squote (as_str x +:+ String squote "") +:+ ")")
          (table c1) Str) /\
  sql_text (String squote (as_str x +:+ String squote "")) = Some (as_str x).
Proof.
  intros Ht Hm Hp.
  assert (E : String squote (as_str x +:+ String squote "") = sql_quote (as_str x)).
  { unfold sql_quote. rewrite (sql_double_quotes_plain _ Hp). reflexivity. }
  rewrite E. split.
  - rewrite <- (repr_str_plain _ Hp). apply text_operand_embeds_repr; assumption.
  - apply sql_text_quote.
Qed.

(** [R.b == "abc"]. *)
Lemma plain_text_witness :
  call two_tables OpEq R_b (OLit (str_literal "abc")) = Ok (mkColumn "(b = 'abc')" 0 Str) /\
  sql_text "'abc'" = Some "abc".
Proof.
  exact (plain_text_is_embedded_as_sql_literal two_tables OpEq R_b (str_literal "abc")
           eq_refl eq_refl eq_refl).
Defined.

(** C6, at the failing inputs: the text is written by [repr], not as an
    SQL literal.  A text with a single quote is written between double
    quotes, where SQL doubles the quote.  A text with both kinds of quote is
    written between single quotes with a backslash before its single quote:
    for SQL the literal ends at that quote, and what follows it in the text
    is read as SQL. *)
Lemma quoted_text_is_not_a_sql_literal :
  call two_tables OpEq R_b (OLit (str_literal "it's"))
  = Ok (mkColumn ("(b = " +:+ String dquote ("it's" +:+ String dquote ")")) 0 Str) /\
  sql_text (String dquote ("it's" +:+ String dquote "")) = None /\
  sql_quote "it's" = "'it''s'" /\
  call two_tables OpEq R_b (OLit (str_literal (String dquote "it's")))
  = Ok (mkColumn ("(b = '" +:+ String dquote ("it" +:+ String backslash "'s')")) 0 Str) /\
  sql_text ("'" +:+ String dquote ("it" +:+ String backslash "'s'")) = None /\
  call two_tables OpEq R_b (OLit (str_literal (String dquote "' OR 1=1) --")))
  = Ok (mkColumn ("(b = '" +:+ String dquote (String backslash "' OR 1=1) --')")) 0 Str) /\
  sql_text ("'" +:+ String dquote (String backslash "'"))
  = Some (String dquote (String backslash "")).
Proof. repeat split; reflexivity. Qed.

(** ** The store *)

Lemma lookup_snoc {A} (l : list A) (x : A) : (l ++ [x]) !! List.length l = Some x.
Proof. induction l; simpl; auto. Qed.

Lemma insert_snoc {A} (l : list A) (x y : A) : <[List.length l := y]> (l ++ [x]) = l ++ [y].
Proof. induction l; simpl; [reflexivity|]. f_equal. exact IHl. Qed.

Lemma with_where_truthy o c : optdict_truthy (with_where o c) = true.
Proof. destruct o as [[] [] [] [] [] []]; reflexivity. Qed.

Lemma new_dbTable_from_dict (T : list dbTable) (O : list optdict) C N (o : optdict) dbn nm d :
  new_dbTable (mkHeap T (O ++ [o]) C N) dbn nm (FromDict d) (Some (List.length O))
  = Ok (List.length T,
        if optdict_truthy o
        then mkHeap (T ++ [mkTable dbn nm d (List.length O) None]) (O ++ [o]) C N
        else mkHeap (T ++ [mkTable dbn nm d (S (List.length O)) None])
                    (O ++ [o; empty_options]) C N).
Proof.
  unfold new_dbTable, get_options. simpl.
  rewrite lookup_snoc. simpl. destruct (optdict_truthy o); simpl; [reflexivity|].
  rewrite length_app, <- app_assoc. simpl. rewrite Nat.add_1_r. reflexivity.
Qed.

Lemma call_tables h h' m a x : tables h = tables h' -> call h m a x = call h' m a x.
Proof.
  intros E. unfold call, operate_column, table_eq. rewrite E. reflexivity.
Qed.

Lemma where_spec h v t o d p :
  tables h !! v = Some t -> optdicts h !! options t = Some o -> coldicts h !! columns t = Some d ->
  table_eq h (table p) v = true ->
  where_ h v p =
  (c <- match opt_where o with Some w => call h OpAnd w (OCol p) | None => Ok p end ;;
   Ok (List.length (tables h),
       mkHeap (tables h ++ [mkTable (db t) (name t) (List.length (coldicts h)) (List.length (optdicts h)) None])
              (optdicts h ++ [with_where o c]) (coldicts h ++ [d]) (namecells h))).
Proof.
  intros Ht Ho Hd He. unfold where_. rewrite He. simpl.
  unfold get_table, get_options, get_columns. rewrite Ht. simpl. rewrite Ho. simpl.
  assert (K : forall c : Column,
    (h0 <- Ok (set_options (mkHeap (tables h) (optdicts h ++ [o]) (coldicts h) (namecells h))
                 (List.length (optdicts h)) (with_where o c)) ;;
     d0 <- match coldicts h0 !! columns t with Some d0 => Ok d0 | None => dangling end ;;
     new_dbTable (mkHeap (tables h0) (optdicts h0) (coldicts h0 ++ [d0]) (namecells h0))
       (db t) (name t) (FromDict (List.length (coldicts h0))) (Some (List.length (optdicts h))))
    = Ok (List.length (tables h),
       mkHeap (tables h ++ [mkTable (db t) (name t) (List.length (coldicts h)) (List.length (optdicts h)) None])
              (optdicts h ++ [with_where o c]) (coldicts h ++ [d]) (namecells h))).
  { intros c. unfold set_options. simpl. rewrite Hd. simpl. rewrite insert_snoc.
    rewrite new_dbTable_from_dict, with_where_truthy. reflexivity. }
  destruct (opt_where o) as [w|].
  - rewrite (call_tables (mkHeap (tables h) (optdicts h ++ [o]) (coldicts h) (namecells h)) h
               OpAnd w (OCol p) eq_refl).
    destruct (call h OpAnd w (OCol p)) as [c|e]; [|reflexivity].
    simpl. apply (K c).
  - apply (K p).
Qed.

Lemma dict_set_entries f ks k :
  dict_set k (f k) (map (entry f) ks)
  = map (entry f) (if existsb (String.eqb k) ks then ks else ks ++ [k]).
Proof.
  induction ks as [|k' ks IH]; simpl; [reflexivity|].
  destruct (String.eqb k k') eqn:E; simpl.
  - apply String.eqb_eq in E. subst k'. reflexivity.
  - rewrite IH. destruct (existsb (String.eqb k) ks); reflexivity.
Qed.

Lemma dict_get_entries f ks k :
  In k ks -> dict_get k (map (entry f) ks) = Some (f k).
Proof.
  induction ks as [|k' ks IH]; simpl; [tauto|].
  intros H. destruct (String.eqb k k') eqn:E.
  - apply String.eqb_eq in E. subst k'. reflexivity.
  - destruct H as [H|H]; [|auto]. subst k'. rewrite String.eqb_refl in E. discriminate.
Qed.

Lemma dict_keys_entries f ks : dict_keys (map (entry f) ks) = ks.
Proof. unfold dict_keys. rewrite map_map. simpl. apply map_id. Qed.

Lemma select_dict_entries d f names ks :
  (forall n, In n names -> dict_get n d = Some (f n)) ->
  select_dict d names (map (entry f) ks) = Ok (map (entry f) (add_new ks names)).
Proof.
  revert ks. induction names as [|n names IH]; intros ks H; simpl; [reflexivity|].
  unfold dict_item. rewrite (H n (or_introl eq_refl)). simpl.
  rewrite dict_set_entries.
  destruct (existsb (String.eqb n) ks); apply IH; intros; apply H; right; assumption.
Qed.

Lemma check_names_ok d names :
  (forall n, In n names -> dict_mem n d = true) -> check_names d names = Ok tt.
Proof.
  induction names as [|n names IH]; intros H; simpl; [reflexivity|].
  rewrite (H n (or_introl eq_refl)). apply IH. intros; apply H; right; assumption.
Qed.

Lemma add_new_seen ks names k : In k ks -> In k (add_new ks names).
Proof.
  revert ks. induction names as [|n names IH]; intros ks H; simpl; [assumption|].
  destruct (existsb (String.eqb n) ks); apply IH; [assumption|].
  apply in_or_app. left. assumption.
Qed.

Lemma add_new_names ks names k : In k names -> In k (add_new ks names).
Proof.
  revert ks. induction names as [|n names IH]; intros ks H; simpl; [destruct H|].
  destruct H as [H|H].
  - subst n. destruct (existsb (String.eqb k) ks) eqn:E.
    + apply add_new_seen. apply existsb_exists in E as (x & Hx & Ex).
      apply String.eqb_eq in Ex. subst x. assumption.
    + apply add_new_seen. apply in_or_app. right. left. reflexivity.
  - destruct (existsb (String.eqb n) ks); apply IH; assumption.
Qed.

Lemma existsb_eqb_false k ks : ~ In k ks -> existsb (String.eqb k) ks = false.
Proof.
  intros H. destruct (existsb (String.eqb k) ks) eqn:E; [|reflexivity].
  apply existsb_exists in E as (x & Hx & Ex). apply String.eqb_eq in Ex. subst x. tauto.
Qed.

Lemma add_new_NoDup ks names :
  List.NoDup names -> (forall n, In n names -> ~ In n ks) -> add_new ks names = ks ++ names.
Proof.
  revert ks. induction names as [|n names IH]; intros ks Hnd Hd; simpl.
  - rewrite app_nil_r. reflexivity.
  - inversion Hnd as [|? ? Hn Hnd']; subst.
    rewrite (existsb_eqb_false n ks (Hd n (or_introl eq_refl))).
    rewrite IH; [rewrite <- app_assoc; reflexivity | assumption |].
    intros m Hm Hin. apply in_app_or in Hin as [Hin|[Hin|[]]].
    + exact (Hd m (or_intror Hm) Hin).
    + subst m. tauto.
Qed.

Lemma first_occurrences_NoDup names : List.NoDup names -> first_occurrences names = names.
Proof. intros H. unfold first_occurrences. rewrite add_new_NoDup; auto. Qed.

Lemma dict_mem_value d k : dict_mem k d = true -> dict_get k d = Some (value_in d k).
Proof. unfold dict_mem, value_in. destruct (dict_get k d); [reflexivity | discriminate]. Qed.

Lemma select_dict_all d names :
  (forall n, In n names -> dict_mem n d = true) ->
  select_dict d names [] = Ok (map (entry (value_in d)) (first_occurrences names)).
Proof.
  intros H. apply (select_dict_entries d (value_in d) names []).
  intros n Hin. apply dict_mem_value, H, Hin.
Qed.

Lemma lookup_snoc2 {A} (l : list A) (x y : A) : (l ++ [x; y]) !! S (List.length l) = Some y.
Proof. induction l; simpl; auto. Qed.

Lemma select_spec h v t o d names :
  tables h !! v = Some t -> optdicts h !! options t = Some o -> coldicts h !! columns t = Some d ->
  (forall n, In n names -> dict_mem n d = true) ->
  select h v names
  = Ok (List.length (tables h),
        if optdict_truthy o
        then mkHeap (tables h ++ [mkTable (db t) (name t) (List.length (coldicts h))
                                    (List.length (optdicts h)) None])
                    (optdicts h ++ [o])
                    (coldicts h ++ [map (entry (value_in d)) (first_occurrences names)])
                    (namecells h)
        else mkHeap (tables h ++ [mkTable (db t) (name t) (List.length (coldicts h))
                                    (S (List.length (optdicts h))) None])
                    (optdicts h ++ [o; empty_options])
                    (coldicts h ++ [map (entry (value_in d)) (first_occurrences names)])
                    (namecells h)).
Proof.
  intros Ht Ho Hd Hn. unfold select, get_table, get_columns, get_options.
  rewrite Ht. simpl. rewrite Hd. simpl.
  rewrite (check_names_ok d names Hn). simpl.
  rewrite (select_dict_all d names Hn).
  simpl. rewrite Ho. simpl.
  rewrite new_dbTable_from_dict. reflexivity.
Qed.

(** C8: when every name of [names] is a column of [v], [v.select(names)]
    returns a view whose column dictionary has the names of [names] as keys,
    in the order of their first occurrence (which is [names] itself when no
    name occurs twice), each with the column it has in [v]; and
    [select(names)] on that view returns a view with the same column
    dictionary. *)
Theorem select_narrows_in_order_and_repeats (h : heap) (v : loc) (t : dbTable)
    (o : optdict) (d : coldict) (names : list string) :
  tables h !! v = Some t -> optdicts h !! options t = Some o ->
  coldicts h !! columns t = Some d ->
  (forall n, In n names -> dict_mem n d = true) ->
  exists v1 h1 t1 d1,
    select h v names = Ok (v1, h1) /\
    tables h1 !! v1 = Some t1 /\ coldicts h1 !! columns t1 = Some d1 /\
    dict_keys d1 = first_occurrences names /\
    (List.NoDup names -> dict_keys d1 = names) /\
    (forall n, In n names -> dict_get n d1 = dict_get n d) /\
    exists v2 h2 t2,
      select h1 v1 names = Ok (v2, h2) /\
      tables h2 !! v2 = Some t2 /\ coldicts h2 !! columns t2 = Some d1.
Proof.
  intros Ht Ho Hd Hn.
  pose proof (select_spec h v t o d names Ht Ho Hd Hn) as S1.
  set (d1 := map (entry (value_in d)) (first_occurrences names)) in *.
  assert (K1 : dict_keys d1 = first_occurrences names) by apply dict_keys_entries.
  assert (G1 : forall n, In n names -> dict_get n d1 = Some (value_in d n)).
  { intros n Hin. apply dict_get_entries, add_new_names, Hin. }
  assert (M1 : forall n, In n names -> dict_mem n d1 = true).
  { intros n Hin. unfold dict_mem. rewrite (G1 n Hin). reflexivity. }
  assert (V1 : map (entry (value_in d1)) (first_occurrences names) = d1).
  { unfold d1 at 2. apply map_ext_in. intros k Hk. unfold entry. f_equal.
    unfold value_in at 1. unfold d1. rewrite (dict_get_entries _ _ _ Hk). reflexivity. }
  assert (P1 : dict_keys d1 = first_occurrences names /\
               (List.NoDup names -> dict_keys d1 = names) /\
               (forall n, In n names -> dict_get n d1 = dict_get n d)).
  { split; [exact K1|]. split; [intros N; rewrite K1; apply first_occurrences_NoDup, N|].
    intros n Hin; rewrite (G1 n Hin); symmetry; apply dict_mem_value, Hn, Hin. }
  destruct (optdict_truthy o) eqn:Tr.
  - eexists _, _, _, d1. split; [exact S1|]. simpl.
    split; [apply lookup_snoc|]. split; [apply lookup_snoc|].
    split; [apply P1|]. split; [apply P1|]. split; [apply P1|].
    eexists _, _, _. split.
    + eapply select_spec; simpl; [apply lookup_snoc | apply lookup_snoc | apply lookup_snoc | exact M1].
    + rewrite Tr, V1. simpl. split; apply lookup_snoc.
  - eexists _, _, _, d1. split; [exact S1|]. simpl.
    split; [apply lookup_snoc|]. split; [apply lookup_snoc|].
    split; [apply P1|]. split; [apply P1|]. split; [apply P1|].
    eexists _, _, _. split.
    + eapply select_spec; simpl; [apply lookup_snoc | apply lookup_snoc2 | apply lookup_snoc | exact M1].
    + rewrite V1. simpl. split; apply lookup_snoc.
Qed.

(** ** Views made from a view *)

Lemma table_eq_grow h T' O C N a b :
  table_eq h a b = true ->
  table_eq (mkHeap (tables h ++ T') O C N) a b = true.
Proof.
  intros H. apply table_eq_true in H as (ta & tb & Ha & Hb & E).
  apply table_eq_true. exists ta, tb. simpl.
  split; [apply lookup_app_l_Some, Ha|]. split; [apply lookup_app_l_Some, Hb | exact E].
Qed.

Lemma table_eq_same_view h a b v :
  table_eq h a v = true -> table_eq h b v = true -> table_eq h a b = true.
Proof.
  intros Ha Hb. apply table_eq_true in Ha as (ta & tv & Ha & Hv & Ea).
  apply table_eq_true in Hb as (tb & tv' & Hb & Hv' & Eb).
  apply table_eq_true. exists ta, tb. repeat split; try assumption. congruence.
Qed.

(** A column of the view [v] is a column of a view made from [v]. *)
Lemma table_eq_derived h v t t' O C N a :
  tables h !! v = Some t -> name t' = name t -> table_eq h a v = true ->
  table_eq (mkHeap (tables h ++ [t']) O C N) a (List.length (tables h)) = true.
Proof.
  intros Ht En H. apply table_eq_true in H as (ta & tv & Ha & Hv & E).
  apply table_eq_true. exists ta, t'. simpl.
  split; [apply lookup_app_l_Some, Ha|]. split; [apply lookup_snoc|]. congruence.
Qed.




Lemma statement_Ok v h t o d :
  tables h !! v = Some t -> optdicts h !! options t = Some o ->
  coldicts h !! columns t = Some d ->
  statement (Ok (v, h))
  = (where_ <- formulate_where h o empty_options ;;
     Ok ("SELECT " +:+ join "," (map colexpr (dict_values d)) +:+ " FROM " +:+ name t
         +:+ " " +:+ where_ +:+ " " +:+ formulate_group o empty_options
         +:+ " " +:+ formulate_sort o empty_options
         +:+ " " +:+ formulate_limit o empty_options)).
Proof.
  intros Ht Ho Hd. unfold statement, formulate, get_table, get_options, get_columns.
  cbn [bind]. rewrite Ht. cbn [bind]. rewrite Ho. cbn [bind]. rewrite Hd. cbn [bind].
  destruct (formulate_where h o empty_options); reflexivity.
Qed.

Lemma table_eq_mk h O C N a b : table_eq (mkHeap (tables h) O C N) a b = table_eq h a b.
Proof. reflexivity. Qed.

Lemma with_sort_truthy o k : optdict_truthy (with_sort o k) = true.
Proof. destruct o as [[] [] [] [] [] []]; reflexivity. Qed.
Lemma with_group_truthy o k : optdict_truthy (with_group o k) = true.
Proof. destruct o as [[] [] [] [] [] []]; reflexivity. Qed.
Lemma with_having_truthy o k : optdict_truthy (with_having o k) = true.
Proof. destruct o as [[] [] [] [] [] []]; reflexivity. Qed.

Lemma sort_spec h v t o d column descending :
  tables h !! v = Some t -> optdicts h !! options t = Some o -> coldicts h !! columns t = Some d ->
  sort h v column descending =
  match resolve d column with
  | KCol c =>
      if table_eq h (table c) v then
        Ok (List.length (tables h),
            mkHeap (tables h ++ [mkTable (db t) (name t) (List.length (coldicts h))
                                   (List.length (optdicts h)) None])
                   (optdicts h ++ [with_sort o (c, if descending then "DESC" else "ASC")])
                   (coldicts h ++ [d]) (namecells h))
      else Raise (ValueError "Incorrect Column")
  | KName _ => Raise (ValueError "Incorrect Column")
  end.
Proof.
  intros Ht Ho Hd. unfold sort, get_table, get_options, get_columns.
  rewrite Ht. cbn [bind]. rewrite Ho. cbn [bind alloc_options coldicts]. rewrite Hd. cbn [bind].
  destruct (resolve d column) as [s|c]; [reflexivity|].
  rewrite table_eq_mk.
  destruct (table_eq h (table c) v); [|reflexivity].
  unfold set_options. cbn [alloc_columns tables optdicts coldicts namecells].
  rewrite insert_snoc, new_dbTable_from_dict, with_sort_truthy. reflexivity.
Qed.

Lemma grouped_truthy h v o c having : optdict_truthy (grouped h v o c having) = true.
Proof.
  unfold grouped. destruct having as [hv|]; [destruct (table_eq h (table hv) v)|];
    auto using with_having_truthy, with_group_truthy.
Qed.

Lemma group_spec h v t o d column having collect :
  tables h !! v = Some t -> optdicts h !! options t = Some o -> coldicts h !! columns t = Some d ->
  group h v column having collect =
  match resolve d column with
  | KCol c =>
      if table_eq h (table c) v then
        Ok (List.length (tables h),
            mkHeap (tables h ++ [mkTable (db t) (name t) (List.length (coldicts h))
                                   (List.length (optdicts h)) None])
                   (optdicts h ++ [grouped h v o c having])
                   (coldicts h ++ [match truthy_str collect with
                                   | Some f => apply_all f d
                                   | None => d
                                   end])
                   (namecells h))
      else Raise (ValueError "Incorrect Column")
  | KName _ => Raise (ValueError "Incorrect Column")
  end.
Proof.
  intros Ht Ho Hd. unfold group, get_table, get_options, get_columns.
  rewrite Ht. cbn [bind]. rewrite Hd. cbn [bind].
  destruct (resolve d column) as [s|c]; [reflexivity|].
  destruct (table_eq h (table c) v); [|reflexivity].
  rewrite Ho. cbn [bind alloc_options]. unfold set_options, set_columns.
  cbn [tables optdicts coldicts namecells]. rewrite insert_snoc.
  unfold grouped.
  destruct having as [hv|].
  - rewrite table_eq_mk.
    destruct (table_eq h (table hv) v).
    + cbn [tables optdicts coldicts namecells alloc_columns]. rewrite insert_snoc.
      destruct (truthy_str collect) as [f|];
        cbn [tables optdicts coldicts namecells]; rewrite ?insert_snoc;
        rewrite new_dbTable_from_dict, with_having_truthy; reflexivity.
    + cbn [tables optdicts coldicts namecells alloc_columns].
      destruct (truthy_str collect) as [f|];
        cbn [tables optdicts coldicts namecells]; rewrite ?insert_snoc;
        rewrite new_dbTable_from_dict, with_group_truthy; reflexivity.
  - cbn [tables optdicts coldicts namecells alloc_columns].
    destruct (truthy_str collect) as [f|];
      cbn [tables optdicts coldicts namecells]; rewrite ?insert_snoc;
      rewrite new_dbTable_from_dict, with_group_truthy; reflexivity.
Qed.

Lemma check_names_Ok d names u :
  check_names d names = Ok u -> forall n, In n names -> dict_mem n d = true.
Proof.
  induction names as [|m names IH]; simpl; intros H n Hin; [destruct Hin|].
  destruct (dict_mem m d) eqn:E; [|discriminate].
  destruct Hin as [<-|Hin]; [exact E | exact (IH H n Hin)].
Qed.

(** A combinator that returns has found its receiver. *)
Lemma run_Ok_receiver h v c r :
  run h v c = Ok r ->
  exists t o d, tables h !! v = Some t /\ optdicts h !! options t = Some o /\
                coldicts h !! columns t = Some d.
Proof.
  intros H.
  assert (Ht : exists t, tables h !! v = Some t).
  { destruct (tables h !! v) as [t|] eqn:Ht; [eauto|exfalso].
    destruct c; cbn [run] in H;
      unfold select, where_, sort, group, get_table, table_eq in H; rewrite Ht in H.
    - discriminate H.
    - destruct (tables h !! table column); discriminate H.
    - discriminate H.
    - discriminate H. }
  destruct Ht as (t & Ht).
  assert (Hd : exists d, coldicts h !! columns t = Some d).
  { destruct (coldicts h !! columns t) as [d|] eqn:Hd; [eauto|exfalso].
    destruct c; cbn [run] in H;
      unfold select, where_, sort, group, get_table, get_columns, get_options in H;
      rewrite Ht in H; cbn [bind] in H.
    - rewrite Hd in H. discriminate H.
    - destruct (negb (table_eq h (table column) v)); [discriminate H|].
      destruct (optdicts h !! options t) as [o|]; [|discriminate H].
      cbn [bind alloc_options] in H.
      destruct (opt_where o) as [w|].
      + destruct (call _ OpAnd w (OCol column)); cbn [bind] in H; [|discriminate H].
        unfold set_options in H. cbn [coldicts] in H. rewrite Hd in H. discriminate H.
      + cbn [bind] in H. unfold set_options in H. cbn [coldicts] in H.
        rewrite Hd in H. discriminate H.
    - destruct (optdicts h !! options t) as [o|]; [|discriminate H].
      cbn [bind alloc_options coldicts] in H. rewrite Hd in H. discriminate H.
    - rewrite Hd in H. discriminate H. }
  destruct Hd as (d & Hd).
  exists t. destruct (optdicts h !! options t) as [o|] eqn:Ho; [eauto|exfalso].
  destruct c; cbn [run] in H;
    unfold select, where_, sort, group, get_table, get_columns, get_options in H;
    rewrite Ht in H; cbn [bind] in H.
  - rewrite Hd in H. cbn [bind] in H.
    destruct (check_names d names); cbn [bind] in H; [|discriminate H].
    destruct (select_dict d names []); cbn [bind alloc_columns optdicts] in H; [|discriminate H].
    rewrite Ho in H. discriminate H.
  - destruct (negb (table_eq h (table column) v)); [discriminate H|].
    rewrite Ho in H. discriminate H.
  - rewrite Ho in H. discriminate H.
  - rewrite Hd in H. cbn [bind] in H.
    destruct (resolve d column) as [s|k]; [discriminate H|].
    destruct (table_eq h (table k) v); [|discriminate H].
    rewrite Ho in H. discriminate H.
Qed.

Lemma extends_grow h T' O' C' :
  extends h (mkHeap (tables h ++ T') (optdicts h ++ O') (coldicts h ++ C') (namecells h)).
Proof.
  unfold extends. simpl. repeat split; try apply prefix_app_r; reflexivity.
Qed.

(** What a combinator returns: a new view object on new dictionaries. *)
Lemma run_Ok_shape h v c v' h' t o d :
  tables h !! v = Some t -> optdicts h !! options t = Some o -> coldicts h !! columns t = Some d ->
  run h v c = Ok (v', h') ->
  exists lo O' d',
    v' = List.length (tables h) /\
    h' = mkHeap (tables h ++ [mkTable (db t) (name t) (List.length (coldicts h)) lo None])
                (optdicts h ++ O') (coldicts h ++ [d']) (namecells h) /\
    List.length (optdicts h) <= lo.
Proof.
  intros Ht Ho Hd H. destruct c; cbn [run] in H.
  - assert (Hn : forall n, In n names -> dict_mem n d = true).
    { unfold select, get_table, get_columns in H. rewrite Ht in H. cbn [bind] in H.
      rewrite Hd in H. cbn [bind] in H.
      destruct (check_names d names) as [u|] eqn:Hc; [|discriminate H].
      exact (check_names_Ok d names u Hc). }
    rewrite (select_spec h v t o d names Ht Ho Hd Hn) in H.
    destruct (optdict_truthy o); injection H as <- <-; eexists _, _, _;
      (split; [reflexivity|]); (split; [reflexivity|]); lia.
  - destruct (table_eq h (table column) v) eqn:He.
    2:{ unfold where_ in H. rewrite He in H. discriminate H. }
    rewrite (where_spec h v t o d column Ht Ho Hd He) in H.
    apply bind_Ok in H as (c & _ & H). injection H as <- <-.
    eexists _, _, _. split; [reflexivity|]. split; [reflexivity|]. lia.
  - rewrite (sort_spec h v t o d column descending Ht Ho Hd) in H.
    destruct (resolve d column) as [s|k]; [discriminate H|].
    destruct (table_eq h (table k) v); [|discriminate H].
    injection H as <- <-.
    eexists _, _, _. split; [reflexivity|]. split; [reflexivity|]. lia.
  - rewrite (group_spec h v t o d column having collect Ht Ho Hd) in H.
    destruct (resolve d column) as [s|k]; [discriminate H|].
    destruct (table_eq h (table k) v); [|discriminate H].
    injection H as <- <-.
    eexists _, _, _. split; [reflexivity|]. split; [reflexivity|]. lia.
Qed.

(** C9: a combinator call that returns leaves every object of the store as
    it was, so the receiver, its option dictionary and its column dictionary
    are unchanged; the view it returns is a new object with an option
    dictionary and a column dictionary of its own. *)
Theorem combinators_leave_the_receiver_unchanged
    (h : heap) (v : loc) (c : combinator) (v' : loc) (h' : heap)
    (t : dbTable) (o : optdict) (d : coldict) :
  tables h !! v = Some t -> optdicts h !! options t = Some o ->
  coldicts h !! columns t = Some d ->
  run h v c = Ok (v', h') ->
  extends h h' /\
  tables h' !! v = Some t /\ optdicts h' !! options t = Some o /\
  coldicts h' !! columns t = Some d /\
  exists t', tables h' !! v' = Some t' /\
             v' <> v /\ options t' <> options t /\ columns t' <> columns t.
Proof.
  intros Ht Ho Hd H.
  destruct (run_Ok_shape h v c v' h' t o d Ht Ho Hd H) as (lo & O' & d' & -> & -> & Hlo).
  split; [apply extends_grow|]. cbn [tables optdicts coldicts].
  split; [apply lookup_app_l_Some, Ht|].
  split; [apply lookup_app_l_Some, Ho|].
  split; [apply lookup_app_l_Some, Hd|].
  eexists. split; [apply lookup_snoc|]. cbn [options columns].
  apply lookup_lt_Some in Ht, Ho, Hd.
  repeat split; lia.
Qed.

(** ** The examples *)

Lemma example_predicates :
  call two_tables OpGt R_a (OLit (int_literal 0 "0.0")) = Ok a_gt_0 /\
  call two_tables OpGt R_a (OLit (int_literal 1 "1.0")) = Ok a_gt_1 /\
  call two_tables OpLt R_a (OLit (int_literal 5 "5.0")) = Ok a_lt_5 /\
  where_ two_tables 0 a_gt_0 = Ok filtered_R /\
  run counted_R 0 (Group (KName "b") None (Some "COUNT")) = Ok grouped_R.
Proof. repeat split; reflexivity. Qed.

(** C1, at the failing input: the view has the limit 10 among its options
    and [formulate] is given the limit 3; the statement ends with
    [LIMIT 10], where the smaller limit is 3. *)
Theorem formulate_keeps_the_persisted_limit :
  (r <- limited_R ;; formulate (snd r) (fst r) (limit_options 3))
  = Ok "SELECT a,b FROM R    LIMIT 10" /\
  "LIMIT " +:+ repr_int (Z.min 10 3) = "LIMIT 3".
Proof. split; reflexivity. Qed.

(** C2, at the failing input: the view has the filter [(a > 1)] and
    [formulate] is given the filter [(a < 5)]; the statement has the clause
    [WHERE (a > 1)], where the conjunction is [((a > 1) AND (a < 5))]. *)
Theorem formulate_keeps_the_persisted_filter :
  (r <- where_ two_tables 0 a_gt_1 ;; formulate (snd r) (fst r) (where_options a_lt_5))
  = Ok "SELECT a,b FROM R WHERE (a > 1)   " /\
  call two_tables OpAnd a_gt_1 (OCol a_lt_5) = Ok (mkColumn "((a > 1) AND (a < 5))" 0 Int).
Proof. split; reflexivity. Qed.

(** The limit among the options of the view is the one rendered, whatever
    [formulate] is given. *)
Lemma formulate_limit_persisted (self_options options : optdict) (l : Z) :
  opt_limit self_options = Some l ->
  formulate_limit self_options options = "LIMIT " +:+ repr_int l.
Proof. unfold formulate_limit. intros ->. reflexivity. Qed.

(** C8 on [R.select(["b", "a", "b"])]. *)
Lemma select_witness :
  exists v1 h1 t1 d1,
    select two_tables 0 ["b"; "a"; "b"] = Ok (v1, h1) /\
    tables h1 !! v1 = Some t1 /\ coldicts h1 !! columns t1 = Some d1 /\
    dict_keys d1 = first_occurrences ["b"; "a"; "b"] /\
    (List.NoDup ["b"; "a"; "b"] -> dict_keys d1 = ["b"; "a"; "b"]) /\
    (forall n, In n ["b"; "a"; "b"] -> dict_get n d1 = dict_get n [("a", R_a); ("b", R_b)]) /\
    exists v2 h2 t2,
      select h1 v1 ["b"; "a"; "b"] = Ok (v2, h2) /\
      tables h2 !! v2 = Some t2 /\ coldicts h2 !! columns t2 = Some d1.
Proof.
  apply (select_narrows_in_order_and_repeats two_tables 0
           (mkTable 0 "R" 0 0 None) (with_columns empty_options (ColsNames 0))
           [("a", R_a); ("b", R_b)] ["b"; "a"; "b"] eq_refl eq_refl eq_refl).
  intros n [<-|[<-|[<-|[]]]]; reflexivity.
Defined.

(** C9 on [R.group("b", collect="COUNT")], the call that writes most. *)
Lemma combinators_witness :
  extends counted_R (snd grouped_R) /\
  tables (snd grouped_R) !! 0 = Some (mkTable 0 "R" 0 0 (Some 3%Z)) /\
  optdicts (snd grouped_R) !! 0 = Some (with_columns empty_options (ColsNames 0)) /\
  coldicts (snd grouped_R) !! 0 = Some [("a", R_a); ("b", R_b)] /\
  exists t', tables (snd grouped_R) !! fst grouped_R = Some t' /\
             fst grouped_R <> 0 /\ options t' <> 0 /\ columns t' <> 0.
Proof.
  exact (combinators_leave_the_receiver_unchanged counted_R 0
           (Group (KName "b") None (Some "COUNT")) (fst grouped_R) (snd grouped_R)
           (mkTable 0 "R" 0 0 (Some 3%Z)) (with_columns empty_options (ColsNames 0))
           [("a", R_a); ("b", R_b)] eq_refl eq_refl eq_refl eq_refl).
Defined.

(** ** Further properties *)

Lemma table_eq_sym (h : heap) (a b : loc) : table_eq h a b = table_eq h b a.
Proof.
  unfold table_eq. destruct (tables h !! a), (tables h !! b); try reflexivity.
  apply String.eqb_sym.
Qed.

(** Columns of two tables, neither of type [str]: every operator method
    raises [ValueError]. *)
Theorem cross_table_numeric_columns_raise (h : heap) (m : method) (c1 c2 : Column) :
  type c1 <> Str -> type c2 <> Str -> table_eq h (table c1) (table c2) = false ->
  call h m c1 (OCol c2) = Raise (ValueError "Can't operate").
Proof.
  intros H1 H2 He. unfold call. destruct (reflected m).
  - apply operate_column_cross_numeric; [exact H2|]. rewrite table_eq_sym. exact He.
  - apply operate_column_cross_numeric; assumption.
Qed.

(** [R.a == S.x]. *)
Lemma cross_table_numeric_witness :
  call two_tables OpEq R_a (OCol S_x) = Raise (ValueError "Can't operate").
Proof.
  apply (cross_table_numeric_columns_raise two_tables OpEq R_a S_x);
    [discriminate | discriminate | reflexivity].
Defined.

(** A [str] column takes a number as the text of the number: [R.b + 5] is
    the column [(b || '5')] and [R.b == 5] the column [(b = '5')]. *)
Lemma text_operand_witness :
  call two_tables OpAdd R_b (OLit (int_literal 5 "5.0")) = Ok (mkColumn "(b || '5')" 0 Str) /\
  call two_tables OpEq R_b (OLit (int_literal 5 "5.0")) = Ok (mkColumn "(b = '5')" 0 Str).
Proof.
  split.
  - exact (text_operand_embeds_repr two_tables OpAdd R_b (int_literal 5 "5.0") eq_refl eq_refl).
  - exact (text_operand_embeds_repr two_tables OpEq R_b (int_literal 5 "5.0") eq_refl eq_refl).
Defined.

Lemma append_cons (x : ascii) (a b : string) : String x a +:+ b = String x (a +:+ b).
Proof. reflexivity. Qed.

Lemma append_assoc (a b c : string) : (a +:+ b) +:+ c = a +:+ (b +:+ c).
Proof. induction a as [|x a IH]; [reflexivity|]. rewrite !append_cons, IH. reflexivity. Qed.

Lemma parenthesised (a i b : string) :
  exists body, "(" +:+ a +:+ i +:+ b +:+ ")" = "(" +:+ body +:+ ")".
Proof. exists (a +:+ i +:+ b). rewrite !append_assoc. reflexivity. Qed.

Lemma operate_column_Ok h c1 c2 m c :
  operate_column h c1 c2 (template m) (strcheck_of m) = Ok c ->
  table c = table c1 /\ type c = type c1 /\ exists body, colexpr c = "(" +:+ body +:+ ")".
Proof.
  unfold operate_column.
  assert (V : try_except
      (r <- repr_call (type c1) c2 ;;
       if pytype_eqb (type c1) Str && strcheck_of m then
         Ok (mkColumn ("(" +:+ colexpr c1 +:+ " || " +:+ r +:+ ")") (table c1) (type c1))
       else
         expr' <- fmt (template m) [colexpr c1; r] ;;
         Ok (mkColumn expr' (table c1) (type c1)))
      "Can't operate" = Ok c ->
    table c = table c1 /\ type c = type c1 /\ exists body, colexpr c = "(" +:+ body +:+ ")").
  { destruct (repr_call (type c1) c2) as [r|e]; [|discriminate].
    cbn [bind]. destruct (pytype_eqb (type c1) Str && strcheck_of m).
    - intros [= <-]; cbn [table type colexpr]; (split; [reflexivity | split; [reflexivity | apply parenthesised]]).
    - rewrite fmt_template. intros [= <-]; cbn [table type colexpr]; (split; [reflexivity | split; [reflexivity | apply parenthesised]]). }
  destruct c2 as [c2|l]; [|exact V].
  destruct (pytype_eqb (type c1) (type c2) && table_eq h (table c1) (table c2)); [|exact V].
  rewrite fmt_template. intros [= <-]; cbn [table type colexpr]; (split; [reflexivity | split; [reflexivity | apply parenthesised]]).
Qed.

Lemma operate_reflected_Ok l c2 m c :
  operate_reflected l c2 (template m) (strcheck_of m) = Ok c ->
  table c = table c2 /\ type c = type c2 /\ exists body, colexpr c = "(" +:+ body +:+ ")".
Proof.
  unfold operate_reflected.
  destruct (repr_call (type c2) (OLit l)) as [r|e]; [|discriminate].
  cbn [bind]. destruct (pytype_eqb (type c2) Str && strcheck_of m); [discriminate|].
  rewrite fmt_template. intros [= <-]; cbn [table type colexpr]; (split; [reflexivity | split; [reflexivity | apply parenthesised]]).
Qed.

(** ** Properties of the operator methods *)

(** The column that an operator method returns belongs to the view of
    [self] and has the type of [self], whatever the other operand is: a view
    accepts it exactly when it accepts [self].  For the reflected methods
    this holds with a plain value as the other operand. *)
Theorem operators_keep_table_and_type (h : heap) (m : method) (self : Column) (x : operand) (c : Column) :
  call h m self x = Ok c ->
  reflected m = false \/ (exists l, x = OLit l) ->
  table c = table self /\ type c = type self /\
  forall v, table_eq h (table c) v = table_eq h (table self) v.
Proof.
  intros H Hx. unfold call in H.
  assert (K : table c = table self /\ type c = type self).
  { destruct (reflected m).
    - destruct Hx as [Hx|(l & ->)]; [discriminate|].
      apply operate_reflected_Ok in H. tauto.
    - apply operate_column_Ok in H. tauto. }
  destruct K as (K1 & K2). repeat split; try assumption. intros v. rewrite K1. reflexivity.
Qed.

(** [R.a > 1]. *)
Lemma operators_keep_table_and_type_witness :
  table a_gt_1 = table R_a /\ type a_gt_1 = type R_a /\
  forall v, table_eq two_tables (table a_gt_1) v = table_eq two_tables (table R_a) v.
Proof.
  exact (operators_keep_table_and_type two_tables OpGt R_a (OLit (int_literal 1 "1.0")) a_gt_1
           eq_refl (or_introl eq_refl)).
Defined.

(** The fragment of every column that an operator method returns is in
    parentheses, so it can be an operand of a further operator. *)
Theorem operators_parenthesise (h : heap) (m : method) (self : Column) (x : operand) (c : Column) :
  call h m self x = Ok c -> exists body, colexpr c = "(" +:+ body +:+ ")".
Proof.
  unfold call. destruct (reflected m).
  - destruct x as [c2|l]; intros H.
    + apply operate_column_Ok in H. tauto.
    + apply operate_reflected_Ok in H. tauto.
  - intros H. apply operate_column_Ok in H. tauto.
Qed.

(** [R.b + "x"], the fragment [(b || 'x')]. *)
Lemma operators_parenthesise_witness :
  exists body, colexpr (mkColumn "(b || 'x')" 0 Str) = "(" +:+ body +:+ ")".
Proof.
  exact (operators_parenthesise two_tables OpAdd R_b (OLit (str_literal "x"))
           (mkColumn "(b || 'x')" 0 Str) eq_refl).
Defined.

(** Two columns of different types, of one table or of two: a [str] column
    on the left takes the fragment of the other column as a text, between
    quotes; an [int] or [float] column on the left raises. *)
Theorem columns_of_two_types_depend_on_the_left (h : heap) (m : method) (c1 c2 : Column) :
  type c1 <> type c2 -> reflected m = false ->
  call h m c1 (OCol c2)
  = match type c1 with
    | Str =>
        Ok (mkColumn
              ("(" +:+ colexpr c1 +:+ (if strcheck_of m then " || " else infix_of m)
                   +:+ repr_str (colexpr c2) +:+ ")")
              (table c1) Str)
    | _ => Raise (ValueError "Can't operate")
    end.
Proof.
  intros Ht Hm. unfold call. rewrite Hm. unfold operate_column.
  assert (E : pytype_eqb (type c1) (type c2) = false).
  { destruct (type c1), (type c2); try reflexivity; congruence. }
  rewrite E. cbn [andb].
  destruct (type c1); cbn; try reflexivity.
  destruct (strcheck_of m); cbn; [reflexivity|]. rewrite fmt_template. reflexivity.
Qed.

(** [R.b == R.a] and [R.a == R.b]. *)
Lemma columns_of_two_types_witness :
  call two_tables OpEq R_b (OCol R_a) = Ok (mkColumn "(b = 'a')" 0 Str) /\
  call two_tables OpEq R_a (OCol R_b) = Raise (ValueError "Can't operate").
Proof.
  split.
  - apply (columns_of_two_types_depend_on_the_left two_tables OpEq R_b R_a);
      [discriminate | reflexivity].
  - apply (columns_of_two_types_depend_on_the_left two_tables OpEq R_a R_b);
      [discriminate | reflexivity].
Defined.

(** [x - c] and [x / c] for a plain value [x]: the value is converted to
    the type of the column and printed on the left; on a [str] column both
    raise, whatever [x] is. *)
Theorem reflected_operators_with_a_literal (h : heap) (m : method) (self : Column) (l : literal) :
  reflected m = true ->
  call h m self (OLit l)
  = match type self with
    | Str => Raise (ValueError "Can't operate")
    | t =>
        match repr_call t (OLit l) with
        | Ok r => Ok (mkColumn ("(" +:+ r +:+ infix_of m +:+ colexpr self +:+ ")") (table self) t)
        | Raise _ => Raise (ValueError "Can't operate")
        end
    end.
Proof.
  intros Hm. unfold call. rewrite Hm. unfold operate_reflected.
  assert (S : strcheck_of m = true) by (destruct m; try discriminate Hm; reflexivity).
  rewrite S.
  destruct (type self) eqn:T; cbn [pytype_eqb andb].
  - destruct (repr_call Int (OLit l)) as [r|e]; cbn; [|reflexivity].
    rewrite fmt_template. reflexivity.
  - destruct (repr_call Float (OLit l)) as [r|e]; cbn; [|reflexivity].
    rewrite fmt_template. reflexivity.
  - reflexivity.
Qed.

(** [5 - R.a] and ["x" - R.b]. *)
Lemma reflected_operators_witness :
  call two_tables OpRSub R_a (OLit (int_literal 5 "5.0")) = Ok (mkColumn "(5 - a)" 0 Int) /\
  call two_tables OpRSub R_b (OLit (str_literal "x")) = Raise (ValueError "Can't operate").
Proof.
  split.
  - exact (reflected_operators_with_a_literal two_tables OpRSub R_a (int_literal 5 "5.0")
             eq_refl).
  - exact (reflected_operators_with_a_literal two_tables OpRSub R_b (str_literal "x") eq_refl).
Defined.

(** Arithmetic on a [str] column: with a plain value every arithmetic
    method is the concatenation [||] with the text of the value; with a
    [str] column of the same table it is the operator of the method. *)
Theorem arithmetic_on_a_text_column (h : heap) (m : method) (c1 : Column) :
  type c1 = Str -> strcheck_of m = true -> reflected m = false ->
  (forall x : literal,
      call h m c1 (OLit x)
      = Ok (mkColumn ("(" +:+ colexpr c1 +:+ " || " +:+ repr_str (as_str x) +:+ ")")
              (table c1) Str)) /\
  (forall c2 : Column,
      type c2 = Str -> table_eq h (table c1) (table c2) = true ->
      call h m c1 (OCol c2)
      = Ok (mkColumn ("(" +:+ colexpr c1 +:+ infix_of m +:+ colexpr c2 +:+ ")")
              (table c1) Str)).
Proof.
  intros Ht Hs Hm. split.
  - intros x. rewrite (text_operand_embeds_repr h m c1 x Ht Hm), Hs. reflexivity.
  - intros c2 Ht2 He. unfold call. rewrite Hm.
    rewrite (operate_column_same h c1 c2 m); [rewrite Ht; reflexivity | congruence | exact He].
Qed.

(** [R.b * 2] and [R.b * R.b]. *)
Lemma arithmetic_on_a_text_column_witness :
  call two_tables OpMul R_b (OLit (int_literal 2 "2.0")) = Ok (mkColumn "(b || '2')" 0 Str) /\
  call two_tables OpMul R_b (OCol R_b) = Ok (mkColumn "(b*b)" 0 Str).
Proof.
  split.
  - exact (proj1 (arithmetic_on_a_text_column two_tables OpMul R_b eq_refl eq_refl eq_refl)
             (int_literal 2 "2.0")).
  - exact (proj2 (arithmetic_on_a_text_column two_tables OpMul R_b eq_refl eq_refl eq_refl)
             R_b eq_refl eq_refl).
Defined.

Lemma statement_of_view v h t o d :
  tables h !! v = Some t -> optdicts h !! options t = Some o ->
  coldicts h !! columns t = Some d ->
  statement (Ok (v, h)) = Ok (statement_of (name t) d o).
Proof.
  intros Ht Ho Hd. rewrite (statement_Ok v h t o d Ht Ho Hd).
  unfold formulate_where, statement_of, where_segment. cbn [opt_where empty_options].
  destruct (opt_where o); reflexivity.
Qed.

Lemma not_truthy_empty o : optdict_truthy o = false -> o = empty_options.
Proof.
  destruct o as [[] [] [] [] [] []]; simpl; intros H; first [reflexivity | discriminate H].
Qed.

(** ** Properties of the views *)

(** The statement of [v.select(names)]: the select list is the fragments of
    the named columns in the order of their first occurrence, and the other
    segments are those of [v]. *)
Theorem select_statement (h : heap) (v : loc) (t : dbTable) (o : optdict) (d : coldict)
    (names : list string) :
  tables h !! v = Some t -> optdicts h !! options t = Some o ->
  coldicts h !! columns t = Some d ->
  (forall n, In n names -> dict_mem n d = true) ->
  statement (select h v names)
  = Ok ("SELECT "
          +:+ join "," (map (fun n => colexpr (value_in d n)) (first_occurrences names))
          +:+ " FROM " +:+ name t
          +:+ " " +:+ where_segment o +:+ " " +:+ formulate_group o empty_options
          +:+ " " +:+ formulate_sort o empty_options +:+ " " +:+ formulate_limit o empty_options).
Proof.
  intros Ht Ho Hd Hn. rewrite (select_spec h v t o d names Ht Ho Hd Hn).
  assert (E : map colexpr (dict_values (map (entry (value_in d)) (first_occurrences names)))
              = map (fun n => colexpr (value_in d n)) (first_occurrences names)).
  { unfold dict_values. rewrite !map_map. reflexivity. }
  destruct (optdict_truthy o) eqn:Tr.
  - erewrite statement_of_view; [ | apply lookup_snoc | apply lookup_snoc | apply lookup_snoc ].
    unfold statement_of. rewrite E. reflexivity.
  - erewrite statement_of_view; [ | apply lookup_snoc | apply lookup_snoc2 | apply lookup_snoc ].
    unfold statement_of. rewrite E. rewrite (not_truthy_empty o Tr). reflexivity.
Qed.

(** [R.where(R.a > 0).select(["b", "a", "b"])]. *)
Lemma select_statement_witness :
  statement (select (snd filtered_R) (fst filtered_R) ["b"; "a"; "b"])
  = Ok "SELECT b,a FROM R WHERE (a > 0)   ".
Proof.
  apply (select_statement (snd filtered_R) (fst filtered_R) (mkTable 0 "R" 2 2 None)
           (with_where (with_columns empty_options (ColsNames 0)) a_gt_0)
           [("a", R_a); ("b", R_b)] ["b"; "a"; "b"] eq_refl eq_refl eq_refl).
  intros n [<-|[<-|[<-|[]]]]; reflexivity.
Defined.

(** [select] raises [KeyError] for the first name that is not a column of
    the view, and looks no further. *)
Theorem select_names_the_first_missing_column (h : heap) (v : loc) (t : dbTable) (d : coldict)
    (found : list string) (missing : string) (rest : list string) :
  tables h !! v = Some t -> coldicts h !! columns t = Some d ->
  (forall n, In n found -> dict_mem n d = true) -> dict_mem missing d = false ->
  select h v (found ++ missing :: rest) = Raise (KeyError (missing +:+ " not in table")).
Proof.
  intros Ht Hd Hf Hm. unfold select, get_table, get_columns.
  rewrite Ht. cbn [bind]. rewrite Hd. cbn [bind].
  assert (C : check_names d (found ++ missing :: rest)
              = Raise (KeyError (missing +:+ " not in table"))).
  { induction found as [|n found IH]; simpl.
    - rewrite Hm. reflexivity.
    - rewrite (Hf n (or_introl eq_refl)). apply IH. intros; apply Hf; right; assumption. }
  rewrite C. reflexivity.
Qed.

(** [R.select(["a", "c", "d"])]. *)
Lemma select_missing_column_witness :
  select two_tables 0 (["a"] ++ "c" :: ["d"]) = Raise (KeyError "c not in table").
Proof.
  apply (select_names_the_first_missing_column two_tables 0 base_R [("a", R_a); ("b", R_b)]
           ["a"] "c" ["d"] eq_refl eq_refl); [|reflexivity].
  intros n [<-|[]]; reflexivity.
Defined.

(** [sort] and [group] with a name that is not a column of the view raise
    [ValueError("Incorrect Column")], not [KeyError]. *)
Theorem unknown_key_is_an_incorrect_column (h : heap) (v : loc) (t : dbTable) (o : optdict)
    (d : coldict) (s : string) :
  tables h !! v = Some t -> optdicts h !! options t = Some o ->
  coldicts h !! columns t = Some d -> dict_mem s d = false ->
  (forall descending, sort h v (KName s) descending = Raise (ValueError "Incorrect Column")) /\
  (forall having collect,
      group h v (KName s) having collect = Raise (ValueError "Incorrect Column")).
Proof.
  intros Ht Ho Hd Hs.
  assert (R : resolve d (KName s) = KName s).
  { unfold resolve. unfold dict_mem in Hs. destruct (dict_get s d); [discriminate|reflexivity]. }
  split.
  - intros b. rewrite (sort_spec h v t o d _ b Ht Ho Hd), R. reflexivity.
  - intros hv f. rewrite (group_spec h v t o d _ hv f Ht Ho Hd), R. reflexivity.
Qed.

(** [R.sort("c")] and [R.group("c")]. *)
Lemma unknown_key_witness :
  sort two_tables 0 (KName "c") false = Raise (ValueError "Incorrect Column") /\
  group two_tables 0 (KName "c") None None = Raise (ValueError "Incorrect Column").
Proof.
  split.
  - exact (proj1 (unknown_key_is_an_incorrect_column two_tables 0 base_R
                    (with_columns empty_options (ColsNames 0)) [("a", R_a); ("b", R_b)] "c"
                    eq_refl eq_refl eq_refl eq_refl) false).
  - exact (proj2 (unknown_key_is_an_incorrect_column two_tables 0 base_R
                    (with_columns empty_options (ColsNames 0)) [("a", R_a); ("b", R_b)] "c"
                    eq_refl eq_refl eq_refl eq_refl) None None).
Defined.

(** A second [sort] replaces the first: [v.sort(k1).sort(k2)] has the
    statement of [v.sort(k2)]. *)
Theorem sort_replaces_sort (h : heap) (v : loc) (t : dbTable) (o : optdict) (d : coldict)
    (k1 k2 : keyarg) (d1 d2 : bool) (v1 v2 : loc) (h1 h2 : heap) :
  tables h !! v = Some t -> optdicts h !! options t = Some o ->
  coldicts h !! columns t = Some d ->
  sort h v k1 d1 = Ok (v1, h1) -> sort h v k2 d2 = Ok (v2, h2) ->
  exists s, statement (sort h1 v1 k2 d2) = Ok s /\ statement (Ok (v2, h2)) = Ok s.
Proof.
  intros Ht Ho Hd H1 H2.
  rewrite (sort_spec h v t o d k1 d1 Ht Ho Hd) in H1.
  rewrite (sort_spec h v t o d k2 d2 Ht Ho Hd) in H2.
  destruct (resolve d k1) as [s1|c1]; [discriminate H1|].
  destruct (table_eq h (table c1) v) eqn:E1; [|discriminate H1].
  destruct (resolve d k2) as [s2|c2] eqn:R2; [discriminate H2|].
  destruct (table_eq h (table c2) v) eqn:E2; [|discriminate H2].
  injection H1 as <- <-. injection H2 as <- <-.
  eexists. split.
  - erewrite sort_spec; [ | apply lookup_snoc | apply lookup_snoc | apply lookup_snoc ].
    rewrite R2.
    erewrite table_eq_derived; [ | exact Ht | reflexivity | exact E2 ].
    erewrite statement_of_view; [ | apply lookup_snoc | apply lookup_snoc | apply lookup_snoc ].
    reflexivity.
  - erewrite statement_of_view; [ | apply lookup_snoc | apply lookup_snoc | apply lookup_snoc ].
    reflexivity.
Qed.

(** [R.sort("a", descending=True).sort("b")] and [R.sort("b")]. *)
Lemma sort_replaces_sort_witness :
  exists s,
    statement (sort (snd sorted_by_a) (fst sorted_by_a) (KName "b") false) = Ok s /\
    statement (Ok (fst sorted_by_b, snd sorted_by_b)) = Ok s.
Proof.
  exact (sort_replaces_sort two_tables 0 base_R (with_columns empty_options (ColsNames 0))
           [("a", R_a); ("b", R_b)] (KName "a") (KName "b") true false
           (fst sorted_by_a) (fst sorted_by_b) (snd sorted_by_a) (snd sorted_by_b)
           eq_refl eq_refl eq_refl eq_refl eq_refl).
Defined.

Lemma dict_get_app_absent k (p s : coldict) :
  ~ In k (dict_keys p) -> dict_get k (p ++ s) = dict_get k s.
Proof.
  induction p as [|[k' c'] p IH]; simpl; intros H; [reflexivity|].
  destruct (String.eqb k k') eqn:E.
  - apply String.eqb_eq in E. subst k'. tauto.
  - apply IH. tauto.
Qed.

Lemma dict_set_app_absent k c (p s : coldict) :
  ~ In k (dict_keys p) -> dict_set k c (p ++ s) = p ++ dict_set k c s.
Proof.
  induction p as [|[k' c'] p IH]; simpl; intros H; [reflexivity|].
  destruct (String.eqb k k') eqn:E.
  - apply String.eqb_eq in E. subst k'. tauto.
  - rewrite IH; [reflexivity | tauto].
Qed.

Lemma apply_loop f (p s : coldict) :
  List.NoDup (dict_keys (p ++ s)) ->
  foldl (fun acc i =>
           match dict_get i acc with
           | Some c => dict_set i (apply c f) acc
           | None => acc
           end) (map (wrapped f) p ++ s) (dict_keys s)
  = map (wrapped f) (p ++ s).
Proof.
  revert p. induction s as [|[k c] s IH]; intros p N; simpl.
  - rewrite !app_nil_r. reflexivity.
  - assert (A : ~ In k (dict_keys (map (wrapped f) p))).
    { unfold dict_keys in *. rewrite map_map. simpl.
      rewrite map_app in N. simpl in N. apply NoDup_remove_2 in N.
      intros Hin. apply N. apply in_or_app. left. exact Hin. }
    rewrite (dict_get_app_absent k _ _ A). simpl. rewrite String.eqb_refl.
    rewrite (dict_set_app_absent k _ _ _ A). simpl. rewrite String.eqb_refl.
    specialize (IH (p ++ [(k, c)])).
    rewrite map_app in IH. simpl in IH. rewrite <- !app_assoc in IH. simpl in IH.
    apply IH. exact N.
Qed.

Lemma apply_all_wraps f (d : coldict) :
  List.NoDup (dict_keys d) -> apply_all f d = map (wrapped f) d.
Proof. intros N. exact (apply_loop f [] d N). Qed.

(** The statement of [v.group(key, collect=f)]: every column of the select
    list is wrapped in [f], the grouping column included; [GROUP BY] names
    the grouping column and keeps the [HAVING] of [v]. *)
Theorem group_wraps_every_column (h : heap) (v : loc) (t : dbTable) (o : optdict)
    (d : coldict) (key : keyarg) (c : Column) (f : string) :
  tables h !! v = Some t -> optdicts h !! options t = Some o ->
  coldicts h !! columns t = Some d -> List.NoDup (dict_keys d) ->
  resolve d key = KCol c -> table_eq h (table c) v = true -> f <> "" ->
  statement (group h v key None (Some f))
  = Ok ("SELECT "
          +:+ join "," (map (fun e => f +:+ "(" +:+ colexpr e +:+ ")") (dict_values d))
          +:+ " FROM " +:+ name t +:+ " " +:+ where_segment o
          +:+ " " +:+ "GROUP BY " +:+ colexpr c
          +:+ match opt_having o with
              | Some hv => " HAVING " +:+ colexpr hv
              | None => ""
              end
          +:+ " " +:+ formulate_sort o empty_options +:+ " " +:+ formulate_limit o empty_options).
Proof.
  intros Ht Ho Hd N R E F.
  rewrite (group_spec h v t o d key None (Some f) Ht Ho Hd), R, E.
  assert (T : truthy_str (Some f) = Some f) by (destruct f; [congruence | reflexivity]).
  rewrite T, (apply_all_wraps f d N).
  erewrite statement_of_view; [ | apply lookup_snoc | apply lookup_snoc | apply lookup_snoc ].
  unfold statement_of, grouped, where_segment, formulate_group, formulate_sort, formulate_limit.
  cbn [opt_where opt_group opt_having opt_sort opt_limit with_group empty_options name].
  assert (M : map colexpr (dict_values (map (wrapped f) d))
              = map (fun e => f +:+ "(" +:+ colexpr e +:+ ")") (dict_values d)).
  { unfold dict_values. rewrite !map_map. reflexivity. }
  rewrite M. destruct (opt_having o); rewrite ?append_assoc; reflexivity.
Qed.

(** [R.group("b", collect="COUNT")]: the select list counts [b] too. *)
Lemma group_wraps_every_column_witness :
  statement (group two_tables 0 (KName "b") None (Some "COUNT"))
  = Ok "SELECT COUNT(a),COUNT(b) FROM R  GROUP BY b  ".
Proof.
  apply (group_wraps_every_column two_tables 0 base_R
           (with_columns empty_options (ColsNames 0)) [("a", R_a); ("b", R_b)]
           (KName "b") R_b "COUNT" eq_refl eq_refl eq_refl);
    [ | reflexivity | reflexivity | discriminate ].
  repeat constructor; simpl; intuition discriminate.
Defined.

(** A [having] column of another table is dropped without an error. *)
Theorem group_drops_a_foreign_having (h : heap) (v : loc) (key : keyarg) (hv : Column)
    (collect : option string) :
  table_eq h (table hv) v = false ->
  group h v key (Some hv) collect = group h v key None collect.
Proof.
  intros E. unfold group.
  destruct (get_table h v) as [t|e]; [|reflexivity]. cbn [bind].
  destruct (get_columns h (columns t)) as [d|e]; [|reflexivity]. cbn [bind].
  destruct (resolve d key) as [s|c]; [reflexivity|].
  destruct (table_eq h (table c) v); [|reflexivity].
  destruct (get_options h (options t)) as [o|e]; [|reflexivity]. cbn [bind alloc_options].
  match goal with
  | |- context [table_eq ?H (table hv) v] =>
      replace (table_eq H (table hv) v) with false by (symmetry; exact E)
  end.
  reflexivity.
Qed.

(** [R.group("b", having=S.x)] is [R.group("b")]. *)
Lemma group_drops_a_foreign_having_witness :
  group two_tables 0 (KName "b") (Some S_x) None = group two_tables 0 (KName "b") None None.
Proof.
  exact (group_drops_a_foreign_having two_tables 0 (KName "b") S_x None eq_refl).
Defined.

(** [group] without [having] replaces the grouping column and keeps the
    [having] of an earlier [group], together with the filter, the order and
    the limit. *)
Theorem group_keeps_an_earlier_having (h : heap) (v : loc) (t : dbTable) (o : optdict)
    (d : coldict) (key : keyarg) (collect : option string) (v' : loc) (h' : heap) :
  tables h !! v = Some t -> optdicts h !! options t = Some o ->
  coldicts h !! columns t = Some d ->
  group h v key None collect = Ok (v', h') ->
  exists t' o' c,
    tables h' !! v' = Some t' /\ optdicts h' !! options t' = Some o' /\
    resolve d key = KCol c /\
    opt_group o' = Some c /\ opt_having o' = opt_having o /\
    opt_where o' = opt_where o /\ opt_sort o' = opt_sort o /\ opt_limit o' = opt_limit o.
Proof.
  intros Ht Ho Hd H. rewrite (group_spec h v t o d key None collect Ht Ho Hd) in H.
  destruct (resolve d key) as [s|c]; [discriminate H|].
  destruct (table_eq h (table c) v); [|discriminate H].
  injection H as <- <-. eexists _, _, c. cbn [tables optdicts].
  split; [apply lookup_snoc|]. split; [apply lookup_snoc|].
  repeat split; reflexivity.
Qed.

(** [R.group("b", having=R.a > 0).group("a")] keeps [HAVING (a > 0)]. *)
Lemma group_keeps_an_earlier_having_witness :
  exists t' o' c,
    tables (snd regrouped_R) !! fst regrouped_R = Some t' /\
    optdicts (snd regrouped_R) !! options t' = Some o' /\
    resolve [("a", R_a); ("b", R_b)] (KName "a") = KCol c /\
    opt_group o' = Some c /\
    opt_having o' = Some a_gt_0 /\
    opt_where o' = None /\ opt_sort o' = None /\ opt_limit o' = None.
Proof.
  exact (group_keeps_an_earlier_having (snd grouped_having_R) (fst grouped_having_R)
           (mkTable 0 "R" 2 2 None)
           (with_having (with_group (with_columns empty_options (ColsNames 0)) R_b) a_gt_0)
           [("a", R_a); ("b", R_b)] (KName "a") None (fst regrouped_R) (snd regrouped_R)
           eq_refl eq_refl eq_refl eq_refl).
Defined.

Lemma call_grow h T' O C N m a b :
  table_eq h (table a) (table b) = true -> reflected m = false ->
  call (mkHeap (tables h ++ T') O C N) m a (OCol b) = call h m a (OCol b).
Proof.
  intros E Hm. unfold call. rewrite Hm. unfold operate_column.
  rewrite (table_eq_grow h T' O C N _ _ E), E. reflexivity.
Qed.

(** [select] and [where] commute: [v.select(names).where(p)] and
    [v.where(p).select(names)] have the same statement, or fail alike. *)
Theorem select_and_where_commute (h : heap) (v : loc) (t : dbTable) (o : optdict)
    (d : coldict) (names : list string) (p : Column) :
  tables h !! v = Some t -> optdicts h !! options t = Some o ->
  coldicts h !! columns t = Some d ->
  (forall n, In n names -> dict_mem n d = true) ->
  table_eq h (table p) v = true ->
  (forall w, opt_where o = Some w -> table_eq h (table w) v = true) ->
  statement (r <- select h v names ;; where_ (snd r) (fst r) p)
  = statement (r <- where_ h v p ;; select (snd r) (fst r) names).
Proof.
  intros Ht Ho Hd Hn Hp Hw.
  set (d1 := map (entry (value_in d)) (first_occurrences names)).
  assert (G : forall c : Column,
    statement (select
      (mkHeap (tables h ++ [mkTable (db t) (name t) (List.length (coldicts h))
                               (List.length (optdicts h)) None])
              (optdicts h ++ [with_where o c]) (coldicts h ++ [d]) (namecells h))
      (List.length (tables h)) names)
    = Ok (statement_of (name t) d1 (with_where o c))).
  { intros c. erewrite select_spec;
      [ | apply lookup_snoc | apply lookup_snoc | apply lookup_snoc | exact Hn ].
    rewrite with_where_truthy.
    erewrite statement_of_view; [ | apply lookup_snoc | apply lookup_snoc | apply lookup_snoc ].
    reflexivity. }
  rewrite (select_spec h v t o d names Ht Ho Hd Hn).
  rewrite (where_spec h v t o d p Ht Ho Hd Hp).
  fold d1. cbn [bind snd fst].
  destruct (optdict_truthy o) eqn:Tr.
  - erewrite where_spec;
      [ | apply lookup_snoc | apply lookup_snoc | apply lookup_snoc
        | eapply table_eq_derived; [exact Ht | reflexivity | exact Hp] ].
    destruct (opt_where o) as [w|] eqn:W.
    + rewrite call_grow;
        [ | apply (table_eq_same_view h _ _ v); [apply Hw; reflexivity | exact Hp]
          | reflexivity ].
      destruct (call h OpAnd w (OCol p)) as [c|e]; [|reflexivity].
      cbn [bind snd fst]. rewrite (G c).
      erewrite statement_of_view; [ | apply lookup_snoc | apply lookup_snoc | apply lookup_snoc ].
      reflexivity.
    + cbn [bind snd fst]. rewrite (G p).
      erewrite statement_of_view; [ | apply lookup_snoc | apply lookup_snoc | apply lookup_snoc ].
      reflexivity.
  - pose proof (not_truthy_empty o Tr) as ->.
    erewrite where_spec;
      [ | apply lookup_snoc | apply lookup_snoc2 | apply lookup_snoc
        | eapply table_eq_derived; [exact Ht | reflexivity | exact Hp] ].
    cbn [opt_where empty_options bind snd fst]. rewrite (G p).
    erewrite statement_of_view; [ | apply lookup_snoc | apply lookup_snoc | apply lookup_snoc ].
    reflexivity.
Qed.

(** On [V = R.where(R.a > 0)]: [V.select(["b"]).where(R.a > 1)] and
    [V.where(R.a > 1).select(["b"])]. *)
Lemma select_and_where_commute_witness :
  statement (r <- select (snd filtered_R) (fst filtered_R) ["b"] ;;
             where_ (snd r) (fst r) a_gt_1)
  = statement (r <- where_ (snd filtered_R) (fst filtered_R) a_gt_1 ;;
               select (snd r) (fst r) ["b"]).
Proof.
  apply (select_and_where_commute (snd filtered_R) (fst filtered_R) (mkTable 0 "R" 2 2 None)
           (with_where (with_columns empty_options (ColsNames 0)) a_gt_0)
           [("a", R_a); ("b", R_b)] ["b"] a_gt_1 eq_refl eq_refl eq_refl).
  - intros n [<-|[]]; reflexivity.
  - reflexivity.
  - intros w [= <-]; reflexivity.
Defined.

Lemma count_statement_with_length h v t n :
  tables h !! v = Some t ->
  count_statement (set_table h v (mkTable (db t) (name t) (columns t) (options t) (Some n))) v
  = count_statement h v.
Proof.
  intros Ht. pose proof (lookup_lt_Some _ _ _ Ht) as Hlt.
  unfold count_statement, formulate, get_table, get_options, get_columns, set_table.
  cbn [tables optdicts coldicts].
  rewrite list_lookup_insert_eq by exact Hlt. rewrite Ht. reflexivity.
Qed.

(** ** Properties of the count *)

(** [__len__] keeps the count it has executed, and a later [len] of the
    same view returns it without a statement, unless the count was 0: the
    test [not self.length] takes 0 for no count, and the view counts again
    each time. *)
Theorem len_counts_once_unless_zero (execute : string -> result Z) (h : heap) (v : loc)
    (t : dbTable) (n : Z) (h1 : heap) :
  tables h !! v = Some t -> length t = None ->
  len execute h v = Ok (n, h1) ->
  h1 = set_table h v (with_length t n) /\
  forall execute' : string -> result Z,
    len execute' h1 v
    = if Z.eqb n 0
      then expr <- count_statement h v ;;
           n' <- execute' expr ;;
           Ok (n', set_table h v (with_length t n'))
      else Ok (n, h1).
Proof.
  intros Ht Hl H. pose proof (lookup_lt_Some _ _ _ Ht) as Hlt.
  unfold len, get_table in H. rewrite Ht in H. cbn [bind] in H. rewrite Hl in H.
  apply bind_Ok in H as (expr & Hc & H). apply bind_Ok in H as (n0 & He & H).
  injection H as <- <-.
  split; [reflexivity|]. intros execute'.
  unfold len. rewrite (count_statement_with_length h v t n0 Ht).
  unfold get_table. unfold set_table at 1. cbn [tables].
  rewrite list_lookup_insert_eq by exact Hlt. cbn [bind with_length length falsy].
  destruct (Z.eqb n0 0); [|reflexivity].
  destruct (count_statement h v) as [e'|]; [|reflexivity]. cbn [bind].
  destruct (execute' e') as [n'|]; [|reflexivity]. cbn [bind].
  unfold set_table. cbn [tables optdicts coldicts namecells db name columns options].
  rewrite list_insert_insert_eq. reflexivity.
Qed.

(** [len(R)] after a count of 3, and after a count of 0. *)
Lemma len_counts_once_witness :
  (forall execute' : string -> result Z,
     len execute' (set_table two_tables 0 (with_length base_R 3)) 0
     = Ok (3%Z, set_table two_tables 0 (with_length base_R 3))) /\
  (forall execute' : string -> result Z,
     len execute' (set_table two_tables 0 (with_length base_R 0)) 0
     = (expr <- count_statement two_tables 0 ;;
        n' <- execute' expr ;;
        Ok (n', set_table two_tables 0 (with_length base_R n')))).
Proof.
  split.
  - exact (proj2 (len_counts_once_unless_zero (counted 3) two_tables 0 base_R 3
                    (set_table two_tables 0 (with_length base_R 3))
                    eq_refl eq_refl eq_refl)).
  - exact (proj2 (len_counts_once_unless_zero (counted 0) two_tables 0 base_R 0
                    (set_table two_tables 0 (with_length base_R 0))
                    eq_refl eq_refl eq_refl)).
Defined.

Lemma dict_get_del_same k d : List.NoDup (dict_keys d) -> dict_get k (dict_del k d) = None.
Proof.
  induction d as [|[k' c] d IH]; simpl; intros N; [reflexivity|].
  inversion N as [|? ? Hn N']; subst.
  destruct (String.eqb k k') eqn:E.
  - apply String.eqb_eq in E. subst k'.
    clear IH N N'. induction d as [|[k2 c2] d IH]; simpl; [reflexivity|].
    destruct (String.eqb k k2) eqn:E2.
    + apply String.eqb_eq in E2. subst k2. simpl in Hn. tauto.
    + apply IH. simpl in Hn. tauto.
  - simpl. rewrite E. apply IH, N'.
Qed.

Lemma dict_get_del_other k k' d : k' <> k -> dict_get k' (dict_del k d) = dict_get k' d.
Proof.
  intros Hne. induction d as [|[k2 c] d IH]; simpl; [reflexivity|].
  destruct (String.eqb k k2) eqn:E.
  - apply String.eqb_eq in E. subst k2.
    destruct (String.eqb k' k) eqn:E'; [|reflexivity].
    apply String.eqb_eq in E'. congruence.
  - simpl. rewrite IH. reflexivity.
Qed.

Lemma dict_keys_del k d :
  List.NoDup (dict_keys d) ->
  dict_keys (dict_del k d) = List.filter (fun x => negb (String.eqb k x)) (dict_keys d).
Proof.
  induction d as [|[k' c] d IH]; simpl; intros N; [reflexivity|].
  inversion N as [|? ? Hn N']; subst.
  destruct (String.eqb k k') eqn:E; simpl.
  - apply String.eqb_eq in E. subst k'.
    symmetry. clear IH N N'. induction d as [|[k2 c2] d IH]; simpl; [reflexivity|].
    destruct (String.eqb k k2) eqn:E2; simpl.
    + apply String.eqb_eq in E2. subst k2. simpl in Hn. tauto.
    + f_equal. apply IH. simpl in Hn. tauto.
  - f_equal. apply IH, N'.
Qed.

(** ** Properties of item access *)

(** [del v[k]] succeeds exactly on a key of the view; afterwards [v[k]]
    raises [KeyError], every other item is as before, and the keys are the
    former keys without [k], in their order. *)
Theorem delitem_removes_one_column (h : heap) (v : loc) (t : dbTable) (d : coldict)
    (k : string) (h' : heap) :
  tables h !! v = Some t -> coldicts h !! columns t = Some d ->
  List.NoDup (dict_keys d) ->
  delitem h v k = Ok h' ->
  dict_mem k d = true /\
  getitem h' v k = Raise (KeyError k) /\
  (forall k', k' <> k -> getitem h' v k' = getitem h v k') /\
  exists d', coldicts h' !! columns t = Some d' /\
             dict_keys d' = List.filter (fun x => negb (String.eqb k x)) (dict_keys d).
Proof.
  intros Ht Hd N H. pose proof (lookup_lt_Some _ _ _ Hd) as Hlt.
  unfold delitem, get_table, get_columns in H. rewrite Ht in H. cbn [bind] in H.
  rewrite Hd in H. cbn [bind] in H.
  destruct (dict_mem k d) eqn:M; [|discriminate H]. injection H as <-.
  assert (L : coldicts (set_columns h (columns t) (dict_del k d)) !! columns t
              = Some (dict_del k d)).
  { unfold set_columns. cbn [coldicts]. apply list_lookup_insert_eq, Hlt. }
  assert (G : forall k', getitem (set_columns h (columns t) (dict_del k d)) v k'
                         = dict_item k' (dict_del k d)).
  { intros k'. unfold getitem, get_table, get_columns.
    change (tables (set_columns h (columns t) (dict_del k d))) with (tables h).
    rewrite Ht. cbn [bind]. rewrite L. reflexivity. }
  split; [reflexivity|]. split; [|split].
  - rewrite G. unfold dict_item. rewrite (dict_get_del_same k d N). reflexivity.
  - intros k' Hne. rewrite G. unfold getitem, get_table, get_columns, dict_item.
    rewrite Ht. cbn [bind]. rewrite Hd. cbn [bind].
    rewrite (dict_get_del_other k k' d Hne). reflexivity.
  - exists (dict_del k d). split; [exact L | apply dict_keys_del, N].
Qed.

(** [del R["a"]]. *)
Lemma delitem_removes_one_column_witness :
  dict_mem "a" [("a", R_a); ("b", R_b)] = true /\
  getitem (set_columns two_tables 0 [("b", R_b)]) 0 "a" = Raise (KeyError "a") /\
  (forall k', k' <> "a" ->
     getitem (set_columns two_tables 0 [("b", R_b)]) 0 k' = getitem two_tables 0 k') /\
  exists d', coldicts (set_columns two_tables 0 [("b", R_b)]) !! 0 = Some d' /\
             dict_keys d' = ["b"].
Proof.
  apply (delitem_removes_one_column two_tables 0 base_R [("a", R_a); ("b", R_b)] "a"
           (set_columns two_tables 0 [("b", R_b)]) eq_refl eq_refl); [|reflexivity].
  repeat constructor; simpl; intuition discriminate.
Defined.

(** A view that a combinator returns has a column dictionary of its own:
    deleting an item of the receiver changes neither the statement nor the
    items of the new view, and the other way round. *)
Theorem delitem_does_not_reach_other_views (h : heap) (v : loc) (c : combinator)
    (v' : loc) (h' : heap) (k : string) :
  run h v c = Ok (v', h') ->
  (forall h'', delitem h' v k = Ok h'' ->
     statement (Ok (v', h'')) = statement (Ok (v', h')) /\
     forall k', getitem h'' v' k' = getitem h' v' k') /\
  (forall h'', delitem h' v' k = Ok h'' ->
     statement (Ok (v, h'')) = statement (Ok (v, h')) /\
     forall k', getitem h'' v k' = getitem h' v k').
Proof.
  intros H.
  destruct (run_Ok_receiver h v c _ H) as (t & o & d & Ht & Ho & Hd).
  destruct (run_Ok_shape h v c v' h' t o d Ht Ho Hd H) as (lo & O' & d' & -> & -> & Hlo).
  pose proof (lookup_lt_Some _ _ _ Ht) as Lt. pose proof (lookup_lt_Some _ _ _ Hd) as Ld.
  assert (F : forall (h1 h2 : heap) (u : loc) (tu : dbTable),
             tables h2 = tables h1 -> optdicts h2 = optdicts h1 ->
             tables h1 !! u = Some tu ->
             coldicts h2 !! columns tu = coldicts h1 !! columns tu ->
             statement (Ok (u, h2)) = statement (Ok (u, h1)) /\
             forall k', getitem h2 u k' = getitem h1 u k').
  { intros h1 h2 u tu ET EO Hu EC. split.
    - unfold statement, formulate, get_table, get_options, get_columns. cbn [bind].
      rewrite ET, EO, Hu. cbn [bind]. rewrite EC. reflexivity.
    - intros k'. unfold getitem, get_table, get_columns. rewrite ET, Hu. cbn [bind].
      rewrite EC. reflexivity. }
  split; intros h'' D; unfold delitem, get_table, get_columns in D; cbn [tables coldicts] in D.
  - rewrite (lookup_app_l_Some _ _ _ _ Ht) in D. cbn [bind] in D.
    rewrite (lookup_app_l_Some _ _ _ _ Hd) in D. cbn [bind] in D.
    destruct (dict_mem k d); [|discriminate D]. injection D as <-.
    eapply F; [reflexivity | reflexivity | cbn [tables]; apply lookup_snoc | ].
    unfold set_columns. cbn [coldicts columns].
    apply list_lookup_insert_ne. lia.
  - rewrite lookup_snoc in D. cbn [bind columns] in D. rewrite lookup_snoc in D.
    cbn [bind] in D. destruct (dict_mem k d'); [|discriminate D]. injection D as <-.
    eapply F; [reflexivity | reflexivity | cbn [tables]; apply lookup_app_l_Some, Ht | ].
    unfold set_columns. cbn [coldicts columns].
    apply list_lookup_insert_ne. lia.
Qed.

(** [R] and [V = R.where(R.a > 0)], with [del R["a"]] and [del V["a"]]. *)
Lemma delitem_other_views_witness :
  (forall h'', delitem (snd filtered_R) 0 "a" = Ok h'' ->
     statement (Ok (fst filtered_R, h'')) = statement (Ok (fst filtered_R, snd filtered_R)) /\
     forall k', getitem h'' (fst filtered_R) k' = getitem (snd filtered_R) (fst filtered_R) k') /\
  (forall h'', delitem (snd filtered_R) (fst filtered_R) "a" = Ok h'' ->
     statement (Ok (0, h'')) = statement (Ok (0, snd filtered_R)) /\
     forall k', getitem h'' 0 k' = getitem (snd filtered_R) 0 k').
Proof.
  exact (delitem_does_not_reach_other_views two_tables 0 (Where a_gt_0)
           (fst filtered_R) (snd filtered_R) "a" eq_refl).
Defined.

Lemma formulate_grown h T O C v opts t o d :
  tables h !! v = Some t -> optdicts h !! options t = Some o ->
  coldicts h !! columns t = Some d -> opt_where opts = None ->
  formulate (mkHeap (tables h ++ T) (optdicts h ++ O) (coldicts h ++ C) (namecells h)) v opts
  = formulate h v opts.
Proof.
  intros Ht Ho Hd Hw. unfold formulate, get_table, get_options, get_columns.
  cbn [tables optdicts coldicts].
  rewrite (lookup_app_l_Some _ _ _ _ Ht), Ht. cbn [bind].
  rewrite (lookup_app_l_Some _ _ _ _ Ho), Ho. cbn [bind].
  rewrite (lookup_app_l_Some _ _ _ _ Hd), Hd. cbn [bind].
  unfold formulate_where. rewrite Hw. reflexivity.
Qed.

(** ** Properties of the exports *)

(** A filtered view hands out the column objects of its receiver:
    [v.where(p)[k]] is the column [v[k]], whose table is [v], so its
    [to_array()] executes the statement of [v], without the filter;
    [get_column(k)] of the filtered view executes the statement of the
    filtered view. *)
Theorem to_array_asks_the_view_of_the_column {row : Type}
    (fetch : string -> result (list row)) (h : heap) (v : loc) (t : dbTable) (o : optdict)
    (d : coldict) (p : Column) (v' : loc) (h' : heap) (k : string) (c : Column)
    (out : list string) :
  tables h !! v = Some t -> optdicts h !! options t = Some o ->
  coldicts h !! columns t = Some d ->
  where_ h v p = Ok (v', h') ->
  dict_get k d = Some c -> table c = v ->
  getitem h' v' k = Ok c /\
  to_array fetch h' c out = get_column fetch h v (KCol c) out /\
  get_column fetch h' v' (KName k) out
  = (expr <~ reading (fun _ => formulate h' v' (with_columns empty_options (ColsList [c]))) ;;
     _ <~ say expr ;;
     data <~ reading (fun _ => fetch expr) ;;
     ret (mkDataset AsArray [] data)) out.
Proof.
  intros Ht Ho Hd H Hk Hc.
  assert (Hp : table_eq h (table p) v = true).
  { destruct (table_eq h (table p) v) eqn:E; [reflexivity|].
    unfold where_ in H. rewrite E in H. discriminate H. }
  rewrite (where_spec h v t o d p Ht Ho Hd Hp) in H.
  apply bind_Ok in H as (w & _ & H). injection H as <- <-.
  assert (Ev : table_eq h v v = true).
  { apply table_eq_true. exists t, t. auto. }
  split; [|split].
  - unfold getitem, get_table, get_columns. cbn [tables coldicts].
    rewrite lookup_snoc. cbn [bind columns]. rewrite lookup_snoc. cbn [bind].
    unfold dict_item. rewrite Hk. reflexivity.
  - unfold to_array, get_column, then_ at 1 2 5 6, reading at 1 2 4 5, get_table, get_columns.
    rewrite Hc. cbn [tables coldicts].
    rewrite (lookup_app_l_Some _ _ _ _ Ht), Ht.
    rewrite (lookup_app_l_Some _ _ _ _ Hd), Hd. cbn [resolve].
    rewrite Hc. rewrite (table_eq_grow h _ _ _ _ v v Ev), Ev.
    rewrite (formulate_grown h _ _ _ v (with_columns empty_options (ColsList [c])) t o d
               Ht Ho Hd eq_refl). reflexivity.
  - unfold get_column, then_ at 1 2, reading at 1 2, get_table, get_columns.
    cbn [tables coldicts].
    rewrite lookup_snoc. cbn [columns]. rewrite lookup_snoc.
    unfold resolve. rewrite Hk. rewrite Hc.
    erewrite table_eq_derived; [ reflexivity | exact Ht | reflexivity | exact Ev ].
Qed.

(** [V = R.where(R.a > 0)]: [V["a"].to_array()] has no [WHERE],
    [V.get_column("a")] has one. *)
Lemma to_array_witness :
  getitem (snd filtered_R) (fst filtered_R) "a" = Ok R_a /\
  to_array (row := Z) rejecting (snd filtered_R) R_a []
  = (Failed (Exception (StoreError "SELECT a FROM R    ")), ["SELECT a FROM R    "]) /\
  get_column (row := Z) rejecting (snd filtered_R) (fst filtered_R) (KName "a") []
  = (Failed (Exception (StoreError "SELECT a FROM R WHERE (a > 0)   ")),
     ["SELECT a FROM R WHERE (a > 0)   "]).
Proof.
  exact (to_array_asks_the_view_of_the_column rejecting two_tables 0 base_R
           (with_columns empty_options (ColsNames 0)) [("a", R_a); ("b", R_b)] a_gt_0
           (fst filtered_R) (snd filtered_R) "a" R_a []
           eq_refl eq_refl eq_refl eq_refl eq_refl eq_refl).
Defined.

Lemma len_again (execute execute' : string -> result Z) h v t n h1 :
  tables h !! v = Some t -> len execute h v = Ok (n, h1) -> n <> 0%Z ->
  len execute' h1 v = Ok (n, h1).
Proof.
  intros Ht H Hn. pose proof (lookup_lt_Some _ _ _ Ht) as Hlt.
  assert (C : (expr <- count_statement h v ;; n0 <- execute expr ;;
               Ok (n0, set_table h v
                         (mkTable (db t) (name t) (columns t) (options t) (Some n0))))
              = Ok (n, h1) -> len execute' h1 v = Ok (n, h1)).
  { intros K. apply bind_Ok in K as (expr & _ & K). apply bind_Ok in K as (n0 & _ & K).
    injection K as <- <-. unfold len, get_table. unfold set_table at 1. cbn [tables].
    rewrite list_lookup_insert_eq by exact Hlt. cbn [bind length falsy].
    destruct (Z.eqb n0 0) eqn:E; [apply Z.eqb_eq in E; congruence | reflexivity]. }
  unfold len, get_table in H. rewrite Ht in H. cbn [bind] in H.
  destruct (length t) as [k|] eqn:L; [|exact (C H)].
  cbn [falsy] in H. destruct (Z.eqb k 0) eqn:E; [exact (C H)|].
  injection H as <- <-. unfold len, get_table. rewrite Ht. cbn [bind]. rewrite L.
  cbn [falsy]. rewrite E. reflexivity.
Qed.

Lemma builtin_len_returns count h v n h1 :
  len count h v = Ok (n, h1) -> (0 <= n <= maxsize)%Z ->
  builtin_len count v h = (Returned n, h1).
Proof.
  intros H [H0 H1]. unfold builtin_len. rewrite H.
  destruct (Z.ltb_spec n 0); [lia|]. destruct (Z.ltb_spec maxsize n); [lia|]. reflexivity.
Qed.

(** ** Properties of [sample] *)

Lemma to_table_spec {row : Type} (env : imports) (fetch : string -> result (list row))
    (h : heap) (v : loc) (t : dbTable) (d : coldict) (q : string) (all : list row) :
  tables h !! v = Some t -> coldicts h !! columns t = Some d ->
  formulate h v empty_options = Ok q -> fetch q = Ok all ->
  to_table env fetch v None h
  = (if has_Table env then Returned (mkDataset AsTable (dict_keys d) all)
     else Failed (NameError "Table"), h).
Proof.
  intros Ht Hd Hq Hf. unfold to_table, then_, reading, fetch_unless_given, column_names,
    get_table, get_columns, global_name.
  rewrite Hq. cbn [bind]. rewrite Hf, Ht. cbn [bind]. rewrite Hd. cbn [bind].
  destruct (has_Table env); reflexivity.
Qed.

Lemma to_df_spec {row : Type} (env : imports) (fetch : string -> result (list row))
    (h : heap) (v : loc) (t : dbTable) (d : coldict) (q : string) (all : list row) :
  tables h !! v = Some t -> coldicts h !! columns t = Some d ->
  formulate h v empty_options = Ok q -> fetch q = Ok all ->
  to_df env fetch v None h
  = (if has_pd env then Returned (mkDataset AsDataFrame (dict_keys d) all)
     else Failed (NameError "pd"), h).
Proof.
  intros Ht Hd Hq Hf. unfold to_df, then_, reading, fetch_unless_given, column_names,
    get_table, get_columns, global_name.
  rewrite Hq. cbn [bind]. rewrite Hf, Ht. cbn [bind]. rewrite Hd. cbn [bind].
  destruct (has_pd env); reflexivity.
Qed.



(** [sample(0)] of a view that has rows fails with [ZeroDivisionError],
    after the view has kept its count. *)
Theorem sample_of_no_rows_divides_by_zero {row : Type} (env : imports)
    (count : string -> result Z)
    (fetch : string -> result (list row)) (h : heap) (v : loc) (t : dbTable) (n : Z)
    (h1 : heap) (output : format) :
  tables h !! v = Some t ->
  len count h v = Ok (n, h1) -> (0 < n <= maxsize)%Z ->
  sample env count fetch v 0 output h = (Failed ZeroDivisionError, h1).
Proof.
  intros Ht H Hn. unfold sample, then_.
  rewrite (builtin_len_returns count h v n h1 H) by lia.
  destruct (Z.leb_spec n 0); [lia|].
  rewrite (builtin_len_returns count h1 v n h1) by
    (first [apply (len_again count count h v t n h1 Ht H); lia | lia]).
  reflexivity.
Qed.

(** [R.sample(0)] on three rows. *)
Lemma sample_of_no_rows_witness :
  sample all_imports (counted 3) only_R 0 0 AsArray two_tables
  = (Failed ZeroDivisionError, set_table two_tables 0 (with_length base_R 3)).
Proof.
  apply (sample_of_no_rows_divides_by_zero all_imports (counted 3) only_R two_tables 0 base_R 3
           (set_table two_tables 0 (with_length base_R 3)) AsArray eq_refl eq_refl).
  split; [reflexivity | vm_compute; discriminate].
Defined.

(** A view with more than [num_rows] rows, and an [output] that is neither
    [Table] nor [pd.DataFrame]: [sample] keeps the rows whose random number
    is a multiple of [len // num_rows], which is at least 1, and at most
    [num_rows] of them.  It compares [output] with [Table] and with
    [pd.DataFrame] first: without [datascience], and then without [pandas],
    it raises [NameError] and asks the database nothing; with both it
    returns what the database answers to that statement. *)
Theorem sample_of_a_large_view {row : Type} (env : imports) (count : string -> result Z)
    (fetch : string -> result (list row)) (h : heap) (v : loc) (t : dbTable) (n : Z)
    (h1 : heap) (num_rows : Z) (q : string) :
  tables h !! v = Some t ->
  len count h v = Ok (n, h1) -> (n <= maxsize)%Z -> (0 < num_rows < n)%Z ->
  formulate h1 v empty_options = Ok q ->
  (1 <= n / num_rows)%Z /\
  sample env count fetch v num_rows AsArray h
  = if has_Table env then
      if has_pd env then
        match fetch (sample_statement q (n / num_rows) num_rows) with
        | Ok data => (Returned (mkDataset AsArray [] data), h1)
        | Raise e => (Failed (Exception e), h1)
        end
      else (Failed (NameError "pd"), h1)
    else (Failed (NameError "Table"), h1).
Proof.
  intros Ht H Hn Hs Hq. split.
  - apply Z.div_le_lower_bound; lia.
  - unfold sample, then_.
    rewrite (builtin_len_returns count h v n h1 H) by lia.
    destruct (Z.leb_spec n num_rows); [lia|].
    rewrite (builtin_len_returns count h1 v n h1) by
      (first [apply (len_again count count h v t n h1 Ht H); lia | lia]).
    destruct (Z.eqb_spec num_rows 0); [lia|].
    unfold reading, global_name. rewrite Hq.
    destruct (has_Table env); [|reflexivity].
    destruct (has_pd env); [|reflexivity].
    cbn [ret].
    destruct (fetch (sample_statement q (n / num_rows) num_rows)); reflexivity.
Qed.

(** [R.sample(2)] on seven rows: with both packages, without [pandas] and
    without [datascience]. *)
Lemma sample_of_a_large_view_witness :
  ((1 <= 7 / 2)%Z /\
   sample (row := Z) all_imports (counted 7) rejecting 0 2 AsArray two_tables
   = (Failed (Exception (StoreError
        "WITH temp as (SELECT a,b FROM R    ) SELECT * from temp WHERE RANDOM() % 3 = 0 LIMIT 2")),
      set_table two_tables 0 (with_length base_R 7))) /\
  sample (row := Z) no_pandas (counted 7) rejecting 0 2 AsArray two_tables
  = (Failed (NameError "pd"), set_table two_tables 0 (with_length base_R 7)) /\
  sample (row := Z) no_datascience (counted 7) rejecting 0 2 AsArray two_tables
  = (Failed (NameError "Table"), set_table two_tables 0 (with_length base_R 7)).
Proof.
  split; [|split].
  - apply (sample_of_a_large_view all_imports (counted 7) rejecting two_tables 0 base_R 7
             (set_table two_tables 0 (with_length base_R 7)) 2 "SELECT a,b FROM R    "
             eq_refl eq_refl);
      [ vm_compute; discriminate | split; reflexivity | reflexivity ].
  - refine (proj2 (sample_of_a_large_view (row := Z) no_pandas (counted 7) rejecting two_tables
                     0 base_R 7 (set_table two_tables 0 (with_length base_R 7)) 2
                     "SELECT a,b FROM R    " eq_refl eq_refl _ _ eq_refl));
      [ vm_compute; discriminate | split; reflexivity ].
  - refine (proj2 (sample_of_a_large_view (row := Z) no_datascience (counted 7) rejecting
                     two_tables 0 base_R 7 (set_table two_tables 0 (with_length base_R 7)) 2
                     "SELECT a,b FROM R    " eq_refl eq_refl _ _ eq_refl));
      [ vm_compute; discriminate | split; reflexivity ].
Defined.

(** When the sampling statement selects no row, [sample] with [Table] or
    [pd.DataFrame] goes on as [to_table()] and [to_df()] do, which take the
    empty list for no data and execute the statement of the view: with the
    packages installed it returns every row of the view.  Without
    [datascience] both raise [NameError] for [Table] at the comparison;
    without [pandas], [pd.DataFrame] raises it for [pd]. *)
Theorem sample_that_draws_nothing_returns_everything {row : Type} (env : imports)
    (count : string -> result Z) (fetch : string -> result (list row)) (h : heap) (v : loc)
    (t : dbTable) (n : Z) (h1 : heap) (num_rows : Z) (q : string) :
  tables h !! v = Some t ->
  len count h v = Ok (n, h1) -> (n <= maxsize)%Z -> (0 < num_rows < n)%Z ->
  formulate h1 v empty_options = Ok q ->
  fetch (sample_statement q (n / num_rows) num_rows) = Ok [] ->
  sample env count fetch v num_rows AsTable h
  = (if has_Table env then to_table env fetch v None h1
     else (Failed (NameError "Table"), h1)) /\
  sample env count fetch v num_rows AsDataFrame h
  = (if has_Table env then
       if has_pd env then to_df env fetch v None h1 else (Failed (NameError "pd"), h1)
     else (Failed (NameError "Table"), h1)) /\
  forall (t1 : dbTable) (d : coldict) (all : list row),
    tables h1 !! v = Some t1 -> coldicts h1 !! columns t1 = Some d -> fetch q = Ok all ->
    has_Table env = true ->
    sample env count fetch v num_rows AsTable h
    = (Returned (mkDataset AsTable (dict_keys d) all), h1) /\
    (has_pd env = true ->
     sample env count fetch v num_rows AsDataFrame h
     = (Returned (mkDataset AsDataFrame (dict_keys d) all), h1)).
Proof.
  intros Ht H Hn Hs Hq Hf.
  assert (B1 : builtin_len count v h = (Returned n, h1))
    by (apply builtin_len_returns; [exact H | lia]).
  assert (B2 : builtin_len count v h1 = (Returned n, h1)).
  { apply builtin_len_returns; [|lia]. apply (len_again count count h v t n h1 Ht H). lia. }
  assert (E1 : sample env count fetch v num_rows AsTable h
               = (if has_Table env then to_table env fetch v None h1
                  else (Failed (NameError "Table"), h1))).
  { unfold sample, then_ at 1. rewrite B1. destruct (Z.leb_spec n num_rows); [lia|].
    unfold then_ at 1. rewrite B2. destruct (Z.eqb_spec num_rows 0); [lia|].
    unfold then_ at 1, reading at 1. rewrite Hq.
    unfold then_ at 1, global_name at 1. destruct (has_Table env); [|reflexivity].
    cbn [ret]. unfold then_ at 1, reading at 1. rewrite Hf. reflexivity. }
  assert (E2 : sample env count fetch v num_rows AsDataFrame h
               = (if has_Table env then
                    if has_pd env then to_df env fetch v None h1
                    else (Failed (NameError "pd"), h1)
                  else (Failed (NameError "Table"), h1))).
  { unfold sample, then_ at 1. rewrite B1. destruct (Z.leb_spec n num_rows); [lia|].
    unfold then_ at 1. rewrite B2. destruct (Z.eqb_spec num_rows 0); [lia|].
    unfold then_ at 1, reading at 1. rewrite Hq.
    unfold then_ at 1, global_name at 1. destruct (has_Table env); [|reflexivity].
    cbn [ret]. unfold then_ at 1, global_name at 1. destruct (has_pd env); [|reflexivity].
    cbn [ret]. unfold then_ at 1, reading at 1. rewrite Hf. reflexivity. }
  split; [exact E1|]. split; [exact E2|].
  intros t1 d all Ht1 Hd Hall HT. split.
  - rewrite E1, HT, (to_table_spec env fetch h1 v t1 d q all Ht1 Hd Hq Hall), HT. reflexivity.
  - intros HP. rewrite E2, HT, HP, (to_df_spec env fetch h1 v t1 d q all Ht1 Hd Hq Hall), HP.
    reflexivity.
Qed.

(** [R.sample(2, output=Table)] and [R.sample(2, output=pd.DataFrame)] when
    no row is drawn: all three rows; without [datascience], a [NameError]. *)
Lemma sample_that_draws_nothing_witness :
  (sample all_imports (counted 7) only_R 0 2 AsTable two_tables
   = (Returned (mkDataset AsTable ["a"; "b"] three_rows),
      set_table two_tables 0 (with_length base_R 7)) /\
   (has_pd all_imports = true ->
    sample all_imports (counted 7) only_R 0 2 AsDataFrame two_tables
    = (Returned (mkDataset AsDataFrame ["a"; "b"] three_rows),
       set_table two_tables 0 (with_length base_R 7)))) /\
  sample no_datascience (counted 7) only_R 0 2 AsDataFrame two_tables
  = (Failed (NameError "Table"), set_table two_tables 0 (with_length base_R 7)).
Proof.
  split.
  - refine (proj2 (proj2 (sample_that_draws_nothing_returns_everything all_imports (counted 7)
                            only_R two_tables 0 base_R 7
                            (set_table two_tables 0 (with_length base_R 7)) 2
                            "SELECT a,b FROM R    " eq_refl eq_refl _ _ eq_refl eq_refl))
                  (with_length base_R 7) [("a", R_a); ("b", R_b)] three_rows
                  eq_refl eq_refl eq_refl eq_refl);
      [ vm_compute; discriminate | split; reflexivity ].
  - refine (proj1 (proj2 (sample_that_draws_nothing_returns_everything no_datascience
                            (counted 7) only_R two_tables 0 base_R 7
                            (set_table two_tables 0 (with_length base_R 7)) 2
                            "SELECT a,b FROM R    " eq_refl eq_refl _ _ eq_refl eq_refl)));
      [ vm_compute; discriminate | split; reflexivity ].
Defined.

Lemma new_dbTable_from_schema (h : heap) (dbn : nat) (nm : string) (cols : list (string * pytype)) :
  new_dbTable h dbn nm (FromSchema cols) None
  = Ok (List.length (tables h),
        mkHeap (tables h ++ [mkTable dbn nm (List.length (coldicts h)) (List.length (optdicts h)) None])
               (optdicts h ++ [with_columns empty_options (ColsNames (List.length (namecells h)))])
               (coldicts h ++ [schema_dict (List.length (tables h)) cols])
               (namecells h ++ [map fst cols])).
Proof.
  unfold new_dbTable, alloc_options, get_options. cbn [bind optdicts].
  rewrite lookup_snoc. cbn [bind alloc_names set_options alloc_columns alloc_table
                              tables optdicts coldicts namecells].
  rewrite insert_snoc. reflexivity.
Qed.

Lemma construct_spec (dbn : nat) (nm : string) (cols : list (string * pytype)) (w : world) :
  construct dbn nm cols w
  = (Returned (List.length (tables (mem w))),
     with_mem w
       (mkHeap (tables (mem w) ++ [mkTable dbn nm (List.length (coldicts (mem w)))
                                     (List.length (optdicts (mem w))) None])
               (optdicts (mem w)
                  ++ [with_columns empty_options (ColsNames (List.length (namecells (mem w))))])
               (coldicts (mem w) ++ [schema_dict (List.length (tables (mem w))) cols])
               (namecells (mem w) ++ [map fst cols]))).
Proof. unfold construct, on_mem. rewrite new_dbTable_from_schema. reflexivity. Qed.

Lemma dict_keys_set k c d :
  dict_keys (dict_set k c d)
  = if existsb (String.eqb k) (dict_keys d) then dict_keys d else dict_keys d ++ [k].
Proof.
  induction d as [|[k' c'] d IH]; simpl; [reflexivity|].
  destruct (String.eqb k k') eqn:E; simpl; [reflexivity|].
  fold (dict_keys (dict_set k c d)). fold (dict_keys d). rewrite IH.
  destruct (existsb (String.eqb k) (dict_keys d)); reflexivity.
Qed.

Lemma colexpr_set k c d :
  colexpr c = k -> map colexpr (dict_values d) = dict_keys d ->
  map colexpr (dict_values (dict_set k c d)) = dict_keys (dict_set k c d).
Proof.
  intros Hc. induction d as [|[k' c'] d IH]; simpl; intros H.
  - rewrite Hc. reflexivity.
  - injection H as H1 H2. destruct (String.eqb k k') eqn:E; simpl.
    + apply String.eqb_eq in E. f_equal; [congruence | exact H2].
    + f_equal; [congruence | apply IH, H2].
Qed.

Lemma schema_loop self cols d :
  map colexpr (dict_values d) = dict_keys d ->
  let d' := foldl (fun d c => dict_set (fst c) (mkColumn (fst c) self (snd c)) d) d cols in
  dict_keys d' = add_new (dict_keys d) (map fst cols) /\
  map colexpr (dict_values d') = dict_keys d'.
Proof.
  revert d. induction cols as [|[n ty] cols IH]; intros d H; simpl; [split; [reflexivity | exact H]|].
  specialize (IH (dict_set n (mkColumn n self ty) d)
                 (colexpr_set n (mkColumn n self ty) d eq_refl H)).
  simpl in IH. rewrite dict_keys_set in IH at 1.
  destruct (existsb (String.eqb n) (dict_keys d)); exact IH.
Qed.

Lemma schema_dict_fragments self cols :
  map colexpr (dict_values (schema_dict self cols)) = first_occurrences (map fst cols).
Proof.
  destruct (schema_loop self cols [] eq_refl) as [K V].
  unfold schema_dict. rewrite V, K. reflexivity.
Qed.

Lemma reg_get_set_same k t d : reg_get k (reg_set k t d) = Some t.
Proof.
  induction d as [|[k' t'] d IH]; simpl; [rewrite String.eqb_refl; reflexivity|].
  destruct (String.eqb k k') eqn:E; simpl; rewrite E; [reflexivity | exact IH].
Qed.

Lemma reg_get_set_other k k' t d : k' <> k -> reg_get k' (reg_set k t d) = reg_get k' d.
Proof.
  intros Hne. induction d as [|[k2 t2] d IH]; simpl.
  - destruct (String.eqb k' k) eqn:E; [apply String.eqb_eq in E; congruence | reflexivity].
  - destruct (String.eqb k k2) eqn:E; simpl.
    + apply String.eqb_eq in E. subst k2.
      destruct (String.eqb k' k) eqn:E'; [apply String.eqb_eq in E'; congruence | reflexivity].
    + rewrite IH. reflexivity.
Qed.

Lemma then_Returned {S A B} (m : action S A) (k : A -> action S B) s a s' :
  m s = (Returned a, s') -> then_ m k s = k a s'.
Proof. unfold then_. intros ->. reflexivity. Qed.

Lemma then_Failed {S A B} (m : action S A) (k : A -> action S B) s f s' :
  m s = (Failed f, s') -> then_ m k s = (Failed f, s').
Proof. unfold then_. intros ->. reflexivity. Qed.

Lemma reading_Ok {S A} (f : S -> result A) s a : f s = Ok a -> reading f s = (Returned a, s).
Proof. unfold reading. intros ->. reflexivity. Qed.

Lemma call_engine_accepted e ev w :
  rejects e (journal w) ev = None ->
  call_engine e ev w
  = (Returned tt, mkWorld (mem w) (databases w) (journal w ++ [ev]) (stdout w)).
Proof. unfold call_engine. intros ->. reflexivity. Qed.

Lemma get_table_columns_accepted e i nm w :
  rejects e (journal w) (Execute i (pragma_statement nm) []) = None ->
  get_table_columns e i nm w
  = match typed_columns (info_rows e (journal w ++ [Execute i (pragma_statement nm) []])) with
    | Ok cols =>
        (Returned cols,
         mkWorld (mem w) (databases w) (journal w ++ [Execute i (pragma_statement nm) []])
           (stdout w))
    | Raise ex =>
        (Failed (Exception ex),
         mkWorld (mem w) (databases w) (journal w ++ [Execute i (pragma_statement nm) []])
           (stdout w))
    end.
Proof.
  intros R. unfold get_table_columns.
  erewrite then_Returned; [ | apply call_engine_accepted; exact R ].
  unfold reading. cbn [journal]. reflexivity.
Qed.

Lemma db_setitem_own i nm l t D w :
  tables (mem w) !! l = Some t -> db t = i -> databases w !! i = Some D ->
  db_setitem i nm l w
  = (Returned tt,
     with_databases w (<[i := mkDatabase (db_name D) (reg_set nm l (db_tables D))]> (databases w))).
Proof.
  intros Ht Hi HD. unfold db_setitem.
  erewrite then_Returned; [ | apply reading_Ok; unfold get_table; rewrite Ht; reflexivity ].
  rewrite Hi, Nat.eqb_refl.
  erewrite then_Returned; [ | apply reading_Ok; rewrite HD; reflexivity ].
  unfold set_db_tables.
  erewrite then_Returned; [ | apply reading_Ok; rewrite HD; reflexivity ].
  reflexivity.
Qed.

(** ** Properties of the database *)

(** [v.save_as(name)] on an engine that carries out the three calls: the
    database is asked to create the table from the statement of [v], to
    commit, and for the columns of the new table; the [Database] object of
    [v] then holds under [name] a new base table, whose statement selects
    the columns the engine has reported, with no filter, group, order or
    limit.  The other entries of the [Database] object and every view are
    as before. *)
Theorem save_as_registers_a_base_table (e : engine) (w : world) (v : loc) (t : dbTable)
    (D : Database) (q nm : string) (cols : list (string * pytype)) :
  tables (mem w) !! v = Some t -> databases w !! db t = Some D ->
  formulate (mem w) v empty_options = Ok q ->
  let create := Execute (db t) (create_as_statement nm q) [] in
  let pragma := Execute (db t) (pragma_statement nm) [] in
  rejects e (journal w) create = None ->
  rejects e (journal w ++ [create]) (Commit (db t)) = None ->
  rejects e (journal w ++ [create; Commit (db t)]) pragma = None ->
  typed_columns (info_rows e (journal w ++ [create; Commit (db t); pragma])) = Ok cols ->
  exists w',
    save_as e v nm w = (Returned tt, w') /\
    journal w' = journal w ++ [create; Commit (db t); pragma] /\
    stdout w' = stdout w ++ [create_as_statement nm q] /\
    extends (mem w) (mem w') /\
    fst (db_getitem (db t) nm w') = Returned (List.length (tables (mem w))) /\
    (forall n, n <> nm -> fst (db_getitem (db t) n w') = fst (db_getitem (db t) n w)) /\
    statement (Ok (List.length (tables (mem w)), mem w'))
    = Ok ("SELECT " +:+ join "," (first_occurrences (map fst cols))
            +:+ " FROM " +:+ nm +:+ "    ").
Proof.
  intros Ht HD Hq create pragma R1 R2 R3 Hc.
  pose proof (lookup_lt_Some _ _ _ HD) as Hlt.
  subst create pragma.
  eexists. split.
  - unfold save_as.
    erewrite then_Returned; [ | apply reading_Ok; exact Hq ].
    erewrite then_Returned; [ | reflexivity ].
    erewrite then_Returned; [ | apply reading_Ok; unfold get_table; cbn [mem]; rewrite Ht; reflexivity ].
    erewrite then_Returned; [ | apply call_engine_accepted; exact R1 ].
    erewrite then_Returned; [ | apply call_engine_accepted; exact R2 ].
    erewrite then_Returned;
      [ | rewrite get_table_columns_accepted;
          [ cbn [mem databases journal stdout];
            rewrite <- !app_assoc; cbn [app]; rewrite Hc; reflexivity
          | cbn [journal]; rewrite <- !app_assoc; exact R3 ] ].
    erewrite then_Returned; [ | apply construct_spec ].
    erewrite db_setitem_own; [ reflexivity | apply lookup_snoc | reflexivity | exact HD ].
  - unfold with_databases, with_mem. cbn [journal stdout mem databases].
    split; [rewrite <- ?app_assoc; reflexivity|]. split; [reflexivity|]. split; [|split; [|split]].
    + unfold extends. cbn [tables optdicts coldicts namecells].
      repeat split; apply prefix_app_r; reflexivity.
    + unfold db_getitem, then_, get_database, reading. cbn [databases].
      rewrite list_lookup_insert_eq by exact Hlt. cbn [db_tables fst].
      rewrite reg_get_set_same. reflexivity.
    + intros n Hn. unfold db_getitem, then_, get_database, reading. cbn [databases].
      rewrite list_lookup_insert_eq by exact Hlt. rewrite HD. cbn [db_tables].
      rewrite (reg_get_set_other nm n _ _ Hn).
      destruct (reg_get n (db_tables D)); reflexivity.
    + erewrite statement_of_view; [ | apply lookup_snoc | apply lookup_snoc | apply lookup_snoc ].
      unfold statement_of. rewrite schema_dict_fragments. reflexivity.
Qed.

(** [R.where(R.a > 0).save_as("V")]. *)
Lemma save_as_witness :
  exists w',
    save_as sample_engine (fst filtered_R) "V" filtered_world = (Returned tt, w') /\
    journal w'
    = journal filtered_world
        ++ [Execute 0 "CREATE TABLE V as SELECT a,b FROM R WHERE (a > 0)   " [];
            Commit 0;
            Execute 0 "PRAGMA table_info(V)" []] /\
    stdout w' = stdout filtered_world
                  ++ ["CREATE TABLE V as SELECT a,b FROM R WHERE (a > 0)   "] /\
    extends (mem filtered_world) (mem w') /\
    fst (db_getitem 0 "V" w') = Returned 3 /\
    (forall n, n <> "V" -> fst (db_getitem 0 n w') = fst (db_getitem 0 n filtered_world)) /\
    statement (Ok (3, mem w')) = Ok "SELECT a,b FROM V    ".
Proof.
  exact (save_as_registers_a_base_table sample_engine filtered_world (fst filtered_R)
           (mkTable 0 "R" 2 2 None) (mkDatabase "test.db" [("R", 0); ("S", 1)])
           "SELECT a,b FROM R WHERE (a > 0)   " "V" [("a", Int); ("b", Str)]
           eq_refl eq_refl eq_refl eq_refl eq_refl eq_refl eq_refl).
Defined.

Lemma sqltypes_None declared :
  sqltypes declared = None <-> ~ In declared ["REAL"; "INTEGER"; "TEXT"; "INT"; ""].
Proof.
  unfold sqltypes. split.
  - intros H Hin. simpl in Hin.
    destruct Hin as [<-|[<-|[<-|[<-|[<-|[]]]]]]; discriminate H.
  - intros H.
    destruct (String.eqb_spec declared "REAL") as [->|_]; [exfalso; apply H; simpl; tauto|].
    destruct (String.eqb_spec declared "INTEGER") as [->|_]; [exfalso; apply H; simpl; tauto|].
    destruct (String.eqb_spec declared "TEXT") as [->|_]; [exfalso; apply H; simpl; tauto|].
    destruct (String.eqb_spec declared "INT") as [->|_]; [exfalso; apply H; simpl; tauto|].
    destruct (String.eqb_spec declared "") as [->|_]; [exfalso; apply H; simpl; tauto|].
    reflexivity.
Qed.

Lemma typed_columns_unknown known column declared rest :
  (forall r, In r known -> sqltypes (snd r) <> None) -> sqltypes declared = None ->
  typed_columns (known ++ (column, declared) :: rest) = Raise (KeyError declared).
Proof.
  intros Hk Hd. induction known as [|[c ty] known IH]; simpl.
  - rewrite Hd. reflexivity.
  - destruct (sqltypes ty) eqn:E.
    + rewrite IH; [reflexivity|]. intros r Hr. apply Hk. right. exact Hr.
    + exfalso. apply (Hk (c, ty)); [left; reflexivity | exact E].
Qed.

(** [save_as] reads the columns of the new table after it has created and
    committed it.  When the engine reports a column whose declared type is
    not a key of [sqltypes], [save_as] raises [KeyError] with that type: the
    table is in the database, and in no [Database] object. *)
Theorem save_as_can_fail_after_creating_the_table (e : engine) (w : world) (v : loc)
    (t : dbTable) (q nm : string) (known : list (string * string)) (column declared : string)
    (rest : list (string * string)) :
  tables (mem w) !! v = Some t ->
  formulate (mem w) v empty_options = Ok q ->
  let create := Execute (db t) (create_as_statement nm q) [] in
  let pragma := Execute (db t) (pragma_statement nm) [] in
  rejects e (journal w) create = None ->
  rejects e (journal w ++ [create]) (Commit (db t)) = None ->
  rejects e (journal w ++ [create; Commit (db t)]) pragma = None ->
  info_rows e (journal w ++ [create; Commit (db t); pragma])
  = known ++ (column, declared) :: rest ->
  (forall r, In r known -> In (snd r) ["REAL"; "INTEGER"; "TEXT"; "INT"; ""]) ->
  ~ In declared ["REAL"; "INTEGER"; "TEXT"; "INT"; ""] ->
  save_as e v nm w
  = (Failed (Exception (KeyError declared)),
     mkWorld (mem w) (databases w) (journal w ++ [create; Commit (db t); pragma])
       (stdout w ++ [create_as_statement nm q])).
Proof.
  intros Ht Hq create pragma R1 R2 R3 Hi Hk Hd.
  subst create pragma.
  unfold save_as.
  erewrite then_Returned; [ | apply reading_Ok; exact Hq ].
  erewrite then_Returned; [ | reflexivity ].
  erewrite then_Returned; [ | apply reading_Ok; unfold get_table; cbn [mem]; rewrite Ht; reflexivity ].
  erewrite then_Returned; [ | apply call_engine_accepted; exact R1 ].
  erewrite then_Returned; [ | apply call_engine_accepted; exact R2 ].
  erewrite then_Failed; [ reflexivity | ].
  rewrite get_table_columns_accepted;
    [ | cbn [journal]; rewrite <- !app_assoc; exact R3 ].
  cbn [mem databases journal stdout].
  rewrite <- !app_assoc. cbn [app]. rewrite Hi.
  rewrite typed_columns_unknown; [ reflexivity | | apply sqltypes_None; exact Hd ].
  intros r Hr E. apply sqltypes_None in E. apply E, Hk, Hr.
Qed.

(** [R.where(R.a > 0).save_as("U")] when the engine reports the declared
    type [NUM]. *)
Lemma save_as_failure_witness :
  save_as sample_engine (fst filtered_R) "U" filtered_world
  = (Failed (Exception (KeyError "NUM")),
     mkWorld (mem filtered_world) (databases filtered_world)
       (journal filtered_world
          ++ [Execute 0 "CREATE TABLE U as SELECT a,b FROM R WHERE (a > 0)   " [];
              Commit 0;
              Execute 0 "PRAGMA table_info(U)" []])
       (stdout filtered_world ++ ["CREATE TABLE U as SELECT a,b FROM R WHERE (a > 0)   "])).
Proof.
  apply (save_as_can_fail_after_creating_the_table sample_engine filtered_world
           (fst filtered_R) (mkTable 0 "R" 2 2 None) "SELECT a,b FROM R WHERE (a > 0)   " "U"
           [("a", "INT")] "n" "NUM" [] eq_refl eq_refl eq_refl eq_refl eq_refl eq_refl).
  - intros r [<-|[]]. simpl. tauto.
  - simpl. intuition discriminate.
Defined.

(** [drop_table] goes by the name of its argument: given a view that
    [select], [where], [sort] or [group] has returned for a registered
    table, it drops the table itself, as it does given the table. *)
Theorem dropping_a_view_drops_its_table (e : engine) (w : world) (i : nat) (D : Database)
    (v : loc) (t : dbTable) (c : combinator) (v' : loc) (h' : heap) :
  databases w !! i = Some D -> tables (mem w) !! v = Some t ->
  reg_mem (name t) (db_tables D) = true ->
  run (mem w) v c = Ok (v', h') ->
  rejects e (journal w) (Execute i ("DROP TABLE " +:+ name t) []) = None ->
  let dropped := fun h =>
    mkWorld h
      (<[i := mkDatabase (db_name D) (reg_del (name t) (db_tables D))]> (databases w))
      (journal w ++ [Execute i ("DROP TABLE " +:+ name t) []])
      (stdout w ++ ["DROPPING TABLE  " +:+ name t]) in
  drop_table e i v' (with_mem w h') = (Returned true, dropped h') /\
  drop_table e i v w = (Returned true, dropped (mem w)).
Proof.
  intros HD Ht Hr H R dropped. subst dropped.
  destruct (run_Ok_receiver _ v c _ H) as (t0 & o & d & Ht0 & Ho & Hd).
  assert (t0 = t) as -> by congruence.
  destruct (run_Ok_shape _ v c v' h' t o d Ht Ho Hd H) as (lo & O' & d' & -> & -> & _).
  split; unfold drop_table.
  - erewrite then_Returned;
      [ | apply reading_Ok; unfold get_table; cbn [mem with_mem tables];
          rewrite lookup_snoc; reflexivity ].
    erewrite then_Returned;
      [ | apply reading_Ok; cbn [databases with_mem]; rewrite HD; reflexivity ].
    cbn [name]. rewrite Hr. cbn [negb].
    erewrite then_Returned; [ | reflexivity ].
    erewrite then_Returned; [ | apply call_engine_accepted; exact R ].
    erewrite then_Returned;
      [ | apply reading_Ok; cbn [databases with_mem]; rewrite HD; reflexivity ].
    unfold set_db_tables.
    erewrite then_Returned;
      [ | erewrite then_Returned;
            [ reflexivity | apply reading_Ok; cbn [databases with_mem]; rewrite HD; reflexivity ] ].
    reflexivity.
  - erewrite then_Returned;
      [ | apply reading_Ok; unfold get_table; rewrite Ht; reflexivity ].
    erewrite then_Returned; [ | apply reading_Ok; rewrite HD; reflexivity ].
    rewrite Hr. cbn [negb].
    erewrite then_Returned; [ | reflexivity ].
    erewrite then_Returned; [ | apply call_engine_accepted; exact R ].
    erewrite then_Returned; [ | apply reading_Ok; cbn [databases]; rewrite HD; reflexivity ].
    unfold set_db_tables.
    erewrite then_Returned;
      [ | erewrite then_Returned;
            [ reflexivity | apply reading_Ok; cbn [databases]; rewrite HD; reflexivity ] ].
    reflexivity.
Qed.

(** [db.drop_table(R.where(R.a > 0))] and [db.drop_table(R)]. *)
Lemma dropping_a_view_witness :
  drop_table sample_engine 0 (fst filtered_R) filtered_world
  = (Returned true,
     mkWorld (snd filtered_R) [mkDatabase "test.db" [("S", 1)]]
       (journal two_tables_world ++ [Execute 0 "DROP TABLE R" []])
       ["DROPPING TABLE  R"]) /\
  drop_table sample_engine 0 0 two_tables_world
  = (Returned true,
     mkWorld two_tables [mkDatabase "test.db" [("S", 1)]]
       (journal two_tables_world ++ [Execute 0 "DROP TABLE R" []])
       ["DROPPING TABLE  R"]).
Proof.
  exact (dropping_a_view_drops_its_table sample_engine two_tables_world 0
           (mkDatabase "test.db" [("R", 0); ("S", 1)]) 0 base_R (Where a_gt_0)
           (fst filtered_R) (snd filtered_R) eq_refl eq_refl eq_refl eq_refl eq_refl).
Defined.

Lemma declared_columns_length first columns :
  List.length first = List.length columns ->
  List.length (declared_columns first columns) = List.length (List.filter recognised first).
Proof.
  revert columns. induction first as [|v first IH]; intros [|c columns] H; simpl in *;
    try reflexivity; try discriminate H.
  injection H as H. unfold recognised at 1.
  destruct (numpytypes v); simpl; rewrite (IH columns H); reflexivity.
Qed.

Lemma recognised_count (first : list pyvalue) :
  List.length (List.filter recognised first) <= List.length first /\
  (List.length (List.filter recognised first) = List.length first
   <-> forallb recognised first = true).
Proof.
  induction first as [|v first [IH1 IH2]]; simpl; [split; [lia | tauto]|].
  destruct (recognised v); simpl.
  - split; [lia|]. rewrite <- IH2. split; intros H; lia.
  - split; [lia|]. split; [intros H; lia | discriminate].
Qed.

Lemma insert_rows_trace e self ie rows w out w' :
  insert_rows e self ie rows w = (out, w') ->
  mem w' = mem w /\ databases w' = databases w /\ stdout w' = stdout w /\
  match out with
  | Returned _ => journal w' = journal w ++ map (Execute self ie) rows
  | Failed _ =>
      exists done more, map (Execute self ie) rows = done ++ more /\ more <> [] /\
                        journal w' = journal w ++ done
  end.
Proof.
  revert w. induction rows as [|r rows IH]; intros w H; simpl in H.
  - injection H as <- <-. rewrite app_nil_r. auto.
  - unfold then_, execute, call_engine in H.
    destruct (rejects e (journal w) (Execute self ie r)) as [msg|] eqn:R.
    + injection H as <- <-. split; [reflexivity|]. split; [reflexivity|].
      split; [reflexivity|].
      exists [], (map (Execute self ie) (r :: rows)).
      split; [reflexivity|]. split; [discriminate|]. rewrite app_nil_r. reflexivity.
    + apply IH in H. cbn [mem databases stdout journal] in H.
      destruct H as (Hm & Hd & Hs & Hj).
      split; [exact Hm|]. split; [exact Hd|]. split; [exact Hs|].
      destruct out as [u|f].
      * rewrite Hj, <- app_assoc. reflexivity.
      * destruct Hj as (done & more & E & Hne & Hj).
        exists (Execute self ie r :: done), more. simpl. rewrite E.
        split; [reflexivity|]. split; [exact Hne|]. rewrite Hj, <- app_assoc. reflexivity.
Qed.

Lemma db_setitem_journal i nm l w :
  journal (snd (db_setitem i nm l w)) = journal w.
Proof.
  unfold db_setitem, then_, reading.
  destruct (get_table (mem w) l) as [t|ex]; [|reflexivity].
  destruct (Nat.eqb (db t) i); [|reflexivity].
  unfold set_db_tables, then_, get_database, reading.
  destruct (databases w !! i) eqn:E; cbn; rewrite ?E; reflexivity.
Qed.

(** [create_table] with rows whose width is not the number of column names
    prints a line and returns, with nothing executed.  Otherwise it declares
    the columns whose value in the first row has a type of [numpytypes], and
    no other; every [INSERT] has one placeholder for each declared column
    and is given the whole row.  Whatever the engine refuses, the calls
    carried out are the first ones of: the [CREATE TABLE], one [INSERT] for
    each row, the [PRAGMA]; when [create_table] returns they are all of
    them, and the table is registered. *)
Theorem create_table_statements (e : engine) (self : nat) (nm : string)
    (first : list pyvalue) (rest : list (list pyvalue)) (columns : list string)
    (w : world) (out : outcome unit) (w' : world) :
  create_table e self nm (first :: rest) columns w = (out, w') ->
  let k := List.length (List.filter recognised first) in
  let create := Execute self (create_statement nm (declared_columns first columns)) [] in
  let insert := Execute self (insert_statement nm k) in
  let pragma := Execute self (pragma_statement nm) [] in
  (List.length first <> List.length columns ->
     out = Returned tt /\
     w' = mkWorld (mem w) (databases w) (journal w) (stdout w ++ ["Column Mismatch"])) /\
  (List.length first = List.length columns ->
     k <= List.length first /\
     (k = List.length first <-> forallb recognised first = true) /\
     exists done,
       journal w' = journal w ++ done /\
       done `prefix_of` (create :: map insert (first :: rest) ++ [pragma]) /\
       (out = Returned tt ->
          done = create :: map insert (first :: rest) ++ [pragma] /\
          fst (db_getitem self nm w') = Returned (List.length (tables (mem w))))).
Proof.
  intros H k create insert pragma. split.
  - intros Hne. unfold create_table in H.
    destruct (Nat.eqb_spec (List.length first) (List.length columns)) as [E|_]; [contradiction|].
    cbn [negb] in H. unfold print in H. injection H as <- <-. auto.
  - intros Hlen. destruct (recognised_count first) as [K1 K2].
    split; [exact K1|]. split; [exact K2|].
    unfold create_table in H. rewrite Hlen, Nat.eqb_refl in H. cbn [negb] in H.
    rewrite (declared_columns_length first columns Hlen) in H.
    change (create :: map insert (first :: rest) ++ [pragma])
      with (create :: (map insert (first :: rest) ++ [pragma])).
    generalize dependent (first :: rest). intros rows H.
    subst create insert pragma. fold k in H.
    unfold then_ at 1, print at 1 in H.
    unfold then_ at 1, execute at 1, call_engine at 1 in H. cbn [journal] in H.
    match type of H with
    | context [rejects e (journal w) ?ev] => destruct (rejects e (journal w) ev) as [msg|] eqn:R
    end.
    { injection H as <- <-. exists []. cbn [journal]. rewrite app_nil_r.
      split; [reflexivity|]. split; [apply prefix_nil | discriminate]. }
    unfold then_ at 1 in H.
    match type of H with
    | context [insert_rows e self ?ie rows ?w0] =>
        destruct (insert_rows e self ie rows w0) as [o1 w1] eqn:I
    end.
    apply insert_rows_trace in I. cbn [mem databases stdout journal] in I.
    destruct I as (Im & Id & Is & Ij).
    destruct o1 as [u|f].
    2:{ injection H as <- <-. destruct Ij as (done & more & E & Hne & Ij).
        eexists (_ :: done). split; [rewrite Ij, <- app_assoc; reflexivity|].
        split; [|discriminate].
        exists (more ++ [Execute self (pragma_statement nm) []]).
        rewrite E, <- app_assoc. reflexivity. }
    unfold then_ at 1, get_table_columns, then_ at 1, execute, call_engine in H.
    match type of H with
    | context [rejects e (journal w1) ?ev] =>
        destruct (rejects e (journal w1) ev) as [msg|] eqn:R2
    end.
    { injection H as <- <-. eexists (_ :: map _ rows).
      split; [rewrite Ij, <- app_assoc; reflexivity|].
      split; [|discriminate]. eexists [_]. reflexivity. }
    eexists (_ :: (map _ rows ++ [_])).
    unfold reading at 1 in H. cbn [journal] in H.
    match type of H with
    | context [typed_columns ?r] => destruct (typed_columns r) as [cols|ex]
    end.
    2:{ injection H as <- <-. cbn [journal]. rewrite Ij, <- !app_assoc.
        split; [reflexivity|]. split; [reflexivity | discriminate]. }
    unfold then_ in H at 1. rewrite construct_spec in H.
    cbn [mem databases journal stdout] in H. rewrite Im in H.
    split; [|split; [reflexivity|]].
    + match type of H with
      | db_setitem ?i ?n ?l ?w2 = _ =>
          pose proof (db_setitem_journal i n l w2) as J; rewrite H in J
      end.
      cbn [snd journal with_mem] in J. rewrite J, Ij, <- !app_assoc. reflexivity.
    + intros ->. split; [reflexivity|].
      unfold db_setitem, then_ at 1, reading at 1, get_table in H.
      cbn [mem with_mem tables] in H. rewrite lookup_snoc in H. cbn [db] in H.
      rewrite Nat.eqb_refl in H.
      unfold set_db_tables, then_, get_database, reading in H. cbn [databases with_mem] in H.
      destruct (databases w1 !! self) as [D|] eqn:HD; [|discriminate H].
      cbn [databases with_mem] in H. rewrite HD in H.
      injection H as <-.
      unfold db_getitem, then_, get_database, reading. cbn [databases with_databases].
      rewrite list_lookup_insert_eq by (eapply lookup_lt_Some; exact HD).
      cbn [db_tables fst]. rewrite reg_get_set_same. reflexivity.
Qed.

(** [db.create_table("T", [[1, "x"], [2, "y"]], ["a", "b"])]: a plain [int]
    is not declared, and two values are given for one placeholder. *)
Lemma create_table_witness :
  1 <= 2 /\
  (1 = 2 <-> forallb recognised [PyOther "1"; PyStr "x"] = true) /\
  exists done,
    journal (snd created_T) = journal two_tables_world ++ done /\
    done `prefix_of`
      [Execute 0 "CREATE TABLE T( b TEXT )" [];
       Execute 0 "INSERT INTO T VALUES( ? ) " [PyOther "1"; PyStr "x"];
       Execute 0 "INSERT INTO T VALUES( ? ) " [PyOther "2"; PyStr "y"];
       Execute 0 "PRAGMA table_info(T)" []] /\
    (fst created_T = Returned tt ->
       done = [Execute 0 "CREATE TABLE T( b TEXT )" [];
               Execute 0 "INSERT INTO T VALUES( ? ) " [PyOther "1"; PyStr "x"];
               Execute 0 "INSERT INTO T VALUES( ? ) " [PyOther "2"; PyStr "y"];
               Execute 0 "PRAGMA table_info(T)" []] /\
       fst (db_getitem 0 "T" (snd created_T)) = Returned 2).
Proof.
  exact (proj2 (create_table_statements sample_engine 0 "T" [PyOther "1"; PyStr "x"]
                  [[PyOther "2"; PyStr "y"]] ["a"; "b"] two_tables_world
                  (fst created_T) (snd created_T) eq_refl) eq_refl).
Defined.

Lemma reg_keys_set k t d :
  map fst (reg_set k t d)
  = if existsb (String.eqb k) (map fst d) then map fst d else map fst d ++ [k].
Proof.
  induction d as [|[k' t'] d IH]; simpl; [reflexivity|].
  destruct (String.eqb k k') eqn:E; simpl; [reflexivity|].
  rewrite IH. destruct (existsb (String.eqb k) (map fst d)); reflexivity.
Qed.

Lemma reg_get_set k k' t d :
  reg_get k' (reg_set k t d) = if String.eqb k' k then Some t else reg_get k' d.
Proof.
  destruct (String.eqb_spec k' k) as [->|Hne].
  - apply reg_get_set_same.
  - apply reg_get_set_other, Hne.
Qed.

Lemma build_tables_spec e i names acc w reg w' :
  build_tables e i names acc w = (Returned reg, w') ->
  (forall n l, reg_get n acc = Some l ->
     exists c o, tables (mem w) !! l = Some (mkTable i n c o None)) ->
  map fst reg = add_new (map fst acc) names /\
  journal w' = journal w ++ map (fun n => Execute i (pragma_statement n) []) names /\
  databases w' = databases w /\ stdout w' = stdout w /\
  (forall n l, reg_get n reg = Some l ->
     exists c o, tables (mem w') !! l = Some (mkTable i n c o None)).
Proof.
  revert acc w. induction names as [|nm names IH]; intros acc w H Hacc; simpl in H.
  - injection H as <- <-. simpl. rewrite app_nil_r. auto.
  - unfold then_ at 1, get_table_columns, then_ at 1, execute, call_engine in H.
    destruct (rejects e (journal w) (Execute i (pragma_statement nm) [])); [discriminate H|].
    unfold reading at 1 in H. cbn [journal] in H.
    match type of H with
    | context [typed_columns ?r] => destruct (typed_columns r) as [cols|ex]
    end; [|discriminate H].
    unfold then_ at 1 in H. rewrite construct_spec in H.
    apply IH in H.
    + cbn [mem databases journal stdout with_mem] in H.
      destruct H as (Hk & Hj & Hd & Hs & Ht).
      split; [|split; [|split; [|split]]]; try assumption.
      * rewrite Hk, reg_keys_set. simpl.
        destruct (existsb (String.eqb nm) (map fst acc)); reflexivity.
      * rewrite Hj, <- app_assoc. reflexivity.
    + cbn [mem with_mem tables]. intros n l Hl. rewrite reg_get_set in Hl.
      destruct (String.eqb n nm) eqn:E.
      * apply String.eqb_eq in E. subst n. injection Hl as <-.
        eexists _, _. apply lookup_snoc.
      * destruct (Hacc n l Hl) as (c & o & Hc). exists c, o.
        apply lookup_app_l_Some. exact Hc.
Qed.

(** When [Database(db_name)] returns, the new object holds one base table
    for each table of [sqlite_master], under its name and in that order,
    each a [dbTable] of the new object without a count; the engine has been
    asked for [sqlite_master] and then for the columns of each table. *)
Theorem connect_registers_the_tables_of_the_master (e : engine) (nm : string) (w : world)
    (i : nat) (w' : world) :
  connect e nm w = (Returned i, w') ->
  let select := Execute i "SELECT * from sqlite_master" [] in
  let names := table_names (master_rows e (journal w ++ [Connect i nm; select])) in
  i = List.length (databases w) /\
  journal w'
  = journal w ++ Connect i nm :: select :: map (fun n => Execute i (pragma_statement n) []) names /\
  exists reg,
    databases w' = databases w ++ [mkDatabase nm reg] /\
    map fst reg = first_occurrences names /\
    forall n l, reg_get n reg = Some l ->
      exists c o, tables (mem w') !! l = Some (mkTable i n c o None).
Proof.
  intros H select names. unfold connect in H.
  unfold then_ at 1, call_engine at 1 in H.
  destruct (rejects e (journal w) (Connect (List.length (databases w)) nm)); [discriminate H|].
  unfold then_ at 1, get_tables, then_ at 1, execute, call_engine in H. cbn [journal] in H.
  match type of H with
  | context [rejects e ?j ?ev] => destruct (rejects e j ev); [discriminate H|]
  end.
  unfold then_ at 1, reading at 1 in H. cbn [journal] in H.
  match type of H with
  | context [build_tables e ?s ?ns ?acc ?w0] =>
      destruct (build_tables e s ns acc w0) as [[reg|f] w1] eqn:B; [|discriminate H]
  end.
  unfold then_, ret in H. injection H as <- <-.
  apply build_tables_spec in B; [|intros n l Hl; discriminate Hl].
  cbn [mem databases journal stdout] in B. destruct B as (Hk & Hj & Hd & Hs & Ht).
  subst select names.
  rewrite <- ?app_assoc in Hk. rewrite <- ?app_assoc in Hj. cbn [app] in Hj, Hk.
  split; [reflexivity|]. cbn [journal with_databases databases mem].
  split; [exact Hj|].
  exists reg. rewrite Hd. split; [reflexivity|]. split; [exact Hk | exact Ht].
Qed.

(** [Database("test.db")] on [sample_engine]. *)
Lemma connect_witness :
  0 = List.length (databases empty_world) /\
  journal two_tables_world
  = journal empty_world
      ++ [Connect 0 "test.db";
          Execute 0 "SELECT * from sqlite_master" [];
          Execute 0 "PRAGMA table_info(R)" [];
          Execute 0 "PRAGMA table_info(S)" []] /\
  exists reg,
    databases two_tables_world = databases empty_world ++ [mkDatabase "test.db" reg] /\
    map fst reg = ["R"; "S"] /\
    forall n l, reg_get n reg = Some l ->
      exists c o, tables (mem two_tables_world) !! l = Some (mkTable 0 n c o None).
Proof.
  exact (connect_registers_the_tables_of_the_master sample_engine "test.db" empty_world 0
           two_tables_world eq_refl).
Defined.

(** ** The count of a derived view *)

Lemma run_Ok_view h v c v' h' t o d :
  tables h !! v = Some t -> optdicts h !! options t = Some o -> coldicts h !! columns t = Some d ->
  run h v c = Ok (v', h') ->
  exists lc lo o' d',
    tables h' !! v' = Some (mkTable (db t) (name t) lc lo None) /\
    optdicts h' !! lo = Some o' /\ coldicts h' !! lc = Some d'.
Proof.
  intros Ht Ho Hd H. destruct c; cbn [run] in H.
  - assert (Hn : forall n, In n names -> dict_mem n d = true).
    { unfold select, get_table, get_columns in H. rewrite Ht in H. cbn [bind] in H.
      rewrite Hd in H. cbn [bind] in H.
      destruct (check_names d names) as [u|] eqn:Hc; [|discriminate H].
      exact (check_names_Ok d names u Hc). }
    rewrite (select_spec h v t o d names Ht Ho Hd Hn) in H.
    destruct (optdict_truthy o); injection H as <- <-; eexists _, _, _, _;
      cbn [tables optdicts coldicts];
      (split; [apply lookup_snoc|]);
      (split; [first [apply lookup_snoc | apply lookup_snoc2] | apply lookup_snoc]).
  - destruct (table_eq h (table column) v) eqn:He.
    2:{ unfold where_ in H. rewrite He in H. discriminate H. }
    rewrite (where_spec h v t o d column Ht Ho Hd He) in H.
    apply bind_Ok in H as (c & _ & H). injection H as <- <-.
    eexists _, _, _, _. cbn [tables optdicts coldicts].
    split; [apply lookup_snoc|]. split; apply lookup_snoc.
  - rewrite (sort_spec h v t o d column descending Ht Ho Hd) in H.
    destruct (resolve d column) as [s|k]; [discriminate H|].
    destruct (table_eq h (table k) v); [|discriminate H].
    injection H as <- <-.
    eexists _, _, _, _. cbn [tables optdicts coldicts].
    split; [apply lookup_snoc|]. split; apply lookup_snoc.
  - rewrite (group_spec h v t o d column having collect Ht Ho Hd) in H.
    destruct (resolve d column) as [s|k]; [discriminate H|].
    destruct (table_eq h (table k) v); [|discriminate H].
    injection H as <- <-.
    eexists _, _, _, _. cbn [tables optdicts coldicts].
    split; [apply lookup_snoc|]. split; apply lookup_snoc.
Qed.

(** The statement that [__len__] executes for a view, by the name, the
    columns and the options of the view. *)
Lemma count_statement_of_view h v t o d :
  tables h !! v = Some t -> optdicts h !! options t = Some o ->
  coldicts h !! columns t = Some d ->
  count_statement h v
  = Ok match opt_group o with
       | Some _ =>
           "WITH temp as (" +:+ statement_of (name t) d o +:+ ") SELECT COUNT(*) from temp"
       | None =>
           "SELECT COUNT(*) FROM " +:+ name t +:+ " " +:+ where_segment o +:+ " " +:+ " "
             +:+ formulate_sort o empty_options +:+ " " +:+ formulate_limit o empty_options
       end.
Proof.
  intros Ht Ho Hd. unfold count_statement, get_table, get_options.
  rewrite Ht. cbn [bind]. rewrite Ho. cbn [bind].
  pose proof (statement_of_view v h t o d Ht Ho Hd) as S. unfold statement in S. cbn [bind] in S.
  destruct (opt_group o) as [g|] eqn:G.
  - rewrite S. reflexivity.
  - unfold formulate, get_table, get_options, get_columns.
    rewrite Ht. cbn [bind]. rewrite Ho. cbn [bind]. rewrite Hd. cbn [bind].
    unfold formulate_where, where_segment, formulate_group, formulate_columns.
    cbn [opt_where opt_columns opt_group with_columns empty_options].
    rewrite G. destruct (opt_where o); reflexivity.
Qed.

(** C10: the view that a combinator returns has no row count, whatever
    the count of the receiver.  [len] on it executes a counting statement
    made of what the returned view itself holds, its name, its columns and
    its options: the statement of the view inside [WITH temp as (...)] when
    the view is grouped, and otherwise that statement with the count of the
    rows for its columns; it keeps what the store answers. *)
Theorem derived_view_counts_afresh
    (h : heap) (v : loc) (c : combinator) (v' : loc) (h' : heap) :
  run h v c = Ok (v', h') ->
  exists t' o' d',
    tables h' !! v' = Some t' /\ optdicts h' !! options t' = Some o' /\
    coldicts h' !! columns t' = Some d' /\
    length t' = None /\
    statement (Ok (v', h')) = Ok (statement_of (name t') d' o') /\
    forall execute : string -> result Z,
      len execute h' v'
      = (n <- execute
                match opt_group o' with
                | Some _ =>
                    "WITH temp as (" +:+ statement_of (name t') d' o'
                      +:+ ") SELECT COUNT(*) from temp"
                | None =>
                    "SELECT COUNT(*) FROM " +:+ name t' +:+ " " +:+ where_segment o'
                      +:+ " " +:+ " " +:+ formulate_sort o' empty_options
                      +:+ " " +:+ formulate_limit o' empty_options
                end ;;
         Ok (n, set_table h' v' (with_length t' n))).
Proof.
  intros H.
  destruct (run_Ok_receiver h v c _ H) as (t & o & d & Ht & Ho & Hd).
  destruct (run_Ok_view h v c v' h' t o d Ht Ho Hd H) as (lc & lo & o' & d' & Ht' & Ho' & Hd').
  exists (mkTable (db t) (name t) lc lo None), o', d'.
  split; [exact Ht'|]. split; [exact Ho'|]. split; [exact Hd'|]. split; [reflexivity|].
  split; [exact (statement_of_view v' h' _ o' d' Ht' Ho' Hd')|].
  intros execute. unfold len, get_table. rewrite Ht'. cbn [bind length].
  rewrite (count_statement_of_view h' v' _ o' d' Ht' Ho' Hd'). reflexivity.
Qed.

(** C10 on [R.group("b", collect="COUNT")], where [R] holds the count 3;
    the statements counted for that view, for [R.where(R.a > 0)] and for
    [R]. *)
Lemma derived_view_witness :
  (exists t' o' d',
     tables (snd grouped_R) !! fst grouped_R = Some t' /\
     optdicts (snd grouped_R) !! options t' = Some o' /\
     coldicts (snd grouped_R) !! columns t' = Some d' /\
     length t' = None /\
     statement (Ok (fst grouped_R, snd grouped_R)) = Ok (statement_of (name t') d' o') /\
     forall execute : string -> result Z,
       len execute (snd grouped_R) (fst grouped_R)
       = (n <- execute
                 match opt_group o' with
                 | Some _ =>
                     "WITH temp as (" +:+ statement_of (name t') d' o'
                       +:+ ") SELECT COUNT(*) from temp"
                 | None =>
                     "SELECT COUNT(*) FROM " +:+ name t' +:+ " " +:+ where_segment o'
                       +:+ " " +:+ " " +:+ formulate_sort o' empty_options
                       +:+ " " +:+ formulate_limit o' empty_options
                 end ;;
          Ok (n, set_table (snd grouped_R) (fst grouped_R) (with_length t' n)))) /\
  tables counted_R !! 0 = Some (mkTable 0 "R" 0 0 (Some 3%Z)) /\
  count_statement (snd grouped_R) (fst grouped_R)
  = Ok "WITH temp as (SELECT COUNT(a),COUNT(b) FROM R  GROUP BY b  ) SELECT COUNT(*) from temp" /\
  count_statement (snd filtered_counted_R) (fst filtered_counted_R)
  = Ok "SELECT COUNT(*) FROM R WHERE (a > 0)   " /\
  count_statement counted_R 0 = Ok "SELECT COUNT(*) FROM R    ".
Proof.
  split.
  - exact (derived_view_counts_afresh counted_R 0 (Group (KName "b") None (Some "COUNT"))
             (fst grouped_R) (snd grouped_R) eq_refl).
  - repeat split; reflexivity.
Defined.

(** ** A filter applied twice *)






Lemma statement_bind {A} (r : result A) (k : A -> loc * heap) (f : A -> result string) :
  (forall a, statement (Ok (k a)) = f a) ->
  statement (a <- r ;; Ok (k a)) = (a <- r ;; f a).
Proof. intros H. destruct r as [a|e]; [apply H | reflexivity]. Qed.




